(** * Reconciliation of a canonical stock feed with two marketplace catalogs

    A shallow embedding of [seller.py] (the Ozon channel) and [market.py]
    (the Yandex Market channel): the normalisers [price_conversion] and the
    quantity rule, the reconciliation functions [create_stocks] and
    [create_prices], the paginated enumeration [get_offer_ids] and the
    chunker [divide].

    Conventions of the embedding.
    - A Python [str] is a Rocq [string] holding its UTF-8 encoding.  The
      only characters the code inspects (["."], the digits, the sign, the
      underscore and white space) are ASCII, and no byte of a multi-byte
      UTF-8 sequence is ASCII, so splitting on ["."] and deleting the
      characters outside [0-9] give the same text on bytes as on code
      points.
    - A value read from a feed row is [None], an [int] or a [str]
      ([pyval]); floats are outside the model.  An [int] of a feed is a
      number cell of the spreadsheet, at most an integral double, so it
      has far fewer digits than the 4300 from which CPython refuses to
      print an [int]: [str] of it ([py_str]) always gives a text.  A text
      cell can be longer than that, and [int] of a text ([py_int]) has the
      limit.
    - A Python list that is mutated in place lives in a store and is
      passed by reference ([loc]); a call returns the store it leaves
      behind, also when it raises.
    - [datetime.utcnow()] reads a clock that is part of the world. *)

From Stdlib Require Import ZArith Ascii String List Lia.
From stdpp Require Import base decidable option list strings gmap pretty.

Open Scope string_scope.
Open Scope list_scope.
Open Scope Z_scope.

(** ** Values, exceptions, results *)

Inductive pyval : Type :=
  | PyNone
  | PyInt (z : Z)
  | PyStr (s : string).

Inductive exn : Type :=
  | ValueError
  | TypeError
  | AttributeError
  | IndexError
  | SystemError
  | HTTPError
  | ConnectionError.

Inductive result (A : Type) : Type :=
  | Ok (a : A)
  | Raise (e : exn).
Arguments Ok {A} a.
Arguments Raise {A} e.

Global Instance pyval_eq_dec : EqDecision pyval.
Proof. solve_decision. Defined.
Global Instance exn_eq_dec : EqDecision exn.
Proof. solve_decision. Defined.

Definition is_Ok {A} (r : result A) : Prop :=
  match r with Ok _ => True | Raise _ => False end.

Definition raises {A} (r : result A) : Prop :=
  match r with Ok _ => False | Raise _ => True end.

(** ** Text *)

Definition is_digit (c : ascii) : bool :=
  ((48 <=? nat_of_ascii c) && (nat_of_ascii c <=? 57))%nat.

Definition digit_value (c : ascii) : Z := Z.of_nat (nat_of_ascii c) - 48.

(** [Py_ISSPACE]: the six ASCII white-space characters. *)
Definition is_space (c : ascii) : bool :=
  (((9 <=? nat_of_ascii c) && (nat_of_ascii c <=? 13)) || (nat_of_ascii c =? 32))%nat.

Definition is_ascii_char (c : ascii) : bool := (nat_of_ascii c <? 128)%nat.

Fixpoint string_forall (p : ascii → bool) (s : string) : bool :=
  match s with
  | EmptyString => true
  | String c s' => p c && string_forall p s'
  end.

Fixpoint string_filter (p : ascii → bool) (s : string) : string :=
  match s with
  | EmptyString => EmptyString
  | String c s' => if p c then String c (string_filter p s') else string_filter p s'
  end.

(** [str(v)] *)
Definition py_str (v : pyval) : string :=
  match v with
  | PyNone => "None"
  | PyInt z => pretty z
  | PyStr s => s
  end.

(** *** [int(text)]

    CPython first maps the text to ASCII
    ([_PyUnicode_TransformDecimalAndSpaceToASCII]): an ASCII text is taken
    as it is, in any other text the Unicode spaces and decimal digits are
    replaced by their ASCII counterparts.  That replacement reads the
    Unicode character database, which is not part of this repository; it
    is a parameter of the development.  The result is parsed by
    [PyLong_FromString] in base ten: white space, an optional sign, digits
    with single underscores between them, white space.  A text that
    passes has still to pass the limit on the number of its digits
    ([sys.int_max_str_digits]): base ten is not a power of two, so a text
    of more digits than the limit, leading zeros included and underscores
    not counted, is a [ValueError] like a text that is no number. *)

Class UnicodeDB := decimal_and_space_to_ascii : string → string.

(** [sys.int_max_str_digits]: its default, which the program never
    changes. *)
Definition int_max_str_digits : Z := 4300.

Fixpoint skip_spaces (s : string) : string :=
  match s with
  | String c s' => if is_space c then skip_spaces s' else s
  | EmptyString => EmptyString
  end.

(** The scanning loop over digits and underscores: [prev_us] records that
    the previous character was an underscore, [n] counts the digits. *)
Fixpoint scan_digits (prev_us : bool) (acc : Z) (n : nat) (s : string)
  : option (Z * nat * string) :=
  match s with
  | String c s' =>
      if is_digit c then scan_digits false (10 * acc + digit_value c) (S n) s'
      else if Ascii.eqb c "_" then
        if prev_us then None else scan_digits true acc n s'
      else if prev_us then None else Some (acc, n, s)
  | EmptyString => if prev_us then None else Some (acc, n, s)
  end.

Definition parse_sign (s : string) : Z * string :=
  match s with
  | String c s' =>
      if Ascii.eqb c "+" then (1, s')
      else if Ascii.eqb c "-" then (-1, s')
      else (1, s)
  | EmptyString => (1, s)
  end.

Definition starts_with_underscore (s : string) : bool :=
  match s with
  | String c _ => Ascii.eqb c "_"
  | EmptyString => false
  end.

Definition long_from_string (s : string) : option Z :=
  let '(sign, s1) := parse_sign (skip_spaces s) in
  if starts_with_underscore s1 then None
  else
    match scan_digits false 0 0 s1 with
    | Some (v, n, rest) =>
        match n, skip_spaces rest with
        | S _, EmptyString =>
            if int_max_str_digits <? Z.of_nat n then None else Some (sign * v)
        | _, _ => None
        end
    | None => None
    end.

Definition to_ascii `{U : UnicodeDB} (s : string) : string :=
  if string_forall is_ascii_char s then s else decimal_and_space_to_ascii s.

(** [int(v)] *)
Definition py_int `{U : UnicodeDB} (v : pyval) : result Z :=
  match v with
  | PyNone => Raise TypeError
  | PyInt z => Ok z
  | PyStr s =>
      match long_from_string (to_ascii s) with
      | Some z => Ok z
      | None => Raise ValueError
      end
  end.

(** [s.split(sep)] for a separator of one character: the fields between
    the occurrences of [sep]; never empty. *)
Fixpoint split (sep : ascii) (s : string) : list string :=
  match s with
  | EmptyString => [EmptyString]
  | String c s' =>
      if Ascii.eqb c sep then EmptyString :: split sep s'
      else
        match split sep s' with
        | f :: fs => String c f :: fs
        | [] => [String c EmptyString]
        end
  end.

(** [l[i]] for [0 <= i] *)
Definition py_index {A} (l : list A) (i : nat) : result A :=
  match l !! i with
  | Some x => Ok x
  | None => Raise IndexError
  end.

(** [re.sub(cls, repl, s)] for a pattern that is one character class:
    every character of the class is replaced by [repl]. *)
Fixpoint re_sub (cls : ascii → bool) (repl : string) (s : string) : string :=
  match s with
  | EmptyString => EmptyString
  | String c s' =>
      if cls c then repl +:+ re_sub cls repl s' else String c (re_sub cls repl s')
  end.

(** The class ["[^0-9]"]. *)
Definition not_0_9 (c : ascii) : bool := negb (is_digit c).

(** ** The world: a store of lists and a clock *)

Record datetime : Type := Datetime {
  year : nat; month : nat; day : nat;
  hour : nat; minute : nat; second : nat;
  microsecond : nat
}.

Definition loc : Type := nat.

Record world : Type := World {
  heap : gmap nat (list string);   (* the list objects, by reference *)
  clock : nat → datetime;           (* what the n-th reading of the clock gives *)
  ticks : nat                       (* how many readings were taken *)
}.

Definition M (A : Type) : Type := world → result A * world.

Global Instance M_ret : MRet M := λ A a w, (Ok a, w).

Global Instance M_bind : MBind M := λ A B f m w,
  match m w with
  | (Ok a, w') => f a w'
  | (Raise e, w') => (Raise e, w')
  end.

Definition raise {A} (e : exn) : M A := λ w, (Raise e, w).

Definition lift {A} (r : result A) : M A := λ w, (r, w).

(** Reading the list at [r].  Every reference a Python program holds is
    to a live object; for a reference the store does not hold the model
    answers [SystemError], which no theorem below relies on. *)
Definition load (r : loc) : M (list string) := λ w,
  match heap w !! r with
  | Some l => (Ok l, w)
  | None => (Raise SystemError, w)
  end.

Definition store (r : loc) (l : list string) : M unit := λ w,
  (Ok (), World (<[r := l]> (heap w)) (clock w) (ticks w)).

(** [x in l] *)
Definition list_contains (r : loc) (x : string) : M bool :=
  l ← load r; mret (bool_decide (x ∈ l)).

Fixpoint remove_first (x : string) (l : list string) : list string :=
  match l with
  | [] => []
  | y :: l' => if decide (x = y) then l' else y :: remove_first x l'
  end.

(** [l.remove(x)]: the first occurrence goes; [ValueError] when there is
    none. *)
Definition list_remove (r : loc) (x : string) : M unit :=
  l ← load r;
  if bool_decide (x ∈ l) then store r (remove_first x l) else raise ValueError.

(** [datetime.datetime.utcnow()] *)
Definition utcnow : M datetime := λ w,
  (Ok (clock w (ticks w)), World (heap w) (clock w) (S (ticks w))).

(** [for x in l: body], with the local variables the body assigns as [s] *)
Fixpoint for_in {A S : Type} (l : list A) (body : A → S → M S) (s : S) : M S :=
  match l with
  | [] => mret s
  | x :: l' => s' ← body x s; for_in l' body s'
  end.

(** *** [datetime] *)

(** [d.replace(microsecond=0)] *)
Definition replace_microsecond (d : datetime) (us : nat) : datetime :=
  Datetime (year d) (month d) (day d) (hour d) (minute d) (second d) us.

Fixpoint zeros (n : nat) : string :=
  match n with
  | O => EmptyString
  | S n' => String "0" (zeros n')
  end.

(** [%0wd] *)
Definition zfill (w : nat) (n : nat) : string :=
  let s := pretty n in zeros (w - String.length s) +:+ s.

(** [d.isoformat()] *)
Definition isoformat (d : datetime) : string :=
  zfill 4 (year d) +:+ "-" +:+ zfill 2 (month d) +:+ "-" +:+ zfill 2 (day d)
  +:+ "T" +:+ zfill 2 (hour d) +:+ ":" +:+ zfill 2 (minute d) +:+ ":" +:+ zfill 2 (second d)
  +:+ (if decide (microsecond d = 0%nat) then EmptyString
       else "." +:+ zfill 6 (microsecond d)).

(** ** Feed rows *)

(** A row of the feed is a dict; [watch.get(key)] is [None] for a missing
    key. *)
Abbreviation feed_row := (gmap string pyval).

Definition get (w : feed_row) (key : string) : pyval := default PyNone (w !! key).

(** The quantity rule of [create_stocks] (seller.py 211-217, market.py
    189-195: the same text), on the value of the quantity column. *)
Definition stock_of `{U : UnicodeDB} (quantity : pyval) : result Z :=
  let count := py_str quantity in
  if decide (count = ">10") then Ok 100
  else if decide (count = "1") then Ok 0
  else py_int quantity.

(** [range(start, stop, step)] *)
Definition range_length (start stop step : Z) : Z :=
  if 0 <? step then
    if start <? stop then (stop - start - 1) / step + 1 else 0
  else
    if stop <? start then (start - stop - 1) / (- step) + 1 else 0.

Definition py_range (start stop step : Z) : result (list Z) :=
  if decide (step = 0) then Raise ValueError
  else Ok (map (λ k : nat, start + Z.of_nat k * step)
               (seq 0 (Z.to_nat (range_length start stop step)))).

(** [l[i:j]]: negative bounds count from the end, all bounds are clamped. *)
Definition clamp_index (len i : Z) : Z :=
  if i <? 0 then Z.max (i + len) 0 else Z.min i len.

Definition py_slice {A} (l : list A) (i j : Z) : list A :=
  let len := Z.of_nat (length l) in
  let i' := clamp_index len i in
  let j' := clamp_index len j in
  take (Z.to_nat (j' - i')) (drop (Z.to_nat i') l).

(** ** seller.py *)

Module Seller.

(** What [get_product_list] returns: the ["result"] of one page of the
    listing.  A product is kept by the value of its ["offer_id"]. *)
Record product_page : Type := ProductPage {
  items : list string;
  total : Z;
  last_id : string
}.

(** [{"offer_id": ..., "stock": ...}] *)
Record stock_entry : Type := StockEntry {
  offer_id : string;
  stock : Z
}.

(** The dict built by [create_prices]. *)
Record price_entry : Type := PriceEntry {
  auto_action_enabled : string;
  currency_code : string;
  price_offer_id : string;
  old_price : string;
  price : string
}.

(** The [while True] loop of [get_offer_ids].  [script] lists what the
    successive calls of [get_product_list] give (a page, or the error
    the request raises); the loop asks for one more page when the script
    is used up, which is [None] here. *)
Fixpoint fetch_products (script : list (result product_page))
    (product_list : list string) : option (result (list string)) :=
  match script with
  | [] => None
  | Raise e :: _ => Some (Raise e)
  | Ok some_prod :: script' =>
      let product_list := product_list ++ items some_prod in
      if decide (total some_prod = Z.of_nat (length product_list))
      then Some (Ok product_list)
      else fetch_products script' product_list
  end.

Definition get_offer_ids (script : list (result product_page))
  : option (result (list string)) :=
  match fetch_products script [] with
  | Some (Ok product_list) =>
      Some (Ok (foldl (λ offer_ids product, offer_ids ++ [product]) [] product_list))
  | Some (Raise e) => Some (Raise e)
  | None => None
  end.

Definition create_stocks `{U : UnicodeDB} (watch_remnants : list feed_row) (offer_ids : loc)
  : M (list stock_entry) :=
  stocks ← for_in watch_remnants (λ watch stocks,
    found ← list_contains offer_ids (py_str (get watch "Код"));
    if (found : bool) then
      stock ← lift (stock_of (get watch "Количество"));
      let stocks := stocks ++ [StockEntry (py_str (get watch "Код")) stock] in
      list_remove offer_ids (py_str (get watch "Код"));;
      mret stocks
    else mret stocks) [];
  remaining ← load offer_ids;
  for_in remaining (λ offer_id stocks,
    mret (stocks ++ [StockEntry offer_id 0])) stocks.

Definition price_conversion (price : pyval) : result string :=
  match price with
  | PyStr s =>
      match py_index (split "." s) 0 with
      | Ok whole => Ok (re_sub not_0_9 "" whole)
      | Raise e => Raise e
      end
  | _ => Raise AttributeError
  end.

Definition create_prices (watch_remnants : list feed_row) (offer_ids : loc)
  : M (list price_entry) :=
  for_in watch_remnants (λ watch prices,
    found ← list_contains offer_ids (py_str (get watch "Код"));
    if (found : bool) then
      converted ← lift (price_conversion (get watch "Цена"));
      mret (prices ++
            [PriceEntry "UNKNOWN" "RUB" (py_str (get watch "Код")) "0" converted])
    else mret prices) [].

(** The generator [divide], by the list of what it yields. *)
Definition divide {A} (lst : list A) (n : Z) : result (list (list A)) :=
  match py_range 0 (Z.of_nat (length lst)) n with
  | Ok starts => Ok (map (λ i, py_slice lst i (i + n)) starts)
  | Raise e => Raise e
  end.

End Seller.

(** ** market.py *)

Module Market.

(** The ["result"] of one page: the ["shopSku"] of every entry of
    ["offerMappingEntries"], and ["paging"]["nextPageToken"]. *)
Record product_page : Type := ProductPage {
  offerMappingEntries : list string;
  nextPageToken : pyval
}.

Record item : Type := Item {
  count : Z;
  type : string;
  updatedAt : string
}.

Record stock_entry : Type := StockEntry {
  sku : string;
  warehouseId : string;
  items : list item
}.

Record price_value : Type := PriceValue {
  value : Z;
  currencyId : string
}.

Record price_entry : Type := PriceEntry {
  price_id : string;
  price : price_value
}.

(** [not page] *)
Definition falsy (v : pyval) : bool :=
  match v with
  | PyNone => true
  | PyInt z => bool_decide (z = 0)
  | PyStr s => bool_decide (s = "")
  end.

Fixpoint fetch_products (script : list (result product_page))
    (product_list : list string) : option (result (list string)) :=
  match script with
  | [] => None
  | Raise e :: _ => Some (Raise e)
  | Ok some_prod :: script' =>
      let product_list := product_list ++ offerMappingEntries some_prod in
      if falsy (nextPageToken some_prod)
      then Some (Ok product_list)
      else fetch_products script' product_list
  end.

Definition get_offer_ids (script : list (result product_page))
  : option (result (list string)) :=
  match fetch_products script [] with
  | Some (Ok product_list) =>
      Some (Ok (foldl (λ offer_ids product, offer_ids ++ [product]) [] product_list))
  | Some (Raise e) => Some (Raise e)
  | None => None
  end.

Definition create_stocks `{U : UnicodeDB} (watch_remnants : list feed_row) (offer_ids : loc)
    (warehouse_id : string) : M (list stock_entry) :=
  now ← utcnow;
  let date := isoformat (replace_microsecond now 0) +:+ "Z" in
  stocks ← for_in watch_remnants (λ watch stocks,
    found ← list_contains offer_ids (py_str (get watch "Код"));
    if (found : bool) then
      stock ← lift (stock_of (get watch "Количество"));
      let stocks := stocks ++
        [StockEntry (py_str (get watch "Код")) warehouse_id [Item stock "FIT" date]] in
      list_remove offer_ids (py_str (get watch "Код"));;
      mret stocks
    else mret stocks) [];
  remaining ← load offer_ids;
  for_in remaining (λ offer_id stocks,
    mret (stocks ++ [StockEntry offer_id warehouse_id [Item 0 "FIT" date]])) stocks.

Definition create_prices `{U : UnicodeDB} (watch_remnants : list feed_row) (offer_ids : loc)
  : M (list price_entry) :=
  for_in watch_remnants (λ watch prices,
    found ← list_contains offer_ids (py_str (get watch "Код"));
    if (found : bool) then
      converted ← lift (Seller.price_conversion (get watch "Цена"));
      value ← lift (py_int (PyStr converted));
      mret (prices ++
            [PriceEntry (py_str (get watch "Код")) (PriceValue value "RUR")])
    else mret prices) [].

End Market.

(** ** The specification's words, and sample data *)

(** "Discard everything from the first decimal point onward". *)
Fixpoint before_first_dot (s : string) : string :=
  match s with
  | EmptyString => EmptyString
  | String c s' => if Ascii.eqb c "." then EmptyString else String c (before_first_dot s')
  end.

(** "Strip every character that is not an ASCII digit". *)
Definition strip_non_digits (s : string) : string := string_filter is_digit s.

(** A character database in which no text outside ASCII is a number. *)
Definition ascii_numbers_only : UnicodeDB := λ _, "?".

(** A row of the feed with its three columns. *)
Definition row (code price quantity : pyval) : feed_row :=
  <["Код" := code]> (<["Цена" := price]> (<["Количество" := quantity]> ∅)).

(** A world with one list object, at reference [0], and a clock that
    starts on 2025-02-06 08:53:21.000123 and advances a second a reading. *)
Definition sample_world (ids : list string) : world :=
  World {[ 0%nat := ids ]} (λ n, Datetime 2025 2 6 8 53 (21 + n) 123) 0.


(** The [k]-th block of [m] consecutive elements of a list. *)
Definition block {A} (lst : list A) (m k : nat) : list A :=
  take m (drop (k * m) lst).

(** [ceil(len / n)] *)
Definition ceil_div (len n : Z) : Z := (len + n - 1) / n.

(** ** Devices of the proofs about the reconciliation *)

(** The world in which the list at [r] has become [l]. *)
Definition with_list (w : world) (r : loc) (l : list string) : world :=
  World (<[r := l]> (heap w)) (clock w) (ticks w).

(** The first loop of [create_stocks], read as a function of the content
    of the list of offer ids: what it has appended to [stocks], or the
    error that stopped it, and what it has left in the list.  [mk] builds
    the entry of a code and a count. *)
Fixpoint match_rows `{U : UnicodeDB} {E} (mk : string → Z → E)
    (rows : list feed_row) (ids : list string) (stocks : list E)
  : result (list E) * list string :=
  match rows with
  | [] => (Ok stocks, ids)
  | watch :: rows' =>
      let code := py_str (get watch "Код") in
      if bool_decide (code ∈ ids) then
        match stock_of (get watch "Количество") with
        | Ok stock =>
            match_rows mk rows' (remove_first code ids) (stocks ++ [mk code stock])
        | Raise e => (Raise e, ids)
        end
      else match_rows mk rows' ids stocks
  end.

(** The number of clock readings a computation takes in a world. *)
Definition clock_reads {A} (m : M A) (w : world) : nat :=
  (ticks (m w).2 - ticks w)%nat.

(** An instant in ISO 8601 to the second, with the UTC designator:
    [YYYY-MM-DDTHH:MM:SSZ]. *)
Definition iso_seconds_utc (d : datetime) : string :=
  zfill 4 (year d) +:+ "-" +:+ zfill 2 (month d) +:+ "-" +:+ zfill 2 (day d)
  +:+ "T" +:+ zfill 2 (hour d) +:+ ":" +:+ zfill 2 (minute d) +:+ ":"
  +:+ zfill 2 (second d) +:+ "Z".

(** The text [market.py] puts in ["updatedAt"] for a clock reading. *)
Definition market_date (now : datetime) : string :=
  isoformat (replace_microsecond now 0) +:+ "Z".

(** The world after one more reading of the clock. *)
Definition tick (w : world) : world := World (heap w) (clock w) (S (ticks w)).

(** The loop of [create_prices], read as a function of the content of the
    list of offer ids; [mk] builds the entry of a row, or fails. *)
Fixpoint price_rows {E} (mk : feed_row → result E)
    (rows : list feed_row) (ids : list string) (prices : list E) : result (list E) :=
  match rows with
  | [] => Ok prices
  | watch :: rows' =>
      if bool_decide (py_str (get watch "Код") ∈ ids) then
        match mk watch with
        | Ok entry => price_rows mk rows' ids (prices ++ [entry])
        | Raise e => Raise e
        end
      else price_rows mk rows' ids prices
  end.

(** The entry [create_prices] of seller.py builds for a row. *)
Definition seller_price (watch : feed_row) : result Seller.price_entry :=
  match Seller.price_conversion (get watch "Цена") with
  | Ok converted =>
      Ok (Seller.PriceEntry "UNKNOWN" "RUB" (py_str (get watch "Код")) "0" converted)
  | Raise e => Raise e
  end.

(** The entry [create_prices] of market.py builds for a row. *)
Definition market_price `{U : UnicodeDB} (watch : feed_row) : result Market.price_entry :=
  match Seller.price_conversion (get watch "Цена") with
  | Ok converted =>
      match py_int (PyStr converted) with
      | Ok value =>
          Ok (Market.PriceEntry (py_str (get watch "Код")) (Market.PriceValue value "RUR"))
      | Raise e => Raise e
      end
  | Raise e => Raise e
  end.

(** The codes of the rows of a feed, as [create_stocks] and
    [create_prices] compare them. *)
Definition codes (rows : list feed_row) : list string :=
  map (λ watch, py_str (get watch "Код")) rows.


(** ** Further devices: the value of a text of digits *)




(** The rows of a feed whose code is in a list of offer ids, in the order
    of the feed. *)
Definition listed (ids : list string) (rows : list feed_row) : list feed_row :=
  filter (λ watch, py_str (get watch "Код") ∈ ids) rows.

(** The offer ids of the first [n] pages of a listing. *)
Definition ozon_ids (pages : list Seller.product_page) (n : nat) : list string :=
  concat (map Seller.items (take n pages)).

Definition market_ids (pages : list Market.product_page) (n : nat) : list string :=
  concat (map Market.offerMappingEntries (take n pages)).

(** How often the offer id [x] is in [l]. *)
Definition occurrences (x : string) (l : list string) : nat :=
  length (filter (λ y, y = x) l).

(** The test that ends the loop of [get_offer_ids] of seller.py holds on
    page [i]: the total that page reports is the number of products read
    up to it. *)
Definition ozon_done (pages : list Seller.product_page) (i : nat) : Prop :=
  ∃ page, pages !! i = Some page ∧
          Seller.total page = Z.of_nat (length (ozon_ids pages (S i))).

(** The test that ends the loop of [get_offer_ids] of market.py holds on
    page [i]: the page has no next page token. *)
Definition market_done (pages : list Market.product_page) (i : nat) : Prop :=
  ∃ page, pages !! i = Some page ∧ Market.falsy (Market.nextPageToken page) = true.

(** ** The marketplaces, the feed server and the console

    The functions of [seller.py] and [market.py] that exchange messages:
    a request is kept by its endpoint, the credentials it carries and its
    payload; what the servers answer is given beforehand, one script per
    kind of endpoint, an entry being the answer or the exception that
    [requests] or [raise_for_status] raises.  A request for which the
    script has no entry left is sent and never answered ([Waiting]).
    The body of the answer of an update, which no caller reads, is not
    kept.  Of [download_stock] the model keeps the request and the rows
    that come out of the spreadsheet; the archive, the file and the parser
    are outside it.  The credentials and ids that [main] reads from the
    environment are its arguments. *)

(** The exceptions the handlers of [main] tell apart. *)
Inductive failure : Type :=
  | ReadTimeout
  | Py (e : exn).

Inductive request : Type :=
  | GetArchive
  | OzonProductList (client_id seller_token last_id : string)
  | OzonImportPrices (client_id seller_token : string)
                     (prices : list Seller.price_entry)
  | OzonImportStocks (client_id seller_token : string)
                     (stocks : list Seller.stock_entry)
  | MarketOfferMappingEntries (campaign_id access_token : string) (page_token : pyval)
  | MarketStocks (campaign_id access_token : string) (skus : list Market.stock_entry)
  | MarketPriceUpdates (campaign_id access_token : string)
                       (offers : list Market.price_entry).

(** What [print] is called with: the exception, when it is printed, and
    the text. *)
Inductive notice : Type :=
  | Notice (error : option failure) (text : string).

Inductive outcome (A : Type) : Type :=
  | Done (a : A)
  | Failed (e : failure)
  | Waiting.
Arguments Done {A} a.
Arguments Failed {A} e.
Arguments Waiting {A}.

Record remote : Type := Remote {
  local : world;
  sent : list request;                                   (* oldest first *)
  ozon_pages : list (failure + Seller.product_page);
  market_pages : list (failure + Market.product_page);
  updates : list (failure + unit);
  archives : list (failure + list feed_row);
  printed : list notice                                  (* oldest first *)
}.

Definition Run (A : Type) : Type := remote → outcome A * remote.

Global Instance Run_ret : MRet Run := λ A a st, (Done a, st).

Global Instance Run_bind : MBind Run := λ A B f m st,
  match m st with
  | (Done a, st') => f a st'
  | (Failed e, st') => (Failed e, st')
  | (Waiting, st') => (Waiting, st')
  end.

Definition with_local (st : remote) (w : world) : remote :=
  Remote w (sent st) (ozon_pages st) (market_pages st) (updates st) (archives st)
         (printed st).

Definition with_ozon_pages (st : remote) (l : list (failure + Seller.product_page))
  : remote :=
  Remote (local st) (sent st) l (market_pages st) (updates st) (archives st) (printed st).

Definition with_market_pages (st : remote) (l : list (failure + Market.product_page))
  : remote :=
  Remote (local st) (sent st) (ozon_pages st) l (updates st) (archives st) (printed st).

Definition with_updates (st : remote) (l : list (failure + unit)) : remote :=
  Remote (local st) (sent st) (ozon_pages st) (market_pages st) l (archives st)
         (printed st).

Definition with_archives (st : remote) (l : list (failure + list feed_row)) : remote :=
  Remote (local st) (sent st) (ozon_pages st) (market_pages st) (updates st) l
         (printed st).

Definition log (req : request) (st : remote) : remote :=
  Remote (local st) (sent st ++ [req]) (ozon_pages st) (market_pages st) (updates st)
         (archives st) (printed st).

(** [print(...)] *)
Definition print (n : notice) : Run unit := λ st,
  (Done (), Remote (local st) (sent st) (ozon_pages st) (market_pages st)
                   (updates st) (archives st) (printed st ++ [n])).

(** A computation on the store and the clock, inside a run. *)
Definition lift_M {A} (m : M A) : Run A := λ st,
  match m (local st) with
  | (Ok a, w) => (Done a, with_local st w)
  | (Raise e, w) => (Failed (Py e), with_local st w)
  end.

(** One request and its answer: the request goes out, then the next entry
    of the script of its endpoint is the answer or the exception. *)
Definition exchange {R} (req : request) (script : remote → list (failure + R))
    (leave : remote → list (failure + R) → remote) : Run R := λ st,
  match script (log req st) with
  | [] => (Waiting, log req st)
  | inl e :: rest => (Failed e, leave (log req st) rest)
  | inr r :: rest => (Done r, leave (log req st) rest)
  end.

(** [for x in l: body], for a body with no local variable. *)
Fixpoint for_each {A} (l : list A) (body : A → Run unit) : Run unit :=
  match l with
  | [] => mret ()
  | x :: l' => body x;; for_each l' body
  end.

(** [try: body / except ...: handler] where the handlers together catch
    every exception. *)
Definition try_except (body : Run unit) (handler : failure → Run unit) : Run unit := λ st,
  match body st with
  | (Failed e, st') => handler e st'
  | other => other
  end.

(** The three [except] clauses of [main], in their order. *)
Definition report (e : failure) : Run unit :=
  match e with
  | ReadTimeout => print (Notice None "Превышено время ожидания...")
  | Py ConnectionError => print (Notice (Some e) "Ошибка соединения")
  | Py _ => print (Notice (Some e) "ERROR_2")
  end.

(** A new list object. *)
Definition alloc (l : list string) : M loc := λ w,
  let r := fresh (dom (heap w)) in
  (Ok r, World (<[r := l]> (heap w)) (clock w) (ticks w)).

(** Calling an [async def] function builds a coroutine object and runs
    nothing of its body; the body runs when the coroutine is awaited. *)
Definition never_awaited {A} (body : Run A) : Run unit := mret ().

(** [download_stock()] *)
Definition download_stock : Run (list feed_row) :=
  exchange GetArchive archives with_archives.

Module SellerRun.

Definition get_product_list (last_id client_id seller_token : string)
  : Run Seller.product_page :=
  exchange (OzonProductList client_id seller_token last_id) ozon_pages with_ozon_pages.

(** The [while True] loop of [get_offer_ids]; every turn takes an entry of
    the script, so [fuel] above the length of the script is never used
    up. *)
Fixpoint fetch_products (fuel : nat) (client_id seller_token last_id : string)
    (product_list : list string) : Run (list string) :=
  match fuel with
  | O => λ st, (Waiting, st)
  | S fuel' =>
      some_prod ← get_product_list last_id client_id seller_token;
      let product_list := product_list ++ Seller.items some_prod in
      if decide (Seller.total some_prod = Z.of_nat (length product_list))
      then mret product_list
      else fetch_products fuel' client_id seller_token (Seller.last_id some_prod)
                          product_list
  end.

Definition get_offer_ids (client_id seller_token : string) : Run loc := λ st,
  (product_list ← fetch_products (S (length (ozon_pages st)))
                                 client_id seller_token "" [];
   lift_M (alloc (foldl (λ offer_ids product, offer_ids ++ [product]) []
                        product_list))) st.

Definition update_price (prices : list Seller.price_entry)
    (client_id seller_token : string) : Run unit :=
  exchange (OzonImportPrices client_id seller_token prices) updates with_updates.

Definition update_stocks (stocks : list Seller.stock_entry)
    (client_id seller_token : string) : Run unit :=
  exchange (OzonImportStocks client_id seller_token stocks) updates with_updates.

(** The body of the coroutine [upload_prices]. *)
Definition upload_prices (watch_remnants : list feed_row)
    (client_id seller_token : string) : Run (list Seller.price_entry) :=
  offer_ids ← get_offer_ids client_id seller_token;
  prices ← lift_M (Seller.create_prices watch_remnants offer_ids);
  chunks ← lift_M (lift (Seller.divide prices 1000));
  for_each chunks (λ some_price, update_price some_price client_id seller_token);;
  mret prices.

(** The body of the coroutine [upload_stocks]. *)
Definition upload_stocks `{U : UnicodeDB} (watch_remnants : list feed_row)
    (client_id seller_token : string)
  : Run (list Seller.stock_entry * list Seller.stock_entry) :=
  offer_ids ← get_offer_ids client_id seller_token;
  stocks ← lift_M (Seller.create_stocks watch_remnants offer_ids);
  chunks ← lift_M (lift (Seller.divide stocks 100));
  for_each chunks (λ some_stock, update_stocks some_stock client_id seller_token);;
  let not_empty := filter (λ stock, Seller.stock stock ≠ 0) stocks in
  mret (not_empty, stocks).

Definition main `{U : UnicodeDB} (seller_token client_id : string) : Run unit :=
  try_except
    (offer_ids ← get_offer_ids client_id seller_token;
     watch_remnants ← download_stock;
     stocks ← lift_M (Seller.create_stocks watch_remnants offer_ids);
     chunks ← lift_M (lift (Seller.divide stocks 100));
     for_each chunks (λ some_stock, update_stocks some_stock client_id seller_token);;
     prices ← lift_M (Seller.create_prices watch_remnants offer_ids);
     chunks ← lift_M (lift (Seller.divide prices 900));
     for_each chunks (λ some_price, update_price some_price client_id seller_token))
    report.

End SellerRun.

Module MarketRun.

Definition get_product_list (page : pyval) (campaign_id access_token : string)
  : Run Market.product_page :=
  exchange (MarketOfferMappingEntries campaign_id access_token page)
           market_pages with_market_pages.

Definition update_stocks (stocks : list Market.stock_entry)
    (campaign_id access_token : string) : Run unit :=
  exchange (MarketStocks campaign_id access_token stocks) updates with_updates.

Definition update_price (prices : list Market.price_entry)
    (campaign_id access_token : string) : Run unit :=
  exchange (MarketPriceUpdates campaign_id access_token prices) updates with_updates.

Fixpoint fetch_products (fuel : nat) (campaign_id market_token : string)
    (page : pyval) (product_list : list string) : Run (list string) :=
  match fuel with
  | O => λ st, (Waiting, st)
  | S fuel' =>
      some_prod ← get_product_list page campaign_id market_token;
      let product_list := product_list ++ Market.offerMappingEntries some_prod in
      let page := Market.nextPageToken some_prod in
      if Market.falsy page then mret product_list
      else fetch_products fuel' campaign_id market_token page product_list
  end.

Definition get_offer_ids (campaign_id market_token : string) : Run loc := λ st,
  (product_list ← fetch_products (S (length (market_pages st)))
                                 campaign_id market_token (PyStr "") [];
   lift_M (alloc (foldl (λ offer_ids product, offer_ids ++ [product]) []
                        product_list))) st.

(** The body of the coroutine [upload_prices]. *)
Definition upload_prices `{U : UnicodeDB} (watch_remnants : list feed_row)
    (campaign_id market_token : string) : Run (list Market.price_entry) :=
  offer_ids ← get_offer_ids campaign_id market_token;
  prices ← lift_M (Market.create_prices watch_remnants offer_ids);
  chunks ← lift_M (lift (Seller.divide prices 500));
  for_each chunks (λ some_prices, update_price some_prices campaign_id market_token);;
  mret prices.

(** The body of the coroutine [upload_stocks]. *)
Definition upload_stocks `{U : UnicodeDB} (watch_remnants : list feed_row)
    (campaign_id market_token warehouse_id : string)
  : Run (list Market.stock_entry * list Market.stock_entry) :=
  offer_ids ← get_offer_ids campaign_id market_token;
  stocks ← lift_M (Market.create_stocks watch_remnants offer_ids warehouse_id);
  chunks ← lift_M (lift (Seller.divide stocks 2000));
  for_each chunks (λ some_stock, update_stocks some_stock campaign_id market_token);;
  let not_empty :=
    filter (λ stock, (default 0 (Market.count <$> Market.items stock !! 0%nat)) ≠ 0)
           stocks in
  mret (not_empty, stocks).

Definition main `{U : UnicodeDB}
    (market_token campaign_fbs_id campaign_dbs_id warehouse_fbs_id warehouse_dbs_id
       : string) : Run unit :=
  watch_remnants ← download_stock;
  try_except
    (offer_ids ← get_offer_ids campaign_fbs_id market_token;
     stocks ← lift_M (Market.create_stocks watch_remnants offer_ids warehouse_fbs_id);
     chunks ← lift_M (lift (Seller.divide stocks 2000));
     for_each chunks
       (λ some_stock, update_stocks some_stock campaign_fbs_id market_token);;
     never_awaited (upload_prices watch_remnants campaign_fbs_id market_token);;
     offer_ids ← get_offer_ids campaign_dbs_id market_token;
     stocks ← lift_M (Market.create_stocks watch_remnants offer_ids warehouse_dbs_id);
     chunks ← lift_M (lift (Seller.divide stocks 2000));
     for_each chunks
       (λ some_stock, update_stocks some_stock campaign_dbs_id market_token);;
     never_awaited (upload_prices watch_remnants campaign_dbs_id market_token))
    report.

End MarketRun.

(** ** Devices of the proofs about the runs *)

(** [m], started in a state where [P] holds, ends with an outcome and in a
    state that [Q] relates. *)
Definition hoare {A} (P : remote → Prop) (m : Run A)
    (Q : outcome A → remote → Prop) : Prop :=
  ∀ st, P st → Q (m st).1 (m st).2.

(** Between [st] and [st'] only requests of the kind [K] were sent. *)
Definition sent_since (K : request → Prop) (st st' : remote) : Prop :=
  ∃ new, sent st' = sent st ++ new ∧ Forall K new.

(** The answers of a script, its failures left out. *)
Definition answers {R} (script : list (failure + R)) : list R :=
  omap (λ reply, match reply with inr a => Some a | inl _ => None end) script.

(** Two states of a run that differ at most in the requests sent and in
    the script of the Ozon listing. *)
Definition same_but_ozon (st st' : remote) : Prop :=
  local st' = local st ∧ market_pages st' = market_pages st ∧
  updates st' = updates st ∧ archives st' = archives st ∧ printed st' = printed st.

(** Two states of a run that differ at most in the requests sent and in
    the script of the Market listing. *)
Definition same_but_market (st st' : remote) : Prop :=
  local st' = local st ∧ ozon_pages st' = ozon_pages st ∧
  updates st' = updates st ∧ archives st' = archives st ∧ printed st' = printed st.

(** The requests [main] of seller.py may send: the download, listing
    requests and stock imports of at most a hundred entries, all with its
    credentials; no price import. *)
Definition seller_main_request (client_id seller_token : string) (req : request)
  : Prop :=
  match req with
  | GetArchive => True
  | OzonProductList c t _ => c = client_id ∧ t = seller_token
  | OzonImportStocks c t stocks =>
      c = client_id ∧ t = seller_token ∧ (0 < length stocks ≤ 100)%nat
  | _ => False
  end.

(** The requests [main] of market.py may send: the download, listing
    requests for its two campaigns, and stock updates of at most two
    thousand entries, each for one campaign with the warehouse of that
    campaign in every entry; no price update. *)
Definition market_main_request
    (market_token campaign_fbs_id campaign_dbs_id warehouse_fbs_id warehouse_dbs_id
       : string) (req : request) : Prop :=
  match req with
  | GetArchive => True
  | MarketOfferMappingEntries c t _ =>
      (c = campaign_fbs_id ∨ c = campaign_dbs_id) ∧ t = market_token
  | MarketStocks c t skus =>
      t = market_token ∧ (0 < length skus ≤ 2000)%nat ∧
      ((c = campaign_fbs_id ∧
        Forall (λ entry, Market.warehouseId entry = warehouse_fbs_id) skus) ∨
       (c = campaign_dbs_id ∧
        Forall (λ entry, Market.warehouseId entry = warehouse_dbs_id) skus))
  | _ => False
  end.

(** What [print] is called with in the handler of an exception: the text
    alone for a [ReadTimeout], the exception and the text otherwise. *)
Definition notice_of (e : failure) : notice :=
  match e with
  | ReadTimeout => Notice None "Превышено время ожидания..."
  | Py ConnectionError => Notice (Some e) "Ошибка соединения"
  | Py _ => Notice (Some e) "ERROR_2"
  end.

(** From [st] to [st'] a run has taken replies from the front of the
    scripts, and the failures among the replies it has taken are those of
    the list [met]. *)
Definition failures_met (st st' : remote) (met : list failure) : Prop :=
  ∃ oz mk up ar,
    ozon_pages st = oz ++ ozon_pages st' ∧
    market_pages st = mk ++ market_pages st' ∧
    updates st = up ++ updates st' ∧
    archives st = ar ++ archives st' ∧
    ∀ e, e ∈ met ↔ inl e ∈ oz ∨ inl e ∈ mk ∨ inl e ∈ up ∨ inl e ∈ ar.

(** A run that prints nothing, and that fails only with the failure a
    server has answered, the one failure among the replies it has taken,
    or, no such reply being a failure, with an exception of a computation
    of its own. *)
Definition orderly {A} (m : Run A) : Prop :=
  ∀ st,
    printed (m st).2 = printed st ∧
    match (m st).1 with
    | Failed e =>
        failures_met st (m st).2 [e] ∨
        (failures_met st (m st).2 [] ∧ ∃ exn, e = Py exn)
    | _ => failures_met st (m st).2 []
    end.

(** A run in which nothing was sent or printed yet: an empty store, the
    sample clock, and the given scripts. *)
Definition sample_remote
    (ozon : list (failure + Seller.product_page))
    (market : list (failure + Market.product_page))
    (upd : list (failure + unit))
    (arch : list (failure + list feed_row)) : remote :=
  Remote (World ∅ (λ n, Datetime 2025 2 6 8 53 (21 + n) 123) 0) [] ozon market upd arch [].

(** Decides which failures are among the replies taken, when one reply
    was taken from one script. *)
Ltac one_reply :=
  intros ?; rewrite ?list_elem_of_singleton, ?elem_of_nil; intuition congruence.

(** Closes the goal of a branch in which a run has stopped, from what was
    sent so far. *)
Ltac close_branch H :=
  first [exact H | split; [exact H|by right] | split; [exact H|by left]].

(** ** Text: basic facts *)

Lemma split_first (s : string) :
  ∃ fields, split "." s = before_first_dot s :: fields.
Proof.
  induction s as [|c s [fields IH]]; simpl.
  - by exists [].
  - destruct (Ascii.eqb c "."); [by eexists|].
    rewrite IH. by eexists.
Qed.

Lemma re_sub_not_0_9 (s : string) :
  re_sub not_0_9 "" s = strip_non_digits s.
Proof.
  unfold strip_non_digits, not_0_9.
  induction s as [|c s IH]; simpl; [done|].
  destruct (is_digit c); simpl; by rewrite IH.
Qed.

Lemma string_forall_filter (p : ascii → bool) (s : string) :
  string_forall p (string_filter p s) = true.
Proof.
  induction s as [|c s IH]; simpl; [done|].
  destruct (p c) eqn:Hc; simpl; [by rewrite Hc|done].
Qed.

Lemma string_filter_all (p : ascii → bool) (s : string) :
  string_forall p s = true → string_filter p s = s.
Proof.
  induction s as [|c s IH]; simpl; [done|].
  intros [Hc Hs]%andb_true_iff. rewrite Hc. by rewrite IH.
Qed.

Lemma string_filter_none (p : ascii → bool) (s : string) :
  string_forall (λ c, negb (p c)) s = true → string_filter p s = "".
Proof.
  induction s as [|c s IH]; simpl; [done|].
  intros [Hc Hs]%andb_true_iff. apply negb_true_iff in Hc. rewrite Hc. by apply IH.
Qed.

Lemma before_first_dot_digits (s : string) :
  string_forall is_digit s = true → before_first_dot s = s.
Proof.
  induction s as [|c s IH]; simpl; [done|].
  intros [Hc Hs]%andb_true_iff.
  destruct (Ascii.eqb_spec c ".") as [->|_]; [done|]. by rewrite IH.
Qed.

(** [before_first_dot s] is the part of [s] in front of its first ["."]:
    it has no ["."], and what follows it in [s] is nothing or starts
    with ["."]. *)
Lemma before_first_dot_prefix (s : string) :
  string_forall (λ c, negb (Ascii.eqb c ".")) (before_first_dot s) = true ∧
  ∃ rest, s = before_first_dot s +:+ rest ∧
          (rest = "" ∨ ∃ rest', rest = String "." rest').
Proof.
  induction s as [|c s [IH1 (rest & IH2 & IH3)]]; simpl.
  - split; [done|]. exists "". auto.
  - destruct (Ascii.eqb_spec c ".") as [->|Hc]; simpl.
    + split; [done|]. exists (String "." s). eauto.
    + split.
      * rewrite IH1. by destruct (Ascii.eqb_spec c ".").
      * exists rest. split; [|done]. change (String c s = String c (before_first_dot s +:+ rest)). by rewrite <- IH2.
Qed.

Lemma price_conversion_text (s : string) :
  Seller.price_conversion (PyStr s) = Ok (strip_non_digits (before_first_dot s)).
Proof.
  unfold Seller.price_conversion.
  destruct (split_first s) as [fields ->]. simpl.
  by rewrite re_sub_not_0_9.
Qed.

(** ** The price normaliser *)

(** C4. For every price text, [price_conversion] keeps what stands in
    front of the first ["."] and deletes from it every character that is
    not an ASCII digit, so its result is a text of digits.  The price
    "22'990.00 руб." gives "22990", "5.50 руб." gives "5", and a text of
    digits alone is returned as it is. *)
Theorem price_conversion_truncates_and_strips :
  (∀ s, Seller.price_conversion (PyStr s)
        = Ok (strip_non_digits (before_first_dot s))) ∧
  (∀ s, ∃ r, Seller.price_conversion (PyStr s) = Ok r ∧
             string_forall is_digit r = true) ∧
  Seller.price_conversion (PyStr "22'990.00 руб.") = Ok "22990" ∧
  Seller.price_conversion (PyStr "5.50 руб.") = Ok "5" ∧
  (∀ s, string_forall is_digit s = true →
        Seller.price_conversion (PyStr s) = Ok s).
Proof.
  split_and!.
  - apply price_conversion_text.
  - intros s. eexists. split; [apply price_conversion_text|].
    apply string_forall_filter.
  - reflexivity.
  - reflexivity.
  - intros s Hs. rewrite price_conversion_text.
    rewrite (before_first_dot_digits _ Hs).
    unfold strip_non_digits. by rewrite string_filter_all.
Qed.

(** ** The quantity rule *)


Lemma stock_of_text_other `{U : UnicodeDB} (t : string) :
  t ≠ ">10" → t ≠ "1" → stock_of (PyStr t) = py_int (PyStr t).
Proof.
  intros H1 H2. unfold stock_of. simpl.
  destruct (decide (t = ">10")); [done|].
  by destruct (decide (t = "1")).
Qed.

Lemma py_int_text_cases `{U : UnicodeDB} (t : string) :
  py_int (PyStr t) = Raise ValueError ∨ ∃ z, py_int (PyStr t) = Ok z.
Proof. simpl. destruct (long_from_string _); eauto. Qed.

(** C3. The quantity rule on a text: ">10" gives 100 and "1" gives 0;
    every other text is read by [int], so "7" gives 7 and "0" gives 0, and
    the rule fails, with [ValueError], exactly when [int] fails on the
    text.  The rule is total: a text gives a count or that error. *)
Theorem quantity_rule `{U : UnicodeDB} :
  stock_of (PyStr ">10") = Ok 100 ∧
  stock_of (PyStr "1") = Ok 0 ∧
  stock_of (PyStr "7") = Ok 7 ∧
  stock_of (PyStr "0") = Ok 0 ∧
  (∀ t, t ≠ ">10" → t ≠ "1" → stock_of (PyStr t) = py_int (PyStr t)) ∧
  (∀ t e, stock_of (PyStr t) = Raise e ↔
          t ≠ ">10" ∧ t ≠ "1" ∧ e = ValueError ∧
          long_from_string (to_ascii t) = None) ∧
  (∀ t, stock_of (PyStr t) = Raise ValueError ∨ ∃ z, stock_of (PyStr t) = Ok z).
Proof.
  split_and!; try reflexivity.
  - apply stock_of_text_other.
  - intros t e. unfold stock_of. simpl.
    destruct (decide (t = ">10")) as [->|H1];
      [split; [done|by intros [? _]]|].
    destruct (decide (t = "1")) as [->|H2];
      [split; [done|by intros (_ & ? & _)]|].
    destruct (long_from_string (to_ascii t));
      (split; [intros [= <-]; done|by intros (_ & _ & -> & ?)]).
  - intros t. unfold stock_of. simpl.
    destruct (decide (t = ">10")); [eauto|].
    destruct (decide (t = "1")); [eauto|].
    destruct (long_from_string (to_ascii t)); eauto.
Qed.

(** ** The chunker *)

Section divide.
Context {A : Type}.
Implicit Types (lst : list A) (m k cnt : nat) (n : Z).

Lemma range_length_ceil (len n : Z) :
  0 ≤ len → 1 ≤ n → range_length 0 len n = ceil_div len n.
Proof.
  intros Hlen Hn. unfold range_length, ceil_div.
  rewrite (proj2 (Z.ltb_lt 0 n)) by lia.
  destruct (Z.ltb_spec 0 len).
  - replace (len + n - 1) with (len - 0 - 1 + 1 * n) by lia.
    rewrite Z.div_add by lia. lia.
  - replace len with 0 by lia. symmetry. apply Z.div_small. lia.
Qed.

Lemma ceil_div_bounds (len n : Z) :
  0 ≤ len → 1 ≤ n →
  0 ≤ ceil_div len n ∧ len ≤ n * ceil_div len n ∧
  n * (ceil_div len n - 1) < len.
Proof.
  intros Hlen Hn. unfold ceil_div.
  pose proof (Z.div_mod (len + n - 1) n ltac:(lia)) as Hdm.
  pose proof (Z.mod_pos_bound (len + n - 1) n ltac:(lia)) as Hmod.
  pose proof (Z.div_pos (len + n - 1) n ltac:(lia) ltac:(lia)) as Hpos.
  lia.
Qed.

Lemma py_slice_block lst m k :
  (0 < m)%nat →
  py_slice lst (Z.of_nat k * Z.of_nat m) (Z.of_nat k * Z.of_nat m + Z.of_nat m)
  = block lst m k.
Proof.
  intros Hm. unfold py_slice, block, clamp_index.
  set (i := Z.of_nat k * Z.of_nat m).
  set (len := Z.of_nat (length lst)).
  assert (Hi : i = Z.of_nat (k * m)) by (subst i; lia).
  rewrite !(proj2 (Z.ltb_ge _ 0)) by lia.
  destruct (decide (k * m < length lst)%nat) as [Hlt|Hge].
  - rewrite (Z.min_l i) by lia.
    replace (Z.to_nat i) with (k * m)%nat by lia.
    destruct (decide (k * m + m ≤ length lst)%nat).
    + rewrite Z.min_l by lia. f_equal. lia.
    + rewrite Z.min_r by lia.
      rewrite !take_ge; [done| |]; rewrite length_drop; lia.
  - rewrite (Z.min_r i) by lia.
    rewrite !drop_ge by lia. by rewrite !take_nil.
Qed.

Lemma divide_blocks lst n :
  1 ≤ n →
  Seller.divide lst n
  = Ok (map (block lst (Z.to_nat n))
            (seq 0 (Z.to_nat (ceil_div (Z.of_nat (length lst)) n)))).
Proof.
  intros Hn. unfold Seller.divide, py_range.
  destruct (decide (n = 0)); [lia|].
  rewrite range_length_ceil by lia.
  f_equal. rewrite map_map. apply map_ext_in. intros k _.
  rewrite Z.add_0_l.
  pose proof (py_slice_block lst (Z.to_nat n) k ltac:(lia)) as Hblock.
  rewrite Z2Nat.id in Hblock by lia. exact Hblock.
Qed.

Lemma block_drop lst m k : block lst m (S k) = block (drop m lst) m k.
Proof. unfold block. rewrite drop_drop. do 2 f_equal; lia. Qed.

Lemma concat_blocks m cnt : ∀ lst,
  (length lst ≤ cnt * m)%nat →
  concat (map (block lst m) (seq 0 cnt)) = lst.
Proof.
  induction cnt as [|cnt IH]; intros lst Hlen.
  - destruct lst; [done|simpl in Hlen; lia].
  - rewrite <- cons_seq, <- fmap_S_seq. simpl.
    change (map (block lst m) (S <$> seq 0 cnt))
      with (map (block lst m) (map S (seq 0 cnt))).
    rewrite map_map.
    rewrite (map_ext _ (block (drop m lst) m)) by apply block_drop.
    rewrite IH by (rewrite length_drop; lia).
    unfold block. simpl. apply take_drop.
Qed.

Lemma length_block lst m k :
  length (block lst m k) = (m `min` (length lst - k * m))%nat.
Proof. unfold block. by rewrite length_take, length_drop. Qed.

Lemma lookup_blocks lst m cnt k c :
  map (block lst m) (seq 0 cnt) !! k = Some c →
  (k < cnt)%nat ∧ c = block lst m k.
Proof.
  change (map (block lst m) (seq 0 cnt)) with (block lst m <$> seq 0 cnt).
  rewrite list_lookup_fmap.
  destruct (seq 0 cnt !! k) as [j|] eqn:Hj; [|done].
  apply lookup_seq in Hj as [-> ?]. simpl. intros [= <-]. done.
Qed.

End divide.

(** C7. For a chunk size [n] of at least one, [divide lst n] yields
    [ceil(len(lst) / n)] chunks; the [k]-th chunk is the block of [n]
    consecutive elements that starts at index [k * n], so the chunks are
    contiguous and in the original order, and joined they give [lst] back;
    every chunk but the last has [n] elements, the last has between one and
    [n], and all have [n] when [n] divides the length; the empty list gives
    no chunk. *)
Theorem divide_chunks {A} (lst : list A) (n : Z) :
  1 ≤ n →
  ∃ chunks,
    Seller.divide lst n = Ok chunks ∧
    Z.of_nat (length chunks) = ceil_div (Z.of_nat (length lst)) n ∧
    concat chunks = lst ∧
    (∀ k c, chunks !! k = Some c →
            c = take (Z.to_nat n) (drop (k * Z.to_nat n) lst)) ∧
    (∀ k c, chunks !! k = Some c → (S k < length chunks)%nat →
            Z.of_nat (length c) = n) ∧
    (∀ c, last chunks = Some c → 1 ≤ Z.of_nat (length c) ≤ n) ∧
    (Z.of_nat (length lst) mod n = 0 →
     ∀ c, c ∈ chunks → Z.of_nat (length c) = n) ∧
    (lst = [] → chunks = []).
Proof.
  intros Hn. eexists. split; [by apply divide_blocks|].
  pose proof (ceil_div_bounds (Z.of_nat (length lst)) n ltac:(lia) Hn)
    as (Hc0 & Hc1 & Hc2).
  set (m := Z.to_nat n) in *.
  set (cnt := Z.to_nat (ceil_div (Z.of_nat (length lst)) n)) in *.
  assert (Hcnt : Z.of_nat cnt = ceil_div (Z.of_nat (length lst)) n) by lia.
  assert (Hm : Z.of_nat m = n) by lia.
  rewrite length_map, length_seq.
  split_and!.
  - done.
  - apply concat_blocks. nia.
  - intros k c Hk. by apply lookup_blocks in Hk as [_ ->].
  - intros k c Hk Hlt. apply lookup_blocks in Hk as [_ ->].
    rewrite length_block. nia.
  - intros c Hlast. rewrite last_lookup in Hlast.
    rewrite length_map, length_seq in Hlast.
    apply lookup_blocks in Hlast as [Hk ->].
    rewrite length_block. nia.
  - intros Hmod c Hc. apply list_elem_of_lookup in Hc as [k Hk].
    apply lookup_blocks in Hk as [Hk ->].
    rewrite length_block.
    apply Z.mod_divide in Hmod as [q Hq]; [|lia].
    assert (ceil_div (Z.of_nat (length lst)) n = q) as Hceil.
    { unfold ceil_div. rewrite Hq.
      replace (q * n + n - 1) with (n - 1 + q * n) by lia.
      rewrite Z.div_add by lia. rewrite Z.div_small by lia. lia. }
    nia.
  - intros ->. subst cnt. simpl. unfold ceil_div. simpl.
    rewrite Z.div_small by lia. done.
Qed.

(** A list of ten elements in chunks of three. *)
Lemma divide_chunks_witness :
  ∃ chunks,
    Seller.divide [1; 2; 3; 4; 5; 6; 7; 8; 9; 10] 3 = Ok chunks ∧
    chunks = [[1; 2; 3]; [4; 5; 6]; [7; 8; 9]; [10]] ∧
    Z.of_nat (length chunks) = ceil_div 10 3 ∧
    concat chunks = [1; 2; 3; 4; 5; 6; 7; 8; 9; 10].
Proof.
  destruct (divide_chunks [1; 2; 3; 4; 5; 6; 7; 8; 9; 10] 3 ltac:(lia))
    as (chunks & Hdiv & Hlen & Hcat & _).
  exists chunks. split; [exact Hdiv|]. split; [|split; [exact Hlen|exact Hcat]].
  vm_compute in Hdiv. congruence.
Defined.

(** ** Enumeration of the catalog *)

Lemma foldl_snoc {A} (l acc : list A) :
  foldl (λ acc x, acc ++ [x]) acc l = acc ++ l.
Proof.
  revert acc. induction l as [|x l IH]; intros acc; simpl.
  - by rewrite app_nil_r.
  - rewrite IH. by rewrite <- app_assoc.
Qed.

Lemma seller_fetch_products_skip pages : ∀ rest acc,
  (∀ i page, pages !! i = Some page →
     Seller.total page
     ≠ Z.of_nat (length (acc ++ concat (map Seller.items (take (S i) pages))))) →
  Seller.fetch_products (map Ok pages ++ rest) acc
  = Seller.fetch_products rest (acc ++ concat (map Seller.items pages)).
Proof.
  induction pages as [|page pages IH]; intros rest acc Hnot; simpl.
  - by rewrite app_nil_r.
  - destruct (decide _) as [Heq|_].
    + exfalso. apply (Hnot 0%nat page eq_refl). simpl.
      rewrite ?take_0. simpl. by rewrite app_nil_r.
    + rewrite IH; [by rewrite <- app_assoc|].
      intros i other Hi. rewrite <- app_assoc.
      apply (Hnot (S i) other Hi).
Qed.

Lemma market_fetch_products_skip pages : ∀ rest acc,
  (∀ page, page ∈ pages → Market.falsy (Market.nextPageToken page) = false) →
  Market.fetch_products (map Ok pages ++ rest) acc
  = Market.fetch_products rest (acc ++ concat (map Market.offerMappingEntries pages)).
Proof.
  induction pages as [|page pages IH]; intros rest acc Hnot; simpl.
  - by rewrite app_nil_r.
  - rewrite (Hnot page) by (by left).
    rewrite IH; [by rewrite <- app_assoc|].
    intros other ?. apply Hnot. by right.
Qed.

(** The pages the loop of seller.py has read when it returns: every page
    but the last has failed the test of the total, the last has passed
    it. *)
Lemma seller_fetch_products_read script : ∀ acc product_list,
  Seller.fetch_products script acc = Some (Ok product_list) →
  ∃ pages last rest,
    script = map Ok (pages ++ [last]) ++ rest ∧
    (∀ i page, pages !! i = Some page →
       Seller.total page
       ≠ Z.of_nat (length (acc ++ concat (map Seller.items (take (S i) pages))))) ∧
    Seller.total last
    = Z.of_nat (length (acc ++ concat (map Seller.items (pages ++ [last])))) ∧
    product_list = acc ++ concat (map Seller.items (pages ++ [last])).
Proof.
  induction script as [|[page|e] script IH]; intros acc product_list; simpl;
    [done| |done].
  destruct (decide _) as [Hdone|Hmore].
  - intros [= <-]. exists [], page, script. simpl. rewrite !app_nil_r.
    split_and!; [done| |done..]. intros i other Hi. by rewrite lookup_nil in Hi.
  - intros (pages & last & rest & -> & Hnot & Hlast & ->)%IH.
    exists (page :: pages), last, rest. simpl.
    rewrite <- !app_assoc in *. split_and!; [done| |done..].
    intros [|i] other Hi; simpl in *.
    + injection Hi as <-. rewrite ?take_0. simpl. by rewrite app_nil_r.
    + rewrite app_assoc. by apply Hnot.
Qed.

Lemma market_fetch_products_read script : ∀ acc product_list,
  Market.fetch_products script acc = Some (Ok product_list) →
  ∃ pages last rest,
    script = map Ok (pages ++ [last]) ++ rest ∧
    (∀ page, page ∈ pages → Market.falsy (Market.nextPageToken page) = false) ∧
    Market.falsy (Market.nextPageToken last) = true ∧
    product_list = acc ++ concat (map Market.offerMappingEntries (pages ++ [last])).
Proof.
  induction script as [|[page|e] script IH]; intros acc product_list; simpl;
    [done| |done].
  destruct (Market.falsy (Market.nextPageToken page)) eqn:Htoken.
  - intros [= <-]. exists [], page, script. simpl. rewrite !app_nil_r.
    split_and!; [done| |done..]. by intros other ?%elem_of_nil.
  - intros (pages & last & rest & -> & Hnot & Hlast & ->)%IH.
    exists (page :: pages), last, rest. simpl.
    rewrite <- !app_assoc. split_and!; [done| |done..].
    intros other [->|?]%elem_of_cons; [done|by apply Hnot].
Qed.

Lemma ozon_done_earlier pages last j :
  (j < length pages)%nat →
  ozon_done (pages ++ [last]) j ↔
  ∃ page, pages !! j = Some page ∧
          Seller.total page
          = Z.of_nat (length (concat (map Seller.items (take (S j) pages)))).
Proof.
  intros Hj. unfold ozon_done, ozon_ids.
  rewrite lookup_app_l by done. by rewrite take_app_le by lia.
Qed.

Lemma ozon_done_last pages last :
  ozon_done (pages ++ [last]) (length pages) ↔
  Seller.total last
  = Z.of_nat (length (concat (map Seller.items (pages ++ [last])))).
Proof.
  unfold ozon_done, ozon_ids.
  rewrite take_ge by (rewrite length_app; simpl; lia).
  rewrite list_lookup_middle by done. split.
  - by intros (page & [= <-] & ?).
  - intros ?. by exists last.
Qed.

Lemma market_done_earlier pages last j :
  (j < length pages)%nat →
  market_done (pages ++ [last]) j ↔
  ∃ page, pages !! j = Some page ∧ Market.falsy (Market.nextPageToken page) = true.
Proof. intros Hj. unfold market_done. by rewrite lookup_app_l by done. Qed.

Lemma market_done_last pages last :
  market_done (pages ++ [last]) (length pages) ↔
  Market.falsy (Market.nextPageToken last) = true.
Proof.
  unfold market_done. rewrite list_lookup_middle by done. split.
  - by intros (page & [= <-] & ?).
  - intros ?. by exists last.
Qed.

Lemma occurrences_concat {A} (f : A → list string) (x : string) (l : list A) :
  occurrences x (concat (map f l)) = sum_list_with (λ a, occurrences x (f a)) l.
Proof.
  unfold occurrences. induction l as [|a l IH]; simpl; [done|].
  by rewrite filter_app, length_app, IH.
Qed.

Lemma NoDup_occurrences (l : list string) :
  NoDup l ↔ ∀ x, (occurrences x l ≤ 1)%nat.
Proof.
  unfold occurrences. induction l as [|y l IH].
  - split; [intros _ x; simpl; lia|constructor].
  - rewrite NoDup_cons, IH. split.
    + intros [Hy Hl] x. rewrite filter_cons.
      destruct (decide (y = x)) as [->|Hne]; [|apply Hl].
      simpl. destruct (filter (λ z, z = x) l) as [|z t] eqn:Hf; [simpl; lia|].
      assert (Hz : z ∈ filter (λ z, z = x) l) by (rewrite Hf; left).
      by apply list_elem_of_filter in Hz as [-> ?].
    + intros Hall. split.
      * intros Hy. specialize (Hall y). rewrite filter_cons in Hall.
        destruct (decide (y = y)); [|done]. simpl in Hall.
        assert (Hin : y ∈ filter (λ z, z = y) l) by (by apply list_elem_of_filter).
        destruct (filter (λ z, z = y) l); [by apply elem_of_nil in Hin|].
        simpl in Hall. lia.
      * intros x. specialize (Hall x). rewrite filter_cons in Hall.
        destruct (decide (y = x)); simpl in Hall; lia.
Qed.

(** C6, as the code has it.  [get_offer_ids] returns a list.  The pages it
    reads are the answers from the first one up to and including the first
    one that ends the loop (in seller.py the page whose total is the
    number of products read so far, in market.py the page without a next
    page token): no further page is read, and whenever the marketplace
    answers with such pages the function returns.  What it returns is the
    offer ids of all the entries of all the pages it read, page after page,
    one element per entry: an id is in the result as many times as those
    pages hold it in all, and the result is without repetition exactly
    when no id is held more than once. *)
Theorem get_offer_ids_lists_every_entry :
  (∀ script offer_ids,
     Seller.get_offer_ids script = Some (Ok offer_ids) →
     ∃ pages last rest,
       script = map Ok (pages ++ [last]) ++ rest ∧
       (∀ j, (j < length pages)%nat → ¬ ozon_done (pages ++ [last]) j) ∧
       ozon_done (pages ++ [last]) (length pages) ∧
       offer_ids = concat (map Seller.items (pages ++ [last])) ∧
       (∀ id, occurrences id offer_ids
              = sum_list_with (λ page, occurrences id (Seller.items page))
                              (pages ++ [last])) ∧
       (NoDup offer_ids ↔
        ∀ id, (sum_list_with (λ page, occurrences id (Seller.items page))
                             (pages ++ [last]) ≤ 1)%nat)) ∧
  (∀ pages last rest,
     (∀ j, (j < length pages)%nat → ¬ ozon_done (pages ++ [last]) j) →
     ozon_done (pages ++ [last]) (length pages) →
     Seller.get_offer_ids (map Ok (pages ++ [last]) ++ rest)
     = Some (Ok (concat (map Seller.items (pages ++ [last]))))) ∧
  (∀ script offer_ids,
     Market.get_offer_ids script = Some (Ok offer_ids) →
     ∃ pages last rest,
       script = map Ok (pages ++ [last]) ++ rest ∧
       (∀ j, (j < length pages)%nat → ¬ market_done (pages ++ [last]) j) ∧
       market_done (pages ++ [last]) (length pages) ∧
       offer_ids = concat (map Market.offerMappingEntries (pages ++ [last])) ∧
       (∀ id, occurrences id offer_ids
              = sum_list_with (λ page, occurrences id (Market.offerMappingEntries page))
                              (pages ++ [last])) ∧
       (NoDup offer_ids ↔
        ∀ id, (sum_list_with (λ page, occurrences id (Market.offerMappingEntries page))
                             (pages ++ [last]) ≤ 1)%nat)) ∧
  (∀ pages last rest,
     (∀ j, (j < length pages)%nat → ¬ market_done (pages ++ [last]) j) →
     market_done (pages ++ [last]) (length pages) →
     Market.get_offer_ids (map Ok (pages ++ [last]) ++ rest)
     = Some (Ok (concat (map Market.offerMappingEntries (pages ++ [last]))))).
Proof.
  split_and!.
  - intros script offer_ids. unfold Seller.get_offer_ids.
    destruct (Seller.fetch_products script []) as [[l|e]|] eqn:Hfetch; [|done..].
    intros [= <-]. rewrite foldl_snoc. simpl.
    apply seller_fetch_products_read in Hfetch
      as (pages & last & rest & -> & Hnot & Hlast & ->).
    exists pages, last, rest. simpl in *. split_and!; [done| | |done| |].
    + intros j Hj [page [Hpage Htotal]]%ozon_done_earlier; [|done].
      by apply (Hnot j page).
    + by apply ozon_done_last.
    + intros id. apply occurrences_concat.
    + rewrite NoDup_occurrences. by setoid_rewrite occurrences_concat.
  - intros pages last rest Hfirst Hlast%ozon_done_last.
    unfold Seller.get_offer_ids. rewrite map_app, <- app_assoc.
    rewrite seller_fetch_products_skip.
    + simpl. rewrite map_app, concat_app in Hlast. simpl in Hlast.
      rewrite app_nil_r in Hlast. destruct (decide _); [|done].
      rewrite foldl_snoc, map_app, concat_app. simpl. by rewrite app_nil_r.
    + intros j page Hj Htotal.
      apply (Hfirst j); [by eapply lookup_lt_Some|].
      apply ozon_done_earlier; [by eapply lookup_lt_Some|]. by exists page.
  - intros script offer_ids. unfold Market.get_offer_ids.
    destruct (Market.fetch_products script []) as [[l|e]|] eqn:Hfetch; [|done..].
    intros [= <-]. rewrite foldl_snoc. simpl.
    apply market_fetch_products_read in Hfetch
      as (pages & last & rest & -> & Hnot & Hlast & ->).
    exists pages, last, rest. simpl. split_and!; [done| | |done| |].
    + intros j Hj [page [Hpage Htoken]]%market_done_earlier; [|done].
      rewrite (Hnot page) in Htoken; [done|]. by eapply list_elem_of_lookup_2.
    + by apply market_done_last.
    + intros id. apply occurrences_concat.
    + rewrite NoDup_occurrences. by setoid_rewrite occurrences_concat.
  - intros pages last rest Hfirst Hlast%market_done_last.
    unfold Market.get_offer_ids. rewrite map_app, <- app_assoc.
    rewrite market_fetch_products_skip.
    + simpl. rewrite Hlast.
      rewrite foldl_snoc, map_app, concat_app. simpl. by rewrite app_nil_r.
    + intros page [j Hj]%list_elem_of_lookup.
      destruct (Market.falsy (Market.nextPageToken page)) eqn:Htoken; [|done].
      destruct (Hfirst j); [by eapply lookup_lt_Some|].
      apply market_done_earlier; [by eapply lookup_lt_Some|]. by exists page.
Qed.

(** Two pages of two distinct offers each: the first reports a total of
    four, so the loop reads the second. *)
Lemma get_offer_ids_lists_every_entry_witness :
  Seller.get_offer_ids
    (map Ok ([Seller.ProductPage ["73397"; "73398"] 4 "a"]
             ++ [Seller.ProductPage ["73399"; "73400"] 4 "b"]) ++ [])
  = Some (Ok (concat (map Seller.items
                        ([Seller.ProductPage ["73397"; "73398"] 4 "a"]
                         ++ [Seller.ProductPage ["73399"; "73400"] 4 "b"])))).
Proof.
  refine (proj1 (proj2 get_offer_ids_lists_every_entry)
    [Seller.ProductPage ["73397"; "73398"] 4 "a"]
    (Seller.ProductPage ["73399"; "73400"] 4 "b") [] _ _).
  - intros [|j] Hj; [|simpl in Hj; lia]. intros (page & [= <-] & Htotal).
    vm_compute in Htotal. discriminate.
  - eexists. split; [reflexivity|]. vm_compute. reflexivity.
Defined.

(** C6, as the claim states it, fails: an offer that two pages return is
    twice in the result, in either channel. *)
Lemma get_offer_ids_repeats_an_offer :
  Seller.get_offer_ids
    [Ok (Seller.ProductPage ["73397"] 2 "a"); Ok (Seller.ProductPage ["73397"] 2 "b")]
  = Some (Ok ["73397"; "73397"]) ∧
  Market.get_offer_ids
    [Ok (Market.ProductPage ["73397"] (PyStr "t")); Ok (Market.ProductPage ["73397"] PyNone)]
  = Some (Ok ["73397"; "73397"]).
Proof. split; reflexivity. Qed.

(** ** Running the store operations *)

Lemma run_bind {A B} (m : M A) (f : A → M B) (w : world) :
  (m ≫= f) w =
  match m w with
  | (Ok a, w') => f a w'
  | (Raise e, w') => (Raise e, w')
  end.
Proof. reflexivity. Qed.

Lemma run_load r l w : heap w !! r = Some l → load r w = (Ok l, w).
Proof. unfold load. by intros ->. Qed.

Lemma run_list_contains r x l w :
  heap w !! r = Some l → list_contains r x w = (Ok (bool_decide (x ∈ l)), w).
Proof. intros Hl. unfold list_contains. by rewrite run_bind, (run_load _ _ _ Hl). Qed.

Lemma run_list_remove r x l w :
  heap w !! r = Some l → x ∈ l →
  list_remove r x w = (Ok (), with_list w r (remove_first x l)).
Proof.
  intros Hl Hx. unfold list_remove.
  rewrite run_bind, (run_load _ _ _ Hl). by rewrite bool_decide_eq_true_2.
Qed.

Lemma with_list_same w r l : heap w !! r = Some l → with_list w r l = w.
Proof. destruct w as [h c t]. unfold with_list. simpl. intros Hl. by rewrite insert_id. Qed.

Lemma with_list_twice w r l1 l2 :
  with_list (with_list w r l1) r l2 = with_list w r l2.
Proof. unfold with_list. simpl. by rewrite insert_insert_eq. Qed.

Lemma with_list_lookup w r l : heap (with_list w r l) !! r = Some l.
Proof. unfold with_list. simpl. by rewrite lookup_insert_eq. Qed.

Lemma with_list_ticks w r l : ticks (with_list w r l) = ticks w.
Proof. reflexivity. Qed.

(** The second loop of [create_stocks] appends an entry per remaining
    offer id. *)
Lemma run_fill_loop {E} (f : string → E) (remaining : list string) :
  ∀ (stocks : list E) (w : world),
    for_in remaining (λ offer_id stocks, mret (stocks ++ [f offer_id])) stocks w
    = (Ok (stocks ++ map f remaining), w).
Proof.
  induction remaining as [|id remaining IH]; intros stocks w; simpl.
  - by rewrite app_nil_r.
  - rewrite run_bind. unfold mret at 1, M_ret at 1.
    rewrite IH. by rewrite <- app_assoc.
Qed.

(** The first loop of [create_stocks] is [match_rows] on the content of
    the list. *)
Lemma run_match_loop `{U : UnicodeDB} {E} (mk : string → Z → E) (r : loc)
    (rows : list feed_row) :
  ∀ (stocks : list E) (w : world) (ids : list string),
    heap w !! r = Some ids →
    for_in rows (λ watch stocks,
      found ← list_contains r (py_str (get watch "Код"));
      if (found : bool) then
        stock ← lift (stock_of (get watch "Количество"));
        let stocks := stocks ++ [mk (py_str (get watch "Код")) stock] in
        list_remove r (py_str (get watch "Код"));;
        mret stocks
      else mret stocks) stocks w
    = ((match_rows mk rows ids stocks).1,
       with_list w r (match_rows mk rows ids stocks).2).
Proof.
  induction rows as [|watch rows IH]; intros stocks w ids Hids; simpl.
  - by rewrite with_list_same.
  - rewrite !run_bind, (run_list_contains _ _ _ _ Hids).
    destruct (bool_decide_reflect (py_str (get watch "Код") ∈ ids)) as [Hin|Hout].
    + rewrite run_bind. unfold lift at 1.
      destruct (stock_of (get watch "Количество")) as [stock|e]; simpl.
      * rewrite run_bind, (run_list_remove _ _ _ _ Hids Hin).
        unfold mret at 1, M_ret at 1.
        rewrite (IH _ _ _ (with_list_lookup _ _ _)).
        by rewrite with_list_twice.
      * by rewrite with_list_same.
    + unfold mret at 1, M_ret at 1. by apply IH.
Qed.

(** ** The reconciliation of stocks *)

Lemma remove_first_perm (x : string) (l : list string) :
  x ∈ l → x :: remove_first x l ≡ₚ l.
Proof.
  induction l as [|y l IH]; simpl.
  - by intros ?%elem_of_nil.
  - destruct (decide (x = y)) as [->|Hne]; [done|].
    intros [?|Hin]%elem_of_cons; [done|].
    rewrite Permutation_swap. by rewrite IH.
Qed.

Lemma remove_first_other (x y : string) (l : list string) :
  x ≠ y → y ∈ l → y ∈ remove_first x l.
Proof.
  intros Hne. induction l as [|z l IH]; simpl; [done|].
  destruct (decide (x = z)) as [->|_].
  - intros [?|?]%elem_of_cons; [congruence|done].
  - intros [->|?]%elem_of_cons; [left|right; auto].
Qed.

Section match_rows.
Context `{U : UnicodeDB} {E : Type} (mk : string → Z → E).

(** The codes of the entries together with the ids left in the list are
    the ids the list had, up to their order. *)
Lemma match_rows_perm (key : E → string) :
  (∀ c q, key (mk c q) = c) →
  ∀ rows ids stocks out ids',
    match_rows mk rows ids stocks = (Ok out, ids') →
    map key out ++ ids' ≡ₚ map key stocks ++ ids.
Proof.
  intros Hkey. induction rows as [|watch rows IH]; intros ids stocks out ids'; simpl.
  - by intros [= <- <-].
  - destruct (bool_decide_reflect (py_str (get watch "Код") ∈ ids)) as [Hin|_];
      [|by apply IH].
    destruct (stock_of _) as [stock|e]; [|done].
    intros ->%IH. rewrite map_app. simpl. rewrite Hkey.
    rewrite <- app_assoc. simpl. by rewrite (remove_first_perm _ _ Hin).
Qed.

(** Every entry the loop appends is built by [mk]. *)
Lemma match_rows_entries :
  ∀ rows ids stocks out ids',
    match_rows mk rows ids stocks = (Ok out, ids') →
    ∃ matched : list (string * Z),
      out = stocks ++ map (λ cq, mk cq.1 cq.2) matched.
Proof.
  induction rows as [|watch rows IH]; intros ids stocks out ids'; simpl.
  - intros [= <- <-]. exists []. by rewrite app_nil_r.
  - destruct (bool_decide _); [|by apply IH].
    destruct (stock_of _) as [stock|e]; [|done].
    intros [matched ->]%IH.
    exists ((py_str (get watch "Код"), stock) :: matched).
    by rewrite <- app_assoc.
Qed.

(** The loop runs to its end when every quantity is one the rule
    accepts. *)
Lemma match_rows_total :
  ∀ rows ids stocks,
    (∀ watch, watch ∈ rows → is_Ok (stock_of (get watch "Количество"))) →
    is_Ok (match_rows mk rows ids stocks).1.
Proof.
  induction rows as [|watch rows IH]; intros ids stocks Hrows; simpl; [done|].
  assert (Hrest : ∀ watch0, watch0 ∈ rows →
                            is_Ok (stock_of (get watch0 "Количество")))
    by (intros ? ?; apply Hrows; by right).
  destruct (bool_decide _); [|by apply IH].
  specialize (Hrows watch ltac:(left)).
  destruct (stock_of _); [by apply IH|done].
Qed.

(** The loop stops with an error at the latest when it reaches a row
    whose code is in the list, that no earlier row shares its code with,
    and whose quantity the rule rejects. *)
Lemma match_rows_rejects :
  ∀ rows ids stocks j watch,
    rows !! j = Some watch →
    py_str (get watch "Код") ∈ ids →
    raises (stock_of (get watch "Количество")) →
    (∀ i other, (i < j)%nat → rows !! i = Some other →
                py_str (get other "Код") ≠ py_str (get watch "Код")) →
    raises (match_rows mk rows ids stocks).1.
Proof.
  induction rows as [|first rows IH]; intros ids stocks j watch Hj Hin Hbad Hfirst;
    [done|].
  simpl. destruct j as [|j]; simpl in Hj.
  - injection Hj as ->. rewrite bool_decide_eq_true_2 by done.
    by destruct (stock_of _).
  - assert (Hne : py_str (get first "Код") ≠ py_str (get watch "Код"))
      by (apply (Hfirst 0%nat); [lia|done]).
    assert (Hrest : ∀ i other, (i < j)%nat → rows !! i = Some other →
              py_str (get other "Код") ≠ py_str (get watch "Код"))
      by (intros i other Hlt Hi; apply (Hfirst (S i)); [lia|done]).
    destruct (bool_decide _); [|by apply (IH _ _ j watch)].
    destruct (stock_of (get first "Количество")); [|done].
    apply (IH _ _ j watch); [done| |done..].
    by apply remove_first_other.
Qed.

(** The rule fails with the errors of [int] only. *)
Lemma stock_of_errors (quantity : pyval) (e : exn) :
  stock_of quantity = Raise e → e = ValueError ∨ e = TypeError.
Proof.
  unfold stock_of. repeat (destruct (decide _); [done|]).
  destruct quantity as [|z|s]; simpl; [naive_solver..|].
  destruct (long_from_string _); naive_solver.
Qed.

Lemma match_rows_errors :
  ∀ rows ids stocks e,
    (match_rows mk rows ids stocks).1 = Raise e →
    e = ValueError ∨ e = TypeError.
Proof.
  induction rows as [|watch rows IH]; intros ids stocks e; simpl; [done|].
  destruct (bool_decide _); [|by apply IH].
  destruct (stock_of _) as [stock|e'] eqn:Hrule; [by apply IH|].
  simpl. intros [= <-]. by apply stock_of_errors in Hrule.
Qed.

End match_rows.

Lemma seller_create_stocks_run `{U : UnicodeDB} rows r w ids :
  heap w !! r = Some ids →
  Seller.create_stocks rows r w =
  match match_rows Seller.StockEntry rows ids [] with
  | (Ok out, ids') =>
      (Ok (out ++ map (λ id, Seller.StockEntry id 0) ids'), with_list w r ids')
  | (Raise e, ids') => (Raise e, with_list w r ids')
  end.
Proof.
  intros Hids. unfold Seller.create_stocks.
  rewrite run_bind, (run_match_loop Seller.StockEntry r rows [] w ids Hids).
  destruct (match_rows _ _ _ _) as [[out|e] ids']; simpl; [|done].
  rewrite run_bind, (run_load _ _ _ (with_list_lookup _ _ _)).
  apply run_fill_loop.
Qed.

Lemma market_create_stocks_run `{U : UnicodeDB} rows r wh w ids :
  heap w !! r = Some ids →
  let date := market_date (clock w (ticks w)) in
  Market.create_stocks rows r wh w =
  match match_rows (λ c q, Market.StockEntry c wh [Market.Item q "FIT" date])
                   rows ids [] with
  | (Ok out, ids') =>
      (Ok (out ++ map (λ id, Market.StockEntry id wh [Market.Item 0 "FIT" date]) ids'),
       with_list (tick w) r ids')
  | (Raise e, ids') => (Raise e, with_list (tick w) r ids')
  end.
Proof.
  intros Hids date. unfold Market.create_stocks.
  rewrite run_bind. unfold utcnow at 1. fold (tick w). fold date.
  rewrite run_bind.
  rewrite (run_match_loop
             (λ c q, Market.StockEntry c wh [Market.Item q "FIT" date])
             r rows [] (tick w) ids Hids).
  destruct (match_rows _ _ _ _) as [[out|e] ids']; simpl; [|done].
  rewrite run_bind, (run_load _ _ _ (with_list_lookup _ _ _)).
  apply run_fill_loop.
Qed.

(** C1. Called on a list of offer ids in which no id is repeated,
    [create_stocks] returns, when it returns, a list with exactly one entry
    for every id of that list and none for any other id, whatever the rows
    of the feed are; and it does return when the rule accepts every
    quantity of the feed. *)
Theorem create_stocks_covers_offer_ids `{U : UnicodeDB}
    (watch_remnants : list feed_row) (offer_ids : loc) (warehouse_id : string)
    (w : world) (ids : list string) :
  heap w !! offer_ids = Some ids →
  NoDup ids →
  (∀ stocks, (Seller.create_stocks watch_remnants offer_ids w).1 = Ok stocks →
     map Seller.offer_id stocks ≡ₚ ids ∧
     NoDup (map Seller.offer_id stocks) ∧
     ∀ id, id ∈ map Seller.offer_id stocks ↔ id ∈ ids) ∧
  (∀ stocks,
     (Market.create_stocks watch_remnants offer_ids warehouse_id w).1 = Ok stocks →
     map Market.sku stocks ≡ₚ ids ∧
     NoDup (map Market.sku stocks) ∧
     ∀ id, id ∈ map Market.sku stocks ↔ id ∈ ids) ∧
  ((∀ watch, watch ∈ watch_remnants →
             is_Ok (stock_of (get watch "Количество"))) →
   is_Ok (Seller.create_stocks watch_remnants offer_ids w).1 ∧
   is_Ok (Market.create_stocks watch_remnants offer_ids warehouse_id w).1).
Proof.
  intros Hids Hnodup.
  assert (Hperm : ∀ {E} (key : E → string) mk zero out ids',
            (∀ c q, key (mk c q) = c) → (∀ id, key (zero id) = id) →
            match_rows mk watch_remnants ids [] = (Ok out, ids') →
            map key (out ++ map zero ids') ≡ₚ ids).
  { intros E key mk zero out ids' Hmk Hzero Hrun.
    rewrite map_app, map_map.
    rewrite (map_ext _ id) by done. rewrite map_id.
    by rewrite (match_rows_perm mk key Hmk _ _ _ _ _ Hrun). }
  assert (Hall : ∀ l : list string, l ≡ₚ ids →
            l ≡ₚ ids ∧ NoDup l ∧ ∀ id, id ∈ l ↔ id ∈ ids).
  { intros l Hl. split; [done|]. split; [by rewrite Hl|].
    intros id. by rewrite Hl. }
  split_and!.
  - intros stocks. rewrite (seller_create_stocks_run _ _ _ _ Hids).
    destruct (match_rows _ _ _ _) as [[out|e] ids'] eqn:Hrun; simpl; [|done].
    intros [= <-]. apply Hall.
    by apply (Hperm _ Seller.offer_id Seller.StockEntry _ _ _).
  - intros stocks. rewrite (market_create_stocks_run _ _ _ _ _ Hids).
    destruct (match_rows _ _ _ _) as [[out|e] ids'] eqn:Hrun; simpl; [|done].
    intros [= <-]. apply Hall.
    by apply (Hperm _ Market.sku
      (λ c q, Market.StockEntry c warehouse_id
                [Market.Item q "FIT" (market_date (clock w (ticks w)))])
      (λ id, Market.StockEntry id warehouse_id
                [Market.Item 0 "FIT" (market_date (clock w (ticks w)))])
      out ids').
  - intros Hrows. split.
    + rewrite (seller_create_stocks_run _ _ _ _ Hids).
      pose proof (match_rows_total Seller.StockEntry _ ids [] Hrows) as Hok.
      by destruct (match_rows _ _ _ _) as [[out|e] ids'].
    + rewrite (market_create_stocks_run _ _ _ _ _ Hids).
      pose proof (match_rows_total
        (λ c q, Market.StockEntry c warehouse_id
                  [Market.Item q "FIT" (market_date (clock w (ticks w)))])
        _ ids [] Hrows) as Hok.
      by destruct (match_rows _ _ _ _) as [[out|e] ids'].
Qed.

(** The scenario of the specification: one row, for the first of two
    offers. *)
Lemma create_stocks_covers_offer_ids_witness :
  map Seller.offer_id [Seller.StockEntry "73397" 100; Seller.StockEntry "73398" 0]
    ≡ₚ ["73397"; "73398"] ∧
  NoDup (map Seller.offer_id
           [Seller.StockEntry "73397" 100; Seller.StockEntry "73398" 0]) ∧
  ∀ id, id ∈ map Seller.offer_id
               [Seller.StockEntry "73397" 100; Seller.StockEntry "73398" 0]
        ↔ id ∈ ["73397"; "73398"].
Proof.
  refine (proj1 (create_stocks_covers_offer_ids (U := ascii_numbers_only)
    [row (PyInt 73397) (PyStr "22'990.00 руб.") (PyStr ">10")]
    0%nat "WAREHOUSE_ID" (sample_world ["73397"; "73398"]) ["73397"; "73398"]
    _ _) _ _).
  - reflexivity.
  - apply (bool_decide_unpack _). vm_compute. exact I.
  - vm_compute. reflexivity.
Defined.

(** C2 fails on the code: [create_stocks] removes the matched ids from the
    very list its caller passed.  Here the caller's list of two offers
    holds one after the call, in either channel; and [create_prices],
    which [main] of seller.py calls next on the same list, then emits no
    price for the offer whose stock was just set, where on the untouched
    list it emits one. *)
Theorem create_stocks_consumes_the_callers_list `{U : UnicodeDB} :
  heap (sample_world ["73397"; "73398"]) !! 0%nat = Some ["73397"; "73398"] ∧
  heap (Seller.create_stocks
          [row (PyInt 73397) (PyStr "22'990.00 руб.") (PyStr ">10")] 0%nat
          (sample_world ["73397"; "73398"])).2 !! 0%nat = Some ["73398"] ∧
  heap (Market.create_stocks
          [row (PyInt 73397) (PyStr "22'990.00 руб.") (PyStr ">10")] 0%nat
          "WAREHOUSE_ID" (sample_world ["73397"; "73398"])).2 !! 0%nat
    = Some ["73398"] ∧
  (Seller.create_prices
     [row (PyInt 73397) (PyStr "22'990.00 руб.") (PyStr ">10")] 0%nat
     (sample_world ["73397"; "73398"])).1
    = Ok [Seller.PriceEntry "UNKNOWN" "RUB" "73397" "0" "22990"] ∧
  (Seller.create_prices
     [row (PyInt 73397) (PyStr "22'990.00 руб.") (PyStr ">10")] 0%nat
     (Seller.create_stocks
        [row (PyInt 73397) (PyStr "22'990.00 руб.") (PyStr ">10")] 0%nat
        (sample_world ["73397"; "73398"])).2).1
    = Ok [].
Proof. split_and!; vm_compute; reflexivity. Qed.

(** What [create_stocks] leaves in the caller's list in general: the ids
    that no row matched. *)
Lemma create_stocks_leaves_unmatched `{U : UnicodeDB} rows r w ids :
  heap w !! r = Some ids →
  heap (Seller.create_stocks rows r w).2 !! r
  = Some (match_rows Seller.StockEntry rows ids []).2.
Proof.
  intros Hids. rewrite (seller_create_stocks_run _ _ _ _ Hids).
  destruct (match_rows _ _ _ _) as [[out|e] ids']; simpl;
    by rewrite lookup_insert_eq.
Qed.

(** ** The timestamp *)

Lemma string_app_assoc (a b c : string) : (a +:+ b) +:+ c = a +:+ (b +:+ c).
Proof.
  induction a as [|x a IH]; [done|].
  change (String x ((a +:+ b) +:+ c) = String x (a +:+ (b +:+ c))).
  by rewrite IH.
Qed.

Lemma string_app_empty_r (a : string) : a +:+ "" = a.
Proof.
  induction a as [|x a IH]; [done|].
  change (String x (a +:+ "") = String x a). by rewrite IH.
Qed.

Lemma market_date_iso (d : datetime) : market_date d = iso_seconds_utc d.
Proof.
  unfold market_date, isoformat, iso_seconds_utc. simpl.
  rewrite string_app_empty_r. by rewrite !string_app_assoc.
Qed.

(** C8, as the code has it.  [create_stocks] of market.py reads the clock
    once, whatever happens next, and every entry it returns has one item,
    whose ["updatedAt"] is that reading in ISO 8601, cut to the second and
    marked UTC.  [create_stocks] of seller.py never reads the clock (its
    entries have no field for a time). *)
Theorem market_stocks_share_one_timestamp `{U : UnicodeDB}
    (watch_remnants : list feed_row) (offer_ids : loc) (warehouse_id : string)
    (w : world) (ids : list string) :
  heap w !! offer_ids = Some ids →
  clock_reads (Market.create_stocks watch_remnants offer_ids warehouse_id) w = 1%nat ∧
  (∀ stocks,
     (Market.create_stocks watch_remnants offer_ids warehouse_id w).1 = Ok stocks →
     ∀ entry, entry ∈ stocks →
       ∃ quantity,
         Market.items entry
         = [Market.Item quantity "FIT" (iso_seconds_utc (clock w (ticks w)))]) ∧
  clock_reads (Seller.create_stocks watch_remnants offer_ids) w = 0%nat.
Proof.
  intros Hids. unfold clock_reads.
  rewrite (market_create_stocks_run _ _ _ _ _ Hids).
  rewrite (seller_create_stocks_run _ _ _ _ Hids).
  rewrite <- market_date_iso.
  split_and!.
  - destruct (match_rows _ _ _ _) as [[out|e] ids']; simpl; lia.
  - intros stocks.
    destruct (match_rows _ _ _ _) as [[out|e] ids'] eqn:Hrun; simpl; [|done].
    intros [= <-] entry.
    apply match_rows_entries in Hrun as [matched ->]. simpl.
    intros [Hin|Hin]%elem_of_app.
    + change (map ?f matched) with (f <$> matched) in Hin.
      apply list_elem_of_fmap in Hin as [[c q] [-> _]]. by eexists.
    + change (map ?f ids') with (f <$> ids') in Hin.
      apply list_elem_of_fmap in Hin as [id [-> _]]. by eexists.
  - destruct (match_rows _ _ _ _) as [[out|e] ids']; simpl; lia.
Qed.

Lemma market_stocks_share_one_timestamp_witness :
  clock_reads
    (Market.create_stocks (U := ascii_numbers_only)
       [row (PyInt 73397) (PyStr "22'990.00 руб.") (PyStr ">10")]
       0%nat "WAREHOUSE_ID")
    (sample_world ["73397"; "73398"]) = 1%nat ∧
  ∀ entry,
    entry ∈ [Market.StockEntry "73397" "WAREHOUSE_ID"
               [Market.Item 100 "FIT" "2025-02-06T08:53:21Z"];
             Market.StockEntry "73398" "WAREHOUSE_ID"
               [Market.Item 0 "FIT" "2025-02-06T08:53:21Z"]] →
    ∃ quantity,
      Market.items entry = [Market.Item quantity "FIT" "2025-02-06T08:53:21Z"].
Proof.
  destruct (market_stocks_share_one_timestamp (U := ascii_numbers_only)
    [row (PyInt 73397) (PyStr "22'990.00 руб.") (PyStr ">10")]
    0%nat "WAREHOUSE_ID" (sample_world ["73397"; "73398"]) ["73397"; "73398"]
    eq_refl) as (Hreads & Hstamp & _).
  split; [exact Hreads|].
  apply Hstamp. vm_compute. reflexivity.
Defined.

(** C8, as the claim states it, fails for seller.py: its [create_stocks]
    returns the two entries of the scenario without reading the clock. *)
Lemma seller_stocks_carry_no_timestamp :
  (Seller.create_stocks (U := ascii_numbers_only)
     [row (PyInt 73397) (PyStr "22'990.00 руб.") (PyStr ">10")] 0%nat
     (sample_world ["73397"; "73398"])).1
    = Ok [Seller.StockEntry "73397" 100; Seller.StockEntry "73398" 0] ∧
  clock_reads
    (Seller.create_stocks (U := ascii_numbers_only)
       [row (PyInt 73397) (PyStr "22'990.00 руб.") (PyStr ">10")] 0%nat)
    (sample_world ["73397"; "73398"]) = 0%nat.
Proof. split; vm_compute; reflexivity. Qed.

(** C9, as the code has it.  When the feed has a row whose code is in the
    list of offer ids, that no earlier row shares its code with, and whose
    quantity is a text other than ">10" and "1" that [int] rejects, then
    [create_stocks] raises and returns no list, in either channel: the
    error is the one [int] raised on that row or on an earlier one. *)
Theorem create_stocks_aborts_on_bad_quantity `{U : UnicodeDB}
    (watch_remnants : list feed_row) (offer_ids : loc) (warehouse_id : string)
    (w : world) (ids : list string) (j : nat) (watch : feed_row) (t : string) :
  heap w !! offer_ids = Some ids →
  watch_remnants !! j = Some watch →
  py_str (get watch "Код") ∈ ids →
  (∀ i other, (i < j)%nat → watch_remnants !! i = Some other →
              py_str (get other "Код") ≠ py_str (get watch "Код")) →
  get watch "Количество" = PyStr t →
  t ≠ ">10" → t ≠ "1" →
  py_int (PyStr t) = Raise ValueError →
  (∃ e, (Seller.create_stocks watch_remnants offer_ids w).1 = Raise e ∧
        (e = ValueError ∨ e = TypeError)) ∧
  (∃ e, (Market.create_stocks watch_remnants offer_ids warehouse_id w).1 = Raise e ∧
        (e = ValueError ∨ e = TypeError)).
Proof.
  intros Hids Hj Hin Hfirst Hq H10 H1 Hint.
  assert (Hbad : raises (stock_of (get watch "Количество"))).
  { rewrite Hq, (stock_of_text_other t H10 H1), Hint. done. }
  split.
  - rewrite (seller_create_stocks_run _ _ _ _ Hids).
    pose proof (match_rows_rejects Seller.StockEntry _ ids [] j watch
                  Hj Hin Hbad Hfirst) as Hraise.
    pose proof (match_rows_errors Seller.StockEntry watch_remnants ids []) as Herr.
    destruct (match_rows _ _ _ _) as [[out|e] ids']; simpl in *; [done|].
    exists e. split; [done|]. by apply Herr.
  - rewrite (market_create_stocks_run _ _ _ _ _ Hids).
    set (mk := λ c q, Market.StockEntry c warehouse_id
                 [Market.Item q "FIT" (market_date (clock w (ticks w)))]).
    pose proof (match_rows_rejects mk _ ids [] j watch Hj Hin Hbad Hfirst) as Hraise.
    pose proof (match_rows_errors mk watch_remnants ids []) as Herr.
    destruct (match_rows _ _ _ _) as [[out|e] ids']; simpl in *; [done|].
    exists e. split; [done|]. by apply Herr.
Qed.

(** A feed whose second row, the first of its code, has the quantity
    "много". *)
Lemma create_stocks_aborts_on_bad_quantity_witness :
  (∃ e, (Seller.create_stocks (U := ascii_numbers_only)
           [row (PyInt 73397) (PyStr "22'990.00 руб.") (PyStr ">10");
            row (PyInt 73398) (PyStr "5'990.00 руб.") (PyStr "много")]
           0%nat (sample_world ["73397"; "73398"])).1 = Raise e ∧
        (e = ValueError ∨ e = TypeError)) ∧
  (∃ e, (Market.create_stocks (U := ascii_numbers_only)
           [row (PyInt 73397) (PyStr "22'990.00 руб.") (PyStr ">10");
            row (PyInt 73398) (PyStr "5'990.00 руб.") (PyStr "много")]
           0%nat "WAREHOUSE_ID" (sample_world ["73397"; "73398"])).1 = Raise e ∧
        (e = ValueError ∨ e = TypeError)).
Proof.
  refine (create_stocks_aborts_on_bad_quantity (U := ascii_numbers_only)
    [row (PyInt 73397) (PyStr "22'990.00 руб.") (PyStr ">10");
     row (PyInt 73398) (PyStr "5'990.00 руб.") (PyStr "много")]
    0%nat "WAREHOUSE_ID" (sample_world ["73397"; "73398"]) ["73397"; "73398"]
    1%nat (row (PyInt 73398) (PyStr "5'990.00 руб.") (PyStr "много")) "много"
    _ _ _ _ _ _ _ _).
  - reflexivity.
  - reflexivity.
  - apply (bool_decide_unpack _). vm_compute. exact I.
  - intros [|i] other Hlt; [|lia]. intros [= <-]. vm_compute. discriminate.
  - reflexivity.
  - discriminate.
  - discriminate.
  - reflexivity.
Defined.

(** C9, as the claim states it, fails: the second row has a code of the
    list and a quantity that [int] rejects, yet the call returns a stock
    list, because the first row has the same code and took the id out of
    the list. *)
Lemma create_stocks_skips_a_repeated_code :
  (Seller.create_stocks (U := ascii_numbers_only)
     [row (PyInt 73397) (PyStr "22'990.00 руб.") (PyStr "5");
      row (PyInt 73397) (PyStr "22'990.00 руб.") (PyStr "много")]
     0%nat (sample_world ["73397"; "73398"])).1
    = Ok [Seller.StockEntry "73397" 5; Seller.StockEntry "73398" 0] ∧
  (Market.create_stocks (U := ascii_numbers_only)
     [row (PyInt 73397) (PyStr "22'990.00 руб.") (PyStr "5");
      row (PyInt 73397) (PyStr "22'990.00 руб.") (PyStr "много")]
     0%nat "WAREHOUSE_ID" (sample_world ["73397"; "73398"])).1
    = Ok [Market.StockEntry "73397" "WAREHOUSE_ID"
            [Market.Item 5 "FIT" "2025-02-06T08:53:21Z"];
          Market.StockEntry "73398" "WAREHOUSE_ID"
            [Market.Item 0 "FIT" "2025-02-06T08:53:21Z"]] ∧
  py_str (get (row (PyInt 73397) (PyStr "22'990.00 руб.") (PyStr "много")) "Код")
    ∈ ["73397"; "73398"] ∧
  py_int (U := ascii_numbers_only) (PyStr "много") = Raise ValueError.
Proof.
  split_and!; [vm_compute; reflexivity..| |vm_compute; reflexivity].
  apply (bool_decide_unpack _). vm_compute. exact I.
Qed.

(** ** The reconciliation of prices *)

Lemma run_seller_price_loop r rows :
  ∀ prices w ids,
    heap w !! r = Some ids →
    for_in rows (λ watch prices,
      found ← list_contains r (py_str (get watch "Код"));
      if (found : bool) then
        converted ← lift (Seller.price_conversion (get watch "Цена"));
        mret (prices ++
              [Seller.PriceEntry "UNKNOWN" "RUB" (py_str (get watch "Код")) "0" converted])
      else mret prices) prices w
    = (price_rows seller_price rows ids prices, w).
Proof.
  induction rows as [|watch rows IH]; intros prices w ids Hids; simpl; [done|].
  rewrite !run_bind, (run_list_contains _ _ _ _ Hids).
  destruct (bool_decide _).
  - rewrite run_bind. unfold lift at 1, seller_price.
    destruct (Seller.price_conversion _) as [converted|e]; [|done].
    unfold mret at 1, M_ret at 1. by apply IH.
  - unfold mret at 1, M_ret at 1. by apply IH.
Qed.

Lemma run_market_price_loop `{U : UnicodeDB} r rows :
  ∀ prices w ids,
    heap w !! r = Some ids →
    for_in rows (λ watch prices,
      found ← list_contains r (py_str (get watch "Код"));
      if (found : bool) then
        converted ← lift (Seller.price_conversion (get watch "Цена"));
        value ← lift (py_int (PyStr converted));
        mret (prices ++
              [Market.PriceEntry (py_str (get watch "Код")) (Market.PriceValue value "RUR")])
      else mret prices) prices w
    = (price_rows market_price rows ids prices, w).
Proof.
  induction rows as [|watch rows IH]; intros prices w ids Hids;
    cbn [for_in price_rows]; [done|].
  rewrite !run_bind, (run_list_contains _ _ _ _ Hids).
  destruct (bool_decide _).
  - rewrite run_bind. unfold lift at 1, market_price.
    destruct (Seller.price_conversion _) as [converted|e]; [|done].
    rewrite run_bind. unfold lift at 1.
    destruct (py_int (PyStr converted)) as [value|e]; [|done].
    unfold mret at 1, M_ret at 1. by apply IH.
  - unfold mret at 1, M_ret at 1. by apply IH.
Qed.

Section price_rows.
Context {E : Type} (mk : feed_row → result E) (key : E → string).
Hypothesis key_mk : ∀ watch entry,
  mk watch = Ok entry → key entry = py_str (get watch "Код").

(** The entries are those of the rows whose code is in the list, in the
    order of the feed. *)
Lemma price_rows_codes :
  ∀ rows ids prices out,
    price_rows mk rows ids prices = Ok out →
    map key out = map key prices ++ filter (λ code, code ∈ ids) (codes rows).
Proof.
  induction rows as [|watch rows IH]; intros ids prices out; simpl.
  - intros [= <-]. by rewrite app_nil_r.
  - unfold codes. simpl. rewrite filter_cons.
    destruct (bool_decide_reflect (py_str (get watch "Код") ∈ ids)) as [Hin|Hout].
    + destruct (decide _); [|done].
      destruct (mk watch) as [entry|err] eqn:Hmk; [|done].
      intros ->%IH. rewrite map_app. simpl.
      rewrite (key_mk _ _ Hmk). by rewrite <- app_assoc.
    + destruct (decide _); [done|]. apply IH.
Qed.

(** A row whose code is in the list and whose entry cannot be built
    stops the loop, unless an earlier row did. *)
Lemma price_rows_rejects :
  ∀ rows ids prices watch,
    watch ∈ rows →
    py_str (get watch "Код") ∈ ids →
    raises (mk watch) →
    raises (price_rows mk rows ids prices).
Proof.
  induction rows as [|first rows IH]; intros ids prices watch Hrow Hin Hbad.
  - by apply elem_of_nil in Hrow.
  - simpl. apply elem_of_cons in Hrow as [<-|Hrow].
    + rewrite bool_decide_eq_true_2 by done. by destruct (mk watch).
    + destruct (bool_decide _); [|by apply (IH _ _ watch)].
      destruct (mk first); [by apply (IH _ _ watch)|done].
Qed.

(** The error of the loop is the error of a row. *)
Lemma price_rows_errors :
  ∀ rows ids prices e,
    price_rows mk rows ids prices = Raise e →
    ∃ watch, watch ∈ rows ∧ mk watch = Raise e.
Proof.
  induction rows as [|first rows IH]; intros ids prices e; simpl; [done|].
  destruct (bool_decide _).
  - destruct (mk first) as [entry|e'] eqn:Hmk.
    + intros (watch & ? & ?)%IH. exists watch. split; [by right|done].
    + intros [= <-]. exists first. split; [by left|done].
  - intros (watch & ? & ?)%IH. exists watch. split; [by right|done].
Qed.

End price_rows.

Lemma seller_price_key watch entry :
  seller_price watch = Ok entry →
  Seller.price_offer_id entry = py_str (get watch "Код").
Proof.
  unfold seller_price. destruct (Seller.price_conversion _); [|done].
  by intros [= <-].
Qed.

Lemma market_price_key `{U : UnicodeDB} watch entry :
  market_price watch = Ok entry →
  Market.price_id entry = py_str (get watch "Код").
Proof.
  unfold market_price. destruct (Seller.price_conversion _); [|done].
  destruct (py_int _); [|done]. by intros [= <-].
Qed.

(** C5. [create_prices] only reads the list of offer ids: the world after
    the call is the world before it.  The price list it returns has one
    entry for every row of the feed whose code is in the list, in the order
    of the feed, and nothing else; so an offer of the list that no row
    names gets no price entry. *)
Theorem create_prices_only_for_listed_rows `{U : UnicodeDB}
    (watch_remnants : list feed_row) (offer_ids : loc) (w : world)
    (ids : list string) :
  heap w !! offer_ids = Some ids →
  (Seller.create_prices watch_remnants offer_ids w).2 = w ∧
  (Market.create_prices watch_remnants offer_ids w).2 = w ∧
  (∀ prices, (Seller.create_prices watch_remnants offer_ids w).1 = Ok prices →
     map Seller.price_offer_id prices
     = filter (λ code, code ∈ ids) (codes watch_remnants) ∧
     ∀ id, id ∈ ids → id ∉ codes watch_remnants →
           id ∉ map Seller.price_offer_id prices) ∧
  (∀ prices, (Market.create_prices watch_remnants offer_ids w).1 = Ok prices →
     map Market.price_id prices
     = filter (λ code, code ∈ ids) (codes watch_remnants) ∧
     ∀ id, id ∈ ids → id ∉ codes watch_remnants →
           id ∉ map Market.price_id prices).
Proof.
  intros Hids. unfold Seller.create_prices, Market.create_prices.
  rewrite (run_seller_price_loop _ _ _ _ _ Hids).
  rewrite (run_market_price_loop _ _ _ _ _ Hids). simpl.
  assert (Hnone : ∀ l : list string,
            l = filter (λ code, code ∈ ids) (codes watch_remnants) →
            ∀ id, id ∈ ids → id ∉ codes watch_remnants → id ∉ l).
  { intros l -> id _ Hno [_ Hin]%list_elem_of_filter. done. }
  split_and!; [done..| |].
  - intros prices Hrun.
    apply (price_rows_codes _ _ seller_price_key) in Hrun. simpl in Hrun.
    split; [done|by apply Hnone].
  - intros prices Hrun.
    apply (price_rows_codes _ _ market_price_key) in Hrun. simpl in Hrun.
    split; [done|by apply Hnone].
Qed.

(** The scenario of the specification: a price for the offer that has a
    row, none for the other. *)
Lemma create_prices_only_for_listed_rows_witness :
  map Seller.price_offer_id [Seller.PriceEntry "UNKNOWN" "RUB" "73397" "0" "22990"]
  = filter (λ code, code ∈ ["73397"; "73398"])
      (codes [row (PyInt 73397) (PyStr "22'990.00 руб.") (PyStr ">10")]) ∧
  ∀ id, id ∈ ["73397"; "73398"] →
        id ∉ codes [row (PyInt 73397) (PyStr "22'990.00 руб.") (PyStr ">10")] →
        id ∉ map Seller.price_offer_id
               [Seller.PriceEntry "UNKNOWN" "RUB" "73397" "0" "22990"].
Proof.
  destruct (create_prices_only_for_listed_rows (U := ascii_numbers_only)
    [row (PyInt 73397) (PyStr "22'990.00 руб.") (PyStr ">10")]
    0%nat (sample_world ["73397"; "73398"]) ["73397"; "73398"] eq_refl)
    as (_ & _ & Hseller & _).
  apply Hseller. vm_compute. reflexivity.
Defined.

Lemma price_conversion_errors (price : pyval) (e : exn) :
  Seller.price_conversion price = Raise e → e = AttributeError.
Proof.
  destruct price as [| |s]; [simpl; by intros [= <-]..|].
  by rewrite price_conversion_text.
Qed.

Lemma market_price_errors `{U : UnicodeDB} (watch : feed_row) (e : exn) :
  market_price watch = Raise e → e = ValueError ∨ e = AttributeError.
Proof.
  unfold market_price.
  destruct (Seller.price_conversion _) as [converted|e'] eqn:Hconv.
  - destruct (py_int_text_cases converted) as [Hint|[z Hint]];
      rewrite Hint; [|done]. intros [= <-]. by left.
  - intros [= <-]. right. by apply price_conversion_errors in Hconv.
Qed.

(** C10. A price text with no ASCII digit in front of its first ["."] is
    converted to the empty text, which [int] rejects.  So when the feed has
    a row with such a price whose code is in the list of offer ids,
    [create_prices] of market.py raises, leaves the world as it was and
    returns no price list, not even a price of zero for that row; the
    error is [ValueError] when every price of the feed is a text. *)
Theorem market_prices_reject_a_price_without_digits `{U : UnicodeDB}
    (watch_remnants : list feed_row) (offer_ids : loc) (w : world)
    (ids : list string) (watch : feed_row) (s : string) :
  heap w !! offer_ids = Some ids →
  watch ∈ watch_remnants →
  py_str (get watch "Код") ∈ ids →
  get watch "Цена" = PyStr s →
  string_forall not_0_9 (before_first_dot s) = true →
  Seller.price_conversion (PyStr s) = Ok "" ∧
  py_int (PyStr "") = Raise ValueError ∧
  ∃ e, Market.create_prices watch_remnants offer_ids w = (Raise e, w) ∧
       (e = ValueError ∨ e = AttributeError) ∧
       ((∀ other, other ∈ watch_remnants → ∃ t, get other "Цена" = PyStr t) →
        e = ValueError).
Proof.
  intros Hids Hrow Hin Hprice Hnodigit.
  assert (Hconv : Seller.price_conversion (PyStr s) = Ok "").
  { rewrite price_conversion_text. unfold strip_non_digits.
    by rewrite string_filter_none. }
  split; [done|]. split; [done|].
  unfold Market.create_prices. rewrite (run_market_price_loop _ _ _ _ _ Hids).
  assert (Hbad : raises (market_price watch)).
  { unfold market_price. by rewrite Hprice, Hconv. }
  pose proof (price_rows_rejects market_price watch_remnants ids [] watch
                Hrow Hin Hbad) as Hraise.
  destruct (price_rows _ _ _ _) as [out|e] eqn:Hrun; [done|].
  exists e. split; [done|].
  apply price_rows_errors in Hrun as (other & Hother & Herr).
  split; [by apply market_price_errors in Herr|].
  intros Htext. destruct (Htext other Hother) as [t Ht].
  unfold market_price in Herr. rewrite Ht, price_conversion_text in Herr.
  destruct (py_int_text_cases (strip_non_digits (before_first_dot t)))
    as [Hint|[z Hint]]; rewrite Hint in Herr; congruence.
Qed.

(** A row whose price is the currency label alone. *)
Lemma market_prices_reject_a_price_without_digits_witness :
  Seller.price_conversion (PyStr "руб.") = Ok "" ∧
  py_int (U := ascii_numbers_only) (PyStr "") = Raise ValueError ∧
  ∃ e, Market.create_prices (U := ascii_numbers_only)
         [row (PyInt 73397) (PyStr "руб.") (PyStr ">10")] 0%nat
         (sample_world ["73397"; "73398"])
       = (Raise e, sample_world ["73397"; "73398"]) ∧
       (e = ValueError ∨ e = AttributeError) ∧
       ((∀ other, other ∈ [row (PyInt 73397) (PyStr "руб.") (PyStr ">10")] →
                  ∃ t, get other "Цена" = PyStr t) →
        e = ValueError).
Proof.
  refine (market_prices_reject_a_price_without_digits (U := ascii_numbers_only)
    [row (PyInt 73397) (PyStr "руб.") (PyStr ">10")] 0%nat
    (sample_world ["73397"; "73398"]) ["73397"; "73398"]
    (row (PyInt 73397) (PyStr "руб.") (PyStr ">10")) "руб." _ _ _ _ _).
  - reflexivity.
  - apply (bool_decide_unpack _). vm_compute. exact I.
  - apply (bool_decide_unpack _). vm_compute. exact I.
  - reflexivity.
  - reflexivity.
Defined.

(** * Further properties of the code *)

(** ** Quantities that are not text *)





(** ** Reading a text of digits *)






(** ** The price lists, entry by entry *)

Section price_rows_entries.
Context {E : Type} (mk : feed_row → result E).



End price_rows_entries.







(** ** The stock list in full, and the list of offer ids afterwards *)

Lemma filter_ext_elem {A} (P Q : A → Prop)
    `{∀ x, Decision (P x)} `{∀ x, Decision (Q x)} (l : list A) :
  (∀ x, x ∈ l → P x ↔ Q x) → filter P l = filter Q l.
Proof.
  induction l as [|x l IH]; intros Hext; [done|].
  rewrite !filter_cons.
  assert (Hx : P x ↔ Q x) by (apply Hext; by left).
  assert (Hl : filter P l = filter Q l)
    by (apply IH; intros y ?; apply Hext; by right).
  destruct (decide (P x)), (decide (Q x)); rewrite ?Hl; tauto || done.
Qed.

Lemma filter_all {A} (P : A → Prop) `{∀ x, Decision (P x)} (l : list A) :
  (∀ x, x ∈ l → P x) → filter P l = l.
Proof.
  induction l as [|x l IH]; intros Hall; [done|].
  rewrite filter_cons_True by (apply Hall; by left).
  f_equal. apply IH. intros y ?. apply Hall. by right.
Qed.

Lemma remove_first_filter (x : string) (l : list string) :
  NoDup l → remove_first x l = filter (λ y, y ≠ x) l.
Proof.
  induction 1 as [|y l Hy Hl IH]; simpl; [done|].
  rewrite filter_cons. destruct (decide (x = y)) as [->|Hne].
  - destruct (decide (y ≠ y)); [done|].
    symmetry. apply filter_all. by intros z Hz ->.
  - destruct (decide (y ≠ x)) as [_|Hnn]; [|destruct Hnn; congruence].
    by rewrite IH.
Qed.

Section match_rows_full.
Context `{U : UnicodeDB} {E : Type} (mk : string → Z → E).

(** After the first loop, on a list without repetition: the list still has
    no repetition, it has lost ids only, and no row of the feed has its
    code in it. *)
Lemma match_rows_consumes :
  ∀ rows ids stocks out ids',
    NoDup ids →
    match_rows mk rows ids stocks = (Ok out, ids') →
    NoDup ids' ∧ (∀ id, id ∈ ids' → id ∈ ids) ∧
    ∀ watch, watch ∈ rows → py_str (get watch "Код") ∉ ids'.
Proof.
  induction rows as [|watch rows IH]; intros ids stocks out ids' Hnd; simpl.
  - intros [= <- <-]. split_and!; [done..|]. by intros ? ?%elem_of_nil.
  - destruct (bool_decide_reflect (py_str (get watch "Код") ∈ ids)) as [Hin|Hout].
    + destruct (stock_of _) as [stock|e]; [|done].
      rewrite (remove_first_filter _ _ Hnd).
      intros (Hnd' & Hsub & Hrows)%IH; [|by apply NoDup_filter].
      split_and!; [done| |].
      * intros id [_ ?]%Hsub%list_elem_of_filter. done.
      * intros other [->|?]%elem_of_cons; [|by apply Hrows].
        intros [Hne _]%Hsub%list_elem_of_filter. done.
    + intros (Hnd' & Hsub & Hrows)%IH; [|done].
      split_and!; [done..|].
      intros other [->|?]%elem_of_cons; [|by apply Hrows].
      intros ?%Hsub. done.
Qed.

(** The first loop in full, when neither the list of offer ids nor the
    codes of the feed repeat. *)
Lemma match_rows_full :
  ∀ rows ids stocks out ids',
    NoDup ids → NoDup (codes rows) →
    match_rows mk rows ids stocks = (Ok out, ids') →
    ids' = filter (λ id, id ∉ codes rows) ids ∧
    ∃ matched,
      out = stocks ++ matched ∧
      Forall2 (λ watch entry,
                 ∃ stock, stock_of (get watch "Количество") = Ok stock ∧
                          entry = mk (py_str (get watch "Код")) stock)
              (listed ids rows) matched.
Proof.
  induction rows as [|watch rows IH]; intros ids stocks out ids' Hnd Hcodes.
  - simpl. intros [= <- <-]. split.
    + symmetry. apply filter_all. by intros id _ ?%elem_of_nil.
    + exists []. split; [by rewrite app_nil_r|constructor].
  - unfold codes in Hcodes. simpl in Hcodes.
    apply NoDup_cons in Hcodes as [Hfresh Hcodes]. fold (codes rows) in *.
    simpl. unfold listed. rewrite filter_cons. fold (listed ids rows).
    destruct (bool_decide_reflect (py_str (get watch "Код") ∈ ids)) as [Hin|Hout].
    + destruct (decide _); [|done].
      destruct (stock_of _) as [stock|err] eqn:Hrule; [|done].
      rewrite (remove_first_filter _ _ Hnd).
      intros (-> & matched & -> & Hmatched)%IH; [|by apply NoDup_filter|done].
      split.
      * rewrite list_filter_filter. apply filter_ext_elem. intros id _.
        unfold codes. simpl. rewrite not_elem_of_cons. tauto.
      * exists (mk (py_str (get watch "Код")) stock :: matched).
        split; [by rewrite <- app_assoc|].
        constructor; [by exists stock|].
        replace (listed ids rows)
          with (listed (filter (λ y, y ≠ py_str (get watch "Код")) ids) rows);
          [done|].
        apply filter_ext_elem. intros other Hother.
        rewrite list_elem_of_filter. split; [tauto|]. intros ?. split; [|done].
        intros Heq. apply Hfresh. rewrite <- Heq.
        unfold codes. apply list_elem_of_fmap. by exists other.
    + destruct (decide _); [done|].
      intros (-> & matched & -> & Hmatched)%IH; [|done..].
      split; [|by exists matched].
      apply filter_ext_elem. intros id Hid.
      unfold codes. simpl. rewrite not_elem_of_cons.
      split; [|tauto]. intros ?. split; [|done]. by intros ->.
Qed.

End match_rows_full.

Lemma price_rows_none {E} (mk : feed_row → result E) :
  ∀ rows ids prices,
    (∀ watch, watch ∈ rows → py_str (get watch "Код") ∉ ids) →
    price_rows mk rows ids prices = Ok prices.
Proof.
  induction rows as [|watch rows IH]; intros ids prices Hnone; simpl; [done|].
  rewrite bool_decide_eq_false_2 by (apply Hnone; by left).
  apply IH. intros other ?. apply Hnone. by right.
Qed.

(** X3. When neither the list of offer ids nor the codes of the feed
    repeat, the stock list [create_stocks] returns is, first, one entry for
    every row whose code is in the list, in the order of the feed, with
    the quantity the rule gives for the row, and then one entry with
    quantity [0] for every offer id that is the code of no row, in the
    order of the list; and the caller's list holds exactly those unmatched
    ids afterwards. *)
Theorem create_stocks_in_full `{U : UnicodeDB}
    (watch_remnants : list feed_row) (offer_ids : loc) (warehouse_id : string)
    (w : world) (ids : list string) :
  heap w !! offer_ids = Some ids →
  NoDup ids →
  NoDup (codes watch_remnants) →
  (∀ stocks w',
     Seller.create_stocks watch_remnants offer_ids w = (Ok stocks, w') →
     heap w' !! offer_ids = Some (filter (λ id, id ∉ codes watch_remnants) ids) ∧
     ∃ matched,
       stocks = matched ++ map (λ id, Seller.StockEntry id 0)
                               (filter (λ id, id ∉ codes watch_remnants) ids) ∧
       Forall2 (λ watch entry,
                  ∃ stock, stock_of (get watch "Количество") = Ok stock ∧
                           entry = Seller.StockEntry (py_str (get watch "Код")) stock)
               (listed ids watch_remnants) matched) ∧
  (∀ stocks w',
     Market.create_stocks watch_remnants offer_ids warehouse_id w = (Ok stocks, w') →
     heap w' !! offer_ids = Some (filter (λ id, id ∉ codes watch_remnants) ids) ∧
     ∃ matched,
       stocks = matched ++
                map (λ id, Market.StockEntry id warehouse_id
                             [Market.Item 0 "FIT" (iso_seconds_utc (clock w (ticks w)))])
                    (filter (λ id, id ∉ codes watch_remnants) ids) ∧
       Forall2 (λ watch entry,
                  ∃ stock, stock_of (get watch "Количество") = Ok stock ∧
                           entry = Market.StockEntry (py_str (get watch "Код"))
                                     warehouse_id
                                     [Market.Item stock "FIT"
                                        (iso_seconds_utc (clock w (ticks w)))])
               (listed ids watch_remnants) matched).
Proof.
  intros Hids Hnd Hcodes. split; intros stocks w'.
  - rewrite (seller_create_stocks_run _ _ _ _ Hids).
    destruct (match_rows _ _ _ _) as [[out|e] ids'] eqn:Hrun; [|done].
    intros [= <- <-].
    apply match_rows_full in Hrun as (-> & matched & -> & Hmatched); [|done..].
    split; [apply with_list_lookup|]. by exists matched.
  - rewrite (market_create_stocks_run _ _ _ _ _ Hids).
    rewrite market_date_iso.
    destruct (match_rows _ _ _ _) as [[out|e] ids'] eqn:Hrun; [|done].
    intros [= <- <-].
    apply match_rows_full in Hrun as (-> & matched & -> & Hmatched); [|done..].
    split; [apply with_list_lookup|]. by exists matched.
Qed.

Lemma create_stocks_in_full_witness :
  heap (with_list (sample_world ["73397"; "73398"; "73399"]) 0%nat ["73397"; "73399"])
    !! 0%nat
  = Some (filter (λ id, id ∉ codes [row (PyInt 10001) PyNone (PyStr "3");
                                    row (PyInt 73398) PyNone (PyStr "7")])
            ["73397"; "73398"; "73399"]) ∧
  ∃ matched,
    [Seller.StockEntry "73398" 7; Seller.StockEntry "73397" 0;
     Seller.StockEntry "73399" 0]
    = matched ++ map (λ id, Seller.StockEntry id 0)
                     (filter (λ id, id ∉ codes [row (PyInt 10001) PyNone (PyStr "3");
                                                row (PyInt 73398) PyNone (PyStr "7")])
                        ["73397"; "73398"; "73399"]) ∧
    Forall2 (λ watch entry,
               ∃ stock,
                 stock_of (U := ascii_numbers_only) (get watch "Количество") = Ok stock ∧
                 entry = Seller.StockEntry (py_str (get watch "Код")) stock)
            (listed ["73397"; "73398"; "73399"]
               [row (PyInt 10001) PyNone (PyStr "3");
                row (PyInt 73398) PyNone (PyStr "7")])
            matched.
Proof.
  refine (proj1 (create_stocks_in_full (U := ascii_numbers_only)
    [row (PyInt 10001) PyNone (PyStr "3"); row (PyInt 73398) PyNone (PyStr "7")]
    0%nat "WAREHOUSE_ID" (sample_world ["73397"; "73398"; "73399"])
    ["73397"; "73398"; "73399"] _ _ _) _ _ _).
  - reflexivity.
  - apply (bool_decide_unpack _). vm_compute. exact I.
  - apply (bool_decide_unpack _). vm_compute. exact I.
  - vm_compute. reflexivity.
Defined.

(** X4. A list of offer ids without repetition that [create_stocks] has
    worked on holds the code of no row of the feed any more: [create_prices]
    called next on the same list and the same feed, as [main] of seller.py
    does, returns the empty price list, in either channel. *)
Theorem create_prices_after_create_stocks `{U : UnicodeDB}
    (watch_remnants : list feed_row) (offer_ids : loc) (warehouse_id : string)
    (w : world) (ids : list string) :
  heap w !! offer_ids = Some ids →
  NoDup ids →
  (∀ stocks w',
     Seller.create_stocks watch_remnants offer_ids w = (Ok stocks, w') →
     Seller.create_prices watch_remnants offer_ids w' = (Ok [], w')) ∧
  (∀ stocks w',
     Market.create_stocks watch_remnants offer_ids warehouse_id w = (Ok stocks, w') →
     Market.create_prices watch_remnants offer_ids w' = (Ok [], w')).
Proof.
  intros Hids Hnd. split; intros stocks w'.
  - rewrite (seller_create_stocks_run _ _ _ _ Hids).
    destruct (match_rows _ _ _ _) as [[out|e] ids'] eqn:Hrun; [|done].
    intros [= <- <-].
    apply match_rows_consumes in Hrun as (_ & _ & Hnone); [|done].
    unfold Seller.create_prices.
    rewrite (run_seller_price_loop _ _ _ _ _ (with_list_lookup _ _ _)).
    by rewrite price_rows_none.
  - rewrite (market_create_stocks_run _ _ _ _ _ Hids).
    destruct (match_rows _ _ _ _) as [[out|e] ids'] eqn:Hrun; [|done].
    intros [= <- <-].
    apply match_rows_consumes in Hrun as (_ & _ & Hnone); [|done].
    unfold Market.create_prices.
    rewrite (run_market_price_loop _ _ _ _ _ (with_list_lookup _ _ _)).
    by rewrite price_rows_none.
Qed.

Lemma create_prices_after_create_stocks_witness :
  Seller.create_prices
    [row (PyInt 73397) (PyStr "22'990.00 руб.") (PyStr ">10")] 0%nat
    (with_list (sample_world ["73397"; "73398"]) 0%nat ["73398"])
  = (Ok [], with_list (sample_world ["73397"; "73398"]) 0%nat ["73398"]).
Proof.
  refine (proj1 (create_prices_after_create_stocks (U := ascii_numbers_only)
    [row (PyInt 73397) (PyStr "22'990.00 руб.") (PyStr ">10")] 0%nat
    "WAREHOUSE_ID" (sample_world ["73397"; "73398"]) ["73397"; "73398"] _ _)
    [Seller.StockEntry "73397" 100; Seller.StockEntry "73398" 0] _ _).
  - reflexivity.
  - apply (bool_decide_unpack _). vm_compute. exact I.
  - vm_compute. reflexivity.
Defined.

(** ** The chunker at its bounds *)

(** X5. [divide] with the chunk size [0] raises [ValueError]; with a
    negative chunk size it yields nothing, whatever the list holds; with a
    chunk size [n] of at least one no chunk it yields is empty and none
    has more than [n] elements. *)
Theorem divide_bounds {A} (lst : list A) (n : Z) :
  (n = 0 → Seller.divide lst n = Raise ValueError) ∧
  (n < 0 → Seller.divide lst n = Ok []) ∧
  (1 ≤ n → ∀ chunks c, Seller.divide lst n = Ok chunks → c ∈ chunks →
           1 ≤ Z.of_nat (length c) ≤ n).
Proof.
  split_and!.
  - intros ->. reflexivity.
  - intros Hn. unfold Seller.divide, py_range.
    destruct (decide (n = 0)); [lia|].
    unfold range_length.
    rewrite (proj2 (Z.ltb_ge 0 n)) by lia.
    rewrite (proj2 (Z.ltb_ge (Z.of_nat (length lst)) 0)) by lia.
    reflexivity.
  - intros Hn chunks c. rewrite divide_blocks by done.
    intros [= <-] [k Hk]%list_elem_of_lookup.
    apply lookup_blocks in Hk as [Hk ->].
    rewrite length_block.
    pose proof (ceil_div_bounds (Z.of_nat (length lst)) n ltac:(lia) Hn)
      as (Hc0 & Hc1 & Hc2).
    nia.
Qed.

(** ** The enumeration, page by page *)

(** X6. The enumeration of seller.py stops at the first page on which the
    reported total equals the number of products read so far, and returns
    the offer ids of the pages up to that one; what the marketplace would
    answer afterwards plays no part.  As long as no page passes that test
    the loop asks for another page, and an error on that request is the
    outcome of the enumeration: no part of the catalog is returned. *)
Theorem seller_get_offer_ids_stops (pages : list Seller.product_page)
    (rest : list (result Seller.product_page)) :
  (∀ i, ozon_done pages i → (∀ j, (j < i)%nat → ¬ ozon_done pages j) →
        Seller.get_offer_ids (map Ok pages ++ rest) = Some (Ok (ozon_ids pages (S i)))) ∧
  ((∀ i, ¬ ozon_done pages i) →
   Seller.get_offer_ids (map Ok pages) = None ∧
   ∀ e, Seller.get_offer_ids (map Ok pages ++ Raise e :: rest) = Some (Raise e)).
Proof.
  split.
  - intros i (page & Hi & Htotal) Hfirst. unfold Seller.get_offer_ids.
    rewrite <- (take_drop i pages) at 1. rewrite map_app, <- app_assoc.
    rewrite seller_fetch_products_skip.
    + rewrite (drop_S _ _ _ Hi). simpl.
      assert (Hids : concat (map Seller.items (take i pages)) ++ Seller.items page
                     = ozon_ids pages (S i)).
      { unfold ozon_ids. rewrite (take_S_r _ _ _ Hi), map_app, concat_app.
        simpl. by rewrite app_nil_r. }
      rewrite Hids. destruct (decide _); [|done].
      by rewrite foldl_snoc.
    + intros j other Hj Heq. simpl in Heq.
      apply lookup_take_Some in Hj as [Hj Hlt].
      apply (Hfirst j Hlt). exists other. split; [done|].
      rewrite Heq, take_take. unfold ozon_ids.
      by replace (S j `min` i)%nat with (S j) by lia.
  - intros Hnever.
    assert (Hskip : ∀ tail, Seller.fetch_products (map Ok pages ++ tail) []
              = Seller.fetch_products tail (concat (map Seller.items pages))).
    { intros tail. rewrite seller_fetch_products_skip; [done|].
      intros i page Hi Heq. apply (Hnever i). by exists page. }
    unfold Seller.get_offer_ids. split.
    + rewrite <- (app_nil_r (map Ok pages)). by rewrite Hskip.
    + intros e. by rewrite Hskip.
Qed.

(** X7. The enumeration of market.py stops at the first page without a
    next page token and returns the offer ids of the pages up to that one;
    what the marketplace would answer afterwards plays no part.  As long
    as every page has a token the loop asks for another page, and an error
    on that request is the outcome of the enumeration. *)
Theorem market_get_offer_ids_stops (pages : list Market.product_page)
    (rest : list (result Market.product_page)) :
  (∀ i, market_done pages i → (∀ j, (j < i)%nat → ¬ market_done pages j) →
        Market.get_offer_ids (map Ok pages ++ rest)
        = Some (Ok (market_ids pages (S i)))) ∧
  ((∀ i, ¬ market_done pages i) →
   Market.get_offer_ids (map Ok pages) = None ∧
   ∀ e, Market.get_offer_ids (map Ok pages ++ Raise e :: rest) = Some (Raise e)).
Proof.
  split.
  - intros i (page & Hi & Htoken) Hfirst. unfold Market.get_offer_ids.
    rewrite <- (take_drop i pages) at 1. rewrite map_app, <- app_assoc.
    rewrite market_fetch_products_skip.
    + rewrite (drop_S _ _ _ Hi). simpl. rewrite Htoken.
      rewrite foldl_snoc. simpl. do 2 f_equal.
      unfold market_ids. rewrite (take_S_r _ _ _ Hi), map_app, concat_app.
      simpl. by rewrite app_nil_r.
    + intros other [j Hj]%list_elem_of_lookup.
      apply lookup_take_Some in Hj as [Hj Hlt].
      destruct (Market.falsy (Market.nextPageToken other)) eqn:Htok; [|done].
      exfalso. apply (Hfirst j Hlt). by exists other.
  - intros Hnever.
    assert (Hskip : ∀ tail, Market.fetch_products (map Ok pages ++ tail) []
              = Market.fetch_products tail
                  (concat (map Market.offerMappingEntries pages))).
    { intros tail. rewrite market_fetch_products_skip; [done|].
      intros page [i Hi]%list_elem_of_lookup.
      destruct (Market.falsy (Market.nextPageToken page)) eqn:Htok; [|done].
      exfalso. apply (Hnever i). by exists page. }
    unfold Market.get_offer_ids. split.
    + rewrite <- (app_nil_r (map Ok pages)). by rewrite Hskip.
    + intros e. by rewrite Hskip.
Qed.

(** ** Reasoning about runs *)

Lemma run_bind_N {A B} (m : Run A) (f : A → Run B) (st : remote) :
  (m ≫= f) st =
  match m st with
  | (Done a, st') => f a st'
  | (Failed e, st') => (Failed e, st')
  | (Waiting, st') => (Waiting, st')
  end.
Proof. reflexivity. Qed.

Lemma hoare_ret {A} (P : remote → Prop) (a : A) (Q : outcome A → remote → Prop) :
  (∀ st, P st → Q (Done a) st) → hoare P (mret a) Q.
Proof. intros HQ st HP. by apply HQ. Qed.

Lemma hoare_bind {A B} (P : remote → Prop) (R : A → remote → Prop)
    (Q : outcome B → remote → Prop) (m : Run A) (f : A → Run B) :
  hoare P m (λ o st, match o with
                     | Done a => R a st
                     | Failed e => Q (Failed e) st
                     | Waiting => Q Waiting st
                     end) →
  (∀ a, hoare (R a) (f a) Q) →
  hoare P (m ≫= f) Q.
Proof.
  intros Hm Hf st HP. rewrite run_bind_N. specialize (Hm st HP).
  destruct (m st) as [[a|e|] st']; simpl in *; [by apply Hf|done..].
Qed.

Lemma hoare_conseq {A} (P P' : remote → Prop) (Q Q' : outcome A → remote → Prop)
    (m : Run A) :
  hoare P' m Q' → (∀ st, P st → P' st) → (∀ o st, Q' o st → Q o st) → hoare P m Q.
Proof. intros Hm HP HQ st Hst. apply HQ, Hm, HP, Hst. Qed.

Lemma hoare_try (P : remote → Prop) (R : failure → remote → Prop)
    (Q : outcome unit → remote → Prop) (body : Run unit) (handler : failure → Run unit) :
  hoare P body (λ o st, match o with
                        | Failed e => R e st
                        | other => Q other st
                        end) →
  (∀ e, hoare (R e) (handler e) Q) →
  hoare P (try_except body handler) Q.
Proof.
  intros Hbody Hhandler st HP. unfold try_except. specialize (Hbody st HP).
  destruct (body st) as [[a|e|] st']; simpl in *; [done|by apply Hhandler|done].
Qed.

Lemma hoare_for_each {A} (Inv : remote → Prop) (Q : outcome unit → remote → Prop)
    (l : list A) (body : A → Run unit) :
  (∀ x, x ∈ l → hoare Inv (body x) (λ o st, match o with
                                            | Done _ => Inv st
                                            | other => Q other st
                                            end)) →
  (∀ st, Inv st → Q (Done ()) st) →
  hoare Inv (for_each l body) Q.
Proof.
  intros Hbody Hdone. induction l as [|x l IH]; simpl.
  - by apply hoare_ret.
  - apply (hoare_bind _ (λ _, Inv)).
    + eapply hoare_conseq; [apply (Hbody x); by left|done|].
      by intros [[]|e|] st.
    + intros _. apply IH. intros y ?. apply Hbody. by right.
Qed.

Lemma hoare_lift_M {A} (P : remote → Prop) (m : M A) (Q : outcome A → remote → Prop) :
  (∀ st, P st →
     match m (local st) with
     | (Ok a, w) => Q (Done a) (with_local st w)
     | (Raise e, w) => Q (Failed (Py e)) (with_local st w)
     end) →
  hoare P (lift_M m) Q.
Proof.
  intros Hm st HP. specialize (Hm st HP). unfold lift_M.
  by destruct (m (local st)) as [[a|e] w].
Qed.

Lemma hoare_exchange {R} (P : remote → Prop) (req : request)
    (script : remote → list (failure + R))
    (leave : remote → list (failure + R) → remote) (Q : outcome R → remote → Prop) :
  (∀ st, P st →
     match script (log req st) with
     | [] => Q Waiting (log req st)
     | inl e :: rest => Q (Failed e) (leave (log req st) rest)
     | inr r :: rest => Q (Done r) (leave (log req st) rest)
     end) →
  hoare P (exchange req script leave) Q.
Proof.
  intros Hm st HP. specialize (Hm st HP). unfold exchange.
  by destruct (script (log req st)) as [|[e|r] rest].
Qed.

Lemma hoare_pure_pre {A} (P : remote → Prop) (φ : Prop) (m : Run A)
    (Q : outcome A → remote → Prop) :
  (φ → hoare P m Q) → hoare (λ st, P st ∧ φ) m Q.
Proof. intros Hm st [HP Hφ]. by apply Hm. Qed.

Lemma sent_since_refl (K : request → Prop) (st : remote) : sent_since K st st.
Proof. exists []. by rewrite app_nil_r. Qed.

Lemma sent_since_trans (K : request → Prop) (st1 st2 st3 : remote) :
  sent_since K st1 st2 → sent_since K st2 st3 → sent_since K st1 st3.
Proof.
  intros (new1 & H1 & HK1) (new2 & H2 & HK2). exists (new1 ++ new2).
  split; [by rewrite H2, H1, app_assoc|by apply Forall_app].
Qed.

Lemma sent_since_same (K : request → Prop) (st st' : remote) :
  sent st' = sent st → sent_since K st st'.
Proof. intros Heq. exists []. by rewrite app_nil_r. Qed.

Lemma sent_since_log (K : request → Prop) (st st' : remote) (req : request) :
  K req → sent st' = sent (log req st) → sent_since K st st'.
Proof. intros HK Heq. exists [req]. split; [done|by constructor]. Qed.

Lemma sent_since_weaken (K K' : request → Prop) (st st' : remote) :
  (∀ req, K req → K' req) → sent_since K st st' → sent_since K' st st'.
Proof.
  intros HK (new & Hnew & Hall). exists new. split; [done|].
  eapply Forall_impl; [exact Hall|done].
Qed.

(** ** The enumeration inside a run *)

Lemma seller_run_fetch_products (client_id seller_token : string) (fuel : nat) :
  ∀ (last_id : string) (acc : list string) (st : remote),
    (length (ozon_pages st) < fuel)%nat →
    ∃ pages,
      same_but_ozon st (SellerRun.fetch_products fuel client_id seller_token
                          last_id acc st).2 ∧
      match SellerRun.fetch_products fuel client_id seller_token last_id acc st with
      | (Done product_list, st') =>
          ozon_pages st = map inr pages ++ ozon_pages st' ∧
          Seller.fetch_products (map Ok pages) acc = Some (Ok product_list) ∧
          product_list = acc ++ concat (map Seller.items pages) ∧
          sent st' = sent st ++
                     map (OzonProductList client_id seller_token)
                         (take (length pages) (last_id :: map Seller.last_id pages))
      | (Failed e, st') =>
          ozon_pages st = map inr pages ++ inl e :: ozon_pages st' ∧
          Seller.fetch_products (map Ok pages) acc = None ∧
          sent st' = sent st ++
                     map (OzonProductList client_id seller_token)
                         (last_id :: map Seller.last_id pages)
      | (Waiting, st') =>
          ozon_pages st = map inr pages ∧ ozon_pages st' = [] ∧
          Seller.fetch_products (map Ok pages) acc = None ∧
          sent st' = sent st ++
                     map (OzonProductList client_id seller_token)
                         (last_id :: map Seller.last_id pages)
      end.
Proof.
  induction fuel as [|fuel IH]; intros last_id acc st Hfuel; [lia|].
  cbn [SellerRun.fetch_products]. rewrite run_bind_N.
  unfold SellerRun.get_product_list, exchange.
  destruct st as [w reqs oz mk up ar pr]. cbn [log ozon_pages sent] in *.
  destruct oz as [|[e|page] rest].
  - exists []. by repeat split.
  - exists []. by repeat split.
  - cbn [with_ozon_pages log local sent ozon_pages market_pages updates archives printed].
    destruct (decide (Seller.total page
                      = Z.of_nat (length (acc ++ Seller.items page)))) as [Hdone|Hmore].
    + exists [page]. split; [done|]. cbn.
      destruct (decide _); [|done]. rewrite app_nil_r. by repeat split.
    + set (st1 := Remote w (reqs ++ [OzonProductList client_id seller_token last_id])
                    rest mk up ar pr).
      destruct (IH (Seller.last_id page) (acc ++ Seller.items page) st1
                  ltac:(simpl in *; lia)) as (pages & Hsame & Hrun).
      exists (page :: pages).
      change (with_ozon_pages (log _ _) rest) with st1.
      split; [exact Hsame|].
      destruct (SellerRun.fetch_products fuel _ _ _ _ st1) as [[l|e|] st'];
        cbn [map length take fmap list_fmap app Seller.fetch_products sent ozon_pages] in *;
        (destruct (decide _); [done|]).
      * destruct Hrun as (Hscript & Hfetch & -> & Hsent). simpl in Hscript, Hsent.
        split; [by rewrite <- Hscript|]. split; [exact Hfetch|].
        split; [simpl; by rewrite <- app_assoc|].
        by rewrite Hsent, <- app_assoc.
      * destruct Hrun as (Hscript & Hfetch & Hsent). simpl in Hscript, Hsent.
        rewrite <- Hscript, Hsent, <- app_assoc. done.
      * destruct Hrun as (Hscript & Hempty & Hfetch & Hsent).
        simpl in Hscript, Hsent.
        rewrite <- Hscript, Hsent, <- app_assoc. done.
Qed.

Lemma market_run_fetch_products (campaign_id market_token : string) (fuel : nat) :
  ∀ (page_token : pyval) (acc : list string) (st : remote),
    (length (market_pages st) < fuel)%nat →
    ∃ pages,
      same_but_market st (MarketRun.fetch_products fuel campaign_id market_token
                            page_token acc st).2 ∧
      match MarketRun.fetch_products fuel campaign_id market_token page_token acc st with
      | (Done product_list, st') =>
          market_pages st = map inr pages ++ market_pages st' ∧
          Market.fetch_products (map Ok pages) acc = Some (Ok product_list) ∧
          product_list = acc ++ concat (map Market.offerMappingEntries pages) ∧
          sent st' = sent st ++
                     map (MarketOfferMappingEntries campaign_id market_token)
                         (take (length pages)
                               (page_token :: map Market.nextPageToken pages))
      | (Failed e, st') =>
          market_pages st = map inr pages ++ inl e :: market_pages st' ∧
          Market.fetch_products (map Ok pages) acc = None ∧
          sent st' = sent st ++
                     map (MarketOfferMappingEntries campaign_id market_token)
                         (page_token :: map Market.nextPageToken pages)
      | (Waiting, st') =>
          market_pages st = map inr pages ∧ market_pages st' = [] ∧
          Market.fetch_products (map Ok pages) acc = None ∧
          sent st' = sent st ++
                     map (MarketOfferMappingEntries campaign_id market_token)
                         (page_token :: map Market.nextPageToken pages)
      end.
Proof.
  induction fuel as [|fuel IH]; intros page_token acc st Hfuel; [lia|].
  cbn [MarketRun.fetch_products]. rewrite run_bind_N.
  unfold MarketRun.get_product_list, exchange.
  destruct st as [w reqs oz mk up ar pr]. cbn [log market_pages sent] in *.
  destruct mk as [|[e|page] rest].
  - exists []. by repeat split.
  - exists []. by repeat split.
  - cbn [with_market_pages log local sent ozon_pages market_pages updates archives
         printed].
    destruct (Market.falsy (Market.nextPageToken page)) eqn:Htoken.
    + exists [page]. split; [done|]. cbn. rewrite Htoken, app_nil_r.
      by repeat split.
    + set (st1 := Remote w
                    (reqs ++ [MarketOfferMappingEntries campaign_id market_token
                                page_token])
                    oz rest up ar pr).
      destruct (IH (Market.nextPageToken page)
                  (acc ++ Market.offerMappingEntries page) st1
                  ltac:(simpl in *; lia)) as (pages & Hsame & Hrun).
      exists (page :: pages).
      change (with_market_pages (log _ _) rest) with st1.
      split; [exact Hsame|].
      destruct (MarketRun.fetch_products fuel _ _ _ _ st1) as [[l|e|] st'];
        cbn [map length take fmap list_fmap app Market.fetch_products sent
             market_pages] in *;
        rewrite Htoken.
      * destruct Hrun as (Hscript & Hfetch & -> & Hsent). simpl in Hscript, Hsent.
        split; [by rewrite <- Hscript|]. split; [exact Hfetch|].
        split; [simpl; by rewrite <- app_assoc|].
        by rewrite Hsent, <- app_assoc.
      * destruct Hrun as (Hscript & Hfetch & Hsent). simpl in Hscript, Hsent.
        rewrite <- Hscript, Hsent, <- app_assoc. done.
      * destruct Hrun as (Hscript & Hempty & Hfetch & Hsent).
        simpl in Hscript, Hsent.
        rewrite <- Hscript, Hsent, <- app_assoc. done.
Qed.

Lemma run_alloc (l : list string) (w : world) :
  ∃ r, alloc l w = (Ok r, with_list w r l) ∧ heap w !! r = None.
Proof.
  exists (fresh (dom (heap w))). split; [done|].
  apply not_elem_of_dom, is_fresh.
Qed.

(** [get_offer_ids] of seller.py, when it returns inside a run. *)
Lemma seller_get_offer_ids_done (client_id seller_token : string)
    (st st' : remote) (offer_ids : loc) :
  SellerRun.get_offer_ids client_id seller_token st = (Done offer_ids, st') →
  ∃ pages ids,
    ozon_pages st = map inr pages ++ ozon_pages st' ∧
    Seller.get_offer_ids (map Ok pages) = Some (Ok ids) ∧
    heap (local st) !! offer_ids = None ∧
    local st' = with_list (local st) offer_ids ids ∧
    sent st' = sent st ++
               map (OzonProductList client_id seller_token)
                   (take (length pages) ("" :: map Seller.last_id pages)) ∧
    market_pages st' = market_pages st ∧ updates st' = updates st ∧
    archives st' = archives st ∧ printed st' = printed st.
Proof.
  unfold SellerRun.get_offer_ids. rewrite run_bind_N.
  destruct (seller_run_fetch_products client_id seller_token
              (S (length (ozon_pages st))) "" [] st ltac:(lia))
    as (pages & Hsame & Hrun).
  destruct (SellerRun.fetch_products _ _ _ _ _ st) as [[l|e|] st1]; [|done..].
  destruct Hrun as (Hscript & Hfetch & _ & Hsent).
  destruct Hsame as (Hlocal & Hmk & Hup & Har & Hpr). simpl in *.
  unfold lift_M.
  destruct (run_alloc (foldl (λ offer_ids product, offer_ids ++ [product]) [] l)
              (local st1)) as (r & -> & Hfresh).
  intros [= <- <-]. exists pages, l.
  rewrite foldl_snoc, <- Hlocal. simpl.
  unfold Seller.get_offer_ids. rewrite Hfetch, foldl_snoc. simpl.
  by repeat split.
Qed.

(** X8. When [get_offer_ids] of seller.py returns inside a run, it has
    read a run of answered pages from the front of the script, and
    returns a new list object, which holds what the enumeration of those
    pages gives; the requests it has sent are one per page read, the first
    with the empty [last_id], every next one with the [last_id] of the
    page before; nothing else of the run has changed. *)
Theorem seller_run_get_offer_ids (client_id seller_token : string)
    (st st' : remote) (offer_ids : loc) :
  SellerRun.get_offer_ids client_id seller_token st = (Done offer_ids, st') →
  ∃ pages ids,
    ozon_pages st = map inr pages ++ ozon_pages st' ∧
    Seller.get_offer_ids (map Ok pages) = Some (Ok ids) ∧
    heap (local st) !! offer_ids = None ∧
    local st' = with_list (local st) offer_ids ids ∧
    sent st' = sent st ++
               map (OzonProductList client_id seller_token)
                   (take (length pages) ("" :: map Seller.last_id pages)) ∧
    market_pages st' = market_pages st ∧ updates st' = updates st ∧
    archives st' = archives st ∧ printed st' = printed st.
Proof.
  unfold SellerRun.get_offer_ids. rewrite run_bind_N.
  destruct (seller_run_fetch_products client_id seller_token
              (S (length (ozon_pages st))) "" [] st ltac:(lia))
    as (pages & Hsame & Hrun).
  destruct (SellerRun.fetch_products _ _ _ _ _ st) as [[l|e|] st1]; [|done..].
  destruct Hrun as (Hscript & Hfetch & _ & Hsent).
  destruct Hsame as (Hlocal & Hmk & Hup & Har & Hpr). simpl in *.
  unfold lift_M.
  destruct (run_alloc (foldl (λ offer_ids product, offer_ids ++ [product]) [] l)
              (local st1)) as (r & -> & Hfresh).
  intros [= <- <-]. exists pages, l.
  rewrite foldl_snoc, <- Hlocal. simpl.
  unfold Seller.get_offer_ids. rewrite Hfetch, foldl_snoc. simpl.
  by repeat split.
Qed.

(** X9. When [get_offer_ids] of market.py returns inside a run, it has
    read a run of answered pages from the front of the script, and
    returns a new list object, which holds what the enumeration of those
    pages gives; the requests it has sent are one per page read, the first
    with the empty page token, every next one with the [nextPageToken] of
    the page before; nothing else of the run has changed. *)
Theorem market_run_get_offer_ids (campaign_id market_token : string)
    (st st' : remote) (offer_ids : loc) :
  MarketRun.get_offer_ids campaign_id market_token st = (Done offer_ids, st') →
  ∃ pages ids,
    market_pages st = map inr pages ++ market_pages st' ∧
    Market.get_offer_ids (map Ok pages) = Some (Ok ids) ∧
    heap (local st) !! offer_ids = None ∧
    local st' = with_list (local st) offer_ids ids ∧
    sent st' = sent st ++
               map (MarketOfferMappingEntries campaign_id market_token)
                   (take (length pages)
                         (PyStr "" :: map Market.nextPageToken pages)) ∧
    ozon_pages st' = ozon_pages st ∧ updates st' = updates st ∧
    archives st' = archives st ∧ printed st' = printed st.
Proof.
  unfold MarketRun.get_offer_ids. rewrite run_bind_N.
  destruct (market_run_fetch_products campaign_id market_token
              (S (length (market_pages st))) (PyStr "") [] st ltac:(lia))
    as (pages & Hsame & Hrun).
  destruct (MarketRun.fetch_products _ _ _ _ _ st) as [[l|e|] st1]; [|done..].
  destruct Hrun as (Hscript & Hfetch & _ & Hsent).
  destruct Hsame as (Hlocal & Hoz & Hup & Har & Hpr). simpl in *.
  unfold lift_M.
  destruct (run_alloc (foldl (λ offer_ids product, offer_ids ++ [product]) [] l)
              (local st1)) as (r & -> & Hfresh).
  intros [= <- <-]. exists pages, l.
  rewrite foldl_snoc, <- Hlocal. simpl.
  unfold Market.get_offer_ids. rewrite Hfetch, foldl_snoc. simpl.
  by repeat split.
Qed.

(** ** What a run sends *)

Lemma divide_chunk_facts {A} (lst : list A) (n : Z) (chunks : list (list A)) :
  1 ≤ n → Seller.divide lst n = Ok chunks →
  concat chunks = lst ∧
  ∀ c, c ∈ chunks → 1 ≤ Z.of_nat (length c) ≤ n ∧ ∀ x, x ∈ c → x ∈ lst.
Proof.
  intros Hn. rewrite divide_blocks by done. intros [= <-].
  pose proof (ceil_div_bounds (Z.of_nat (length lst)) n ltac:(lia) Hn)
    as (Hc0 & Hc1 & Hc2).
  split; [apply concat_blocks; nia|].
  intros c [k Hk]%list_elem_of_lookup.
  apply lookup_blocks in Hk as [Hk ->]. split.
  - rewrite length_block. nia.
  - unfold block. intros x Hx.
    apply (subseteq_take _ _), (subseteq_drop _ _) in Hx. done.
Qed.

Lemma Forall_map_image {A B} (f : A → B) (l : list A) :
  Forall (λ y, ∃ x, y = f x) (map f l).
Proof. induction l; constructor; eauto. Qed.

Lemma seller_get_offer_ids_run (client_id seller_token : string) (st : remote) :
  sent_since (λ req, ∃ last_id, req = OzonProductList client_id seller_token last_id)
             st (SellerRun.get_offer_ids client_id seller_token st).2 ∧
  same_but_ozon
    (with_local st (local (SellerRun.get_offer_ids client_id seller_token st).2))
    (SellerRun.get_offer_ids client_id seller_token st).2 ∧
  match (SellerRun.get_offer_ids client_id seller_token st).1 with
  | Done offer_ids =>
      ∃ pages,
        ozon_pages st
        = map inr pages
          ++ ozon_pages (SellerRun.get_offer_ids client_id seller_token st).2 ∧
        heap (local st) !! offer_ids = None ∧
        local (SellerRun.get_offer_ids client_id seller_token st).2
        = with_list (local st) offer_ids (concat (map Seller.items pages))
  | _ => local (SellerRun.get_offer_ids client_id seller_token st).2 = local st
  end.
Proof.
  unfold SellerRun.get_offer_ids. rewrite run_bind_N.
  destruct (seller_run_fetch_products client_id seller_token
              (S (length (ozon_pages st))) "" [] st ltac:(lia))
    as (pages & Hsame & Hrun).
  destruct (SellerRun.fetch_products _ _ _ _ _ st) as [[l|e|] st1];
    destruct Hsame as (Hlocal & Hmk & Hup & Har & Hpr); cbn [fst snd] in *.
  - destruct Hrun as (Hscript & _ & Hl & Hsent).
    unfold lift_M.
    destruct (run_alloc (foldl (λ offer_ids product, offer_ids ++ [product]) [] l)
                (local st1)) as (r & -> & Hfresh).
    rewrite foldl_snoc, Hl in *. simpl. split_and!.
    + eexists. split; [exact Hsent|]. apply Forall_map_image.
    + by repeat split.
    + exists pages. rewrite <- Hlocal. by repeat split.
  - destruct Hrun as (Hscript & _ & Hsent). split_and!; [|by repeat split|done].
    eexists. split; [exact Hsent|]. apply Forall_map_image.
  - destruct Hrun as (Hscript & _ & _ & Hsent). split_and!; [|by repeat split|done].
    eexists. split; [exact Hsent|]. apply Forall_map_image.
Qed.

Lemma market_get_offer_ids_run (campaign_id market_token : string) (st : remote) :
  sent_since (λ req, ∃ page_token,
                req = MarketOfferMappingEntries campaign_id market_token page_token)
             st (MarketRun.get_offer_ids campaign_id market_token st).2 ∧
  same_but_market
    (with_local st (local (MarketRun.get_offer_ids campaign_id market_token st).2))
    (MarketRun.get_offer_ids campaign_id market_token st).2 ∧
  match (MarketRun.get_offer_ids campaign_id market_token st).1 with
  | Done offer_ids =>
      ∃ pages,
        market_pages st
        = map inr pages
          ++ market_pages (MarketRun.get_offer_ids campaign_id market_token st).2 ∧
        heap (local st) !! offer_ids = None ∧
        local (MarketRun.get_offer_ids campaign_id market_token st).2
        = with_list (local st) offer_ids
            (concat (map Market.offerMappingEntries pages))
  | _ => local (MarketRun.get_offer_ids campaign_id market_token st).2 = local st
  end.
Proof.
  unfold MarketRun.get_offer_ids. rewrite run_bind_N.
  destruct (market_run_fetch_products campaign_id market_token
              (S (length (market_pages st))) (PyStr "") [] st ltac:(lia))
    as (pages & Hsame & Hrun).
  destruct (MarketRun.fetch_products _ _ _ _ _ st) as [[l|e|] st1];
    destruct Hsame as (Hlocal & Hoz & Hup & Har & Hpr); cbn [fst snd] in *.
  - destruct Hrun as (Hscript & _ & Hl & Hsent).
    unfold lift_M.
    destruct (run_alloc (foldl (λ offer_ids product, offer_ids ++ [product]) [] l)
                (local st1)) as (r & -> & Hfresh).
    rewrite foldl_snoc, Hl in *. simpl. split_and!.
    + eexists. split; [exact Hsent|]. apply Forall_map_image.
    + by repeat split.
    + exists pages. rewrite <- Hlocal. by repeat split.
  - destruct Hrun as (Hscript & _ & Hsent). split_and!; [|by repeat split|done].
    eexists. split; [exact Hsent|]. apply Forall_map_image.
  - destruct Hrun as (Hscript & _ & _ & Hsent). split_and!; [|by repeat split|done].
    eexists. split; [exact Hsent|]. apply Forall_map_image.
Qed.

Lemma answers_app {R} (l1 l2 : list (failure + R)) :
  answers (l1 ++ l2) = answers l1 ++ answers l2.
Proof. unfold answers. apply omap_app. Qed.

Lemma answers_inr {R} (l : list R) : answers (map inr l) = l.
Proof.
  induction l as [|x l IH]; [done|].
  change (answers (map inr (x :: l))) with (x :: answers (map inr l)).
  by rewrite IH.
Qed.

Lemma report_prints (e : failure) (st : remote) :
  ∃ n, report e st
       = (Done (), Remote (local st) (sent st) (ozon_pages st) (market_pages st)
                          (updates st) (archives st) (printed st ++ [n])).
Proof. destruct e as [|[]]; by eexists. Qed.

(** ** What a run prints *)

Lemma report_notice (e : failure) (st : remote) :
  report e st = print (notice_of e) st.
Proof. by destruct e as [|[]]. Qed.

Lemma failures_met_same (st st' : remote) :
  ozon_pages st' = ozon_pages st → market_pages st' = market_pages st →
  updates st' = updates st → archives st' = archives st →
  failures_met st st' [].
Proof.
  intros H1 H2 H3 H4. exists [], [], [], []. rewrite H1, H2, H3, H4.
  split_and!; try done. intros e. rewrite !elem_of_nil. tauto.
Qed.

Lemma failures_met_refl (st : remote) : failures_met st st [].
Proof. by apply failures_met_same. Qed.

Lemma failures_met_trans (st1 st2 st3 : remote) (m1 m2 : list failure) :
  failures_met st1 st2 m1 → failures_met st2 st3 m2 →
  failures_met st1 st3 (m1 ++ m2).
Proof.
  intros (oz1 & mk1 & up1 & ar1 & H1 & H2 & H3 & H4 & Hm1)
         (oz2 & mk2 & up2 & ar2 & G1 & G2 & G3 & G4 & Hm2).
  exists (oz1 ++ oz2), (mk1 ++ mk2), (up1 ++ up2), (ar1 ++ ar2).
  rewrite H1, H2, H3, H4, G1, G2, G3, G4, <- !app_assoc. split_and!; try done.
  intros e. rewrite !elem_of_app, Hm1, Hm2. tauto.
Qed.

Lemma orderly_ret {A} (a : A) : orderly (mret a).
Proof. intros st. split; [done|apply failures_met_refl]. Qed.

Lemma orderly_bind {A B} (m : Run A) (f : A → Run B) :
  orderly m → (∀ a, orderly (f a)) → orderly (m ≫= f).
Proof.
  intros Hm Hf st. rewrite run_bind_N. specialize (Hm st).
  destruct (m st) as [[a|e|] s1]; cbn [fst snd] in *; [|done..].
  destruct Hm as [Hpr Hmet]. specialize (Hf a s1).
  destruct (f a s1) as [[b|e|] s2]; cbn [fst snd] in *;
    destruct Hf as [Hpr' Hmet']; (split; [congruence|]).
  - apply (failures_met_trans _ _ _ [] [] Hmet Hmet').
  - destruct Hmet' as [Hmet'|[Hmet' Hexn]].
    + left. apply (failures_met_trans _ _ _ [] [e] Hmet Hmet').
    + right. split; [|done]. apply (failures_met_trans _ _ _ [] [] Hmet Hmet').
  - apply (failures_met_trans _ _ _ [] [] Hmet Hmet').
Qed.

Lemma orderly_lift_M {A} (m : M A) : orderly (lift_M m).
Proof.
  intros st. unfold lift_M.
  destruct (m (local st)) as [[a|e] w]; (split; [done|]); cbn [fst snd].
  - by apply failures_met_same.
  - right. split; [by apply failures_met_same|by exists e].
Qed.

Lemma orderly_download_stock : orderly download_stock.
Proof.
  intros [w reqs oz mk up ar pr]. unfold download_stock, exchange.
  cbn [log archives]. destruct ar as [|[e|rows] rest]; (split; [done|]); cbn.
  - by apply failures_met_same.
  - left. exists [], [], [], [inl e]. split_and!; try done. one_reply.
  - exists [], [], [], [inr rows]. split_and!; try done. one_reply.
Qed.

Lemma orderly_update (req : request) :
  orderly (exchange req updates with_updates).
Proof.
  intros [w reqs oz mk up ar pr]. unfold exchange.
  cbn [log updates]. destruct up as [|[e|[]] rest]; (split; [done|]); cbn.
  - by apply failures_met_same.
  - left. exists [], [], [inl e], []. split_and!; try done. one_reply.
  - exists [], [], [inr ()], []. split_and!; try done. one_reply.
Qed.

Lemma orderly_ozon_page (req : request) :
  orderly (exchange req ozon_pages with_ozon_pages).
Proof.
  intros [w reqs oz mk up ar pr]. unfold exchange.
  cbn [log ozon_pages]. destruct oz as [|[e|page] rest]; (split; [done|]); cbn.
  - by apply failures_met_same.
  - left. exists [inl e], [], [], []. split_and!; try done. one_reply.
  - exists [inr page], [], [], []. split_and!; try done. one_reply.
Qed.

Lemma orderly_market_page (req : request) :
  orderly (exchange req market_pages with_market_pages).
Proof.
  intros [w reqs oz mk up ar pr]. unfold exchange.
  cbn [log market_pages]. destruct mk as [|[e|page] rest]; (split; [done|]); cbn.
  - by apply failures_met_same.
  - left. exists [], [inl e], [], []. split_and!; try done. one_reply.
  - exists [], [inr page], [], []. split_and!; try done. one_reply.
Qed.

Lemma orderly_for_each {A} (l : list A) (body : A → Run unit) :
  (∀ x, orderly (body x)) → orderly (for_each l body).
Proof.
  intros Hbody. induction l as [|x l IH]; cbn [for_each].
  - apply orderly_ret.
  - apply orderly_bind; [apply Hbody|by intros _].
Qed.

Lemma orderly_seller_fetch_products (client_id seller_token : string) (fuel : nat) :
  ∀ last_id product_list,
    orderly (SellerRun.fetch_products fuel client_id seller_token last_id product_list).
Proof.
  induction fuel as [|fuel IH]; intros last_id product_list;
    cbn [SellerRun.fetch_products].
  - intros st. split; [done|apply failures_met_refl].
  - apply orderly_bind; [apply orderly_ozon_page|].
    intros some_prod. destruct (decide _); [apply orderly_ret|apply IH].
Qed.

Lemma orderly_market_fetch_products (campaign_id market_token : string) (fuel : nat) :
  ∀ page product_list,
    orderly (MarketRun.fetch_products fuel campaign_id market_token page product_list).
Proof.
  induction fuel as [|fuel IH]; intros page product_list;
    cbn [MarketRun.fetch_products].
  - intros st. split; [done|apply failures_met_refl].
  - apply orderly_bind; [apply orderly_market_page|].
    intros some_prod. destruct (Market.falsy _); [apply orderly_ret|apply IH].
Qed.

Lemma orderly_seller_get_offer_ids (client_id seller_token : string) :
  orderly (SellerRun.get_offer_ids client_id seller_token).
Proof.
  intros st. unfold SellerRun.get_offer_ids.
  apply (orderly_bind _ _ (orderly_seller_fetch_products _ _ _ _ _)).
  intros product_list. apply orderly_lift_M.
Qed.

Lemma orderly_market_get_offer_ids (campaign_id market_token : string) :
  orderly (MarketRun.get_offer_ids campaign_id market_token).
Proof.
  intros st. unfold MarketRun.get_offer_ids.
  apply (orderly_bind _ _ (orderly_market_fetch_products _ _ _ _ _)).
  intros product_list. apply orderly_lift_M.
Qed.

Lemma download_stock_local (st st' : remote) (rows : list feed_row) :
  download_stock st = (Done rows, st') → local st' = local st.
Proof.
  unfold download_stock, exchange.
  destruct st as [w reqs oz mk up ar pr]. cbn [log archives].
  destruct ar as [|[e|rows'] rest]; [done..|]. by intros [= _ <-].
Qed.

(** The handlers of [main] around an orderly body: the run ends or waits;
    a failure that a server has answered is printed, as the one line of
    the run; and when no reply was a failure, nothing is printed or the
    line of an exception of the program's own. *)
Lemma try_report_orderly (body : Run unit) (st : remote) :
  orderly body →
  ((try_except body report st).1 = Done () ∨
   (try_except body report st).1 = Waiting) ∧
  ∃ met,
    failures_met st (try_except body report st).2 met ∧
    (∀ e, e ∈ met →
       printed (try_except body report st).2 = printed st ++ [notice_of e] ∧
       (try_except body report st).1 = Done ()) ∧
    (met = [] →
       printed (try_except body report st).2 = printed st ∨
       ∃ exn, printed (try_except body report st).2
              = printed st ++ [notice_of (Py exn)] ∧
              (try_except body report st).1 = Done ()).
Proof.
  intros Hbody. specialize (Hbody st). unfold try_except.
  destruct (body st) as [[[]|e|] s] eqn:Hrun; cbn [fst snd] in *;
    destruct Hbody as [Hpr Hmet].
  - split; [by left|]. exists []. split_and!; [done| |by left].
    by intros e ?%elem_of_nil.
  - rewrite report_notice. unfold print. cbn [fst snd printed]. rewrite Hpr.
    split; [by left|].
    assert (Hsame : ∀ met, failures_met st s met →
              failures_met st
                (Remote (local s) (sent s) (ozon_pages s) (market_pages s)
                        (updates s) (archives s) (printed st ++ [notice_of e])) met).
    { intros met (oz & mk & up & ar & ? & ? & ? & ? & ?). by exists oz, mk, up, ar. }
    destruct Hmet as [Hmet|[Hmet [exn ->]]].
    + exists [e]. split_and!; [by apply Hsame| |done].
      by intros e' ->%list_elem_of_singleton.
    + exists []. split_and!; [by apply Hsame| |].
      * by intros e' ?%elem_of_nil.
      * intros _. right. by exists exn.
  - split; [by right|]. exists []. split_and!; [done| |by left].
    by intros e ?%elem_of_nil.
Qed.

(** X10. [main] of seller.py never sends a price import when the answers
    of the marketplace name no offer twice: all it sends is listing
    requests, the download of the feed and stock imports of one to a
    hundred entries, all with its own credentials.  And it never raises:
    it ends normally, whatever fails, unless an answer never comes.  What
    fails is reported: when a server answers a request with a failure,
    [main] prints the line of that failure, and that line alone, and ends
    normally; when no answer was a failure, it prints nothing, or the one
    line of an exception of its own computations; and when the enumeration
    and the download are answered and [create_stocks] raises on the feed,
    the line printed is the "ERROR_2" line of that exception, and nothing
    is sent after the download. *)
Theorem seller_main_sends_no_prices `{U : UnicodeDB}
    (seller_token client_id : string) (st : remote) :
  NoDup (concat (map Seller.items (answers (ozon_pages st)))) →
  sent_since (seller_main_request client_id seller_token) st
             (SellerRun.main seller_token client_id st).2 ∧
  ((SellerRun.main seller_token client_id st).1 = Done () ∨
   (SellerRun.main seller_token client_id st).1 = Waiting) ∧
  (∃ met,
     failures_met st (SellerRun.main seller_token client_id st).2 met ∧
     (∀ e, e ∈ met →
        printed (SellerRun.main seller_token client_id st).2
        = printed st ++ [notice_of e] ∧
        (SellerRun.main seller_token client_id st).1 = Done ()) ∧
     (met = [] →
        printed (SellerRun.main seller_token client_id st).2 = printed st ∨
        ∃ exn, printed (SellerRun.main seller_token client_id st).2
               = printed st ++ [notice_of (Py exn)] ∧
               (SellerRun.main seller_token client_id st).1 = Done ())) ∧
  (∀ offer_ids st1 watch_remnants st2 exn,
     SellerRun.get_offer_ids client_id seller_token st = (Done offer_ids, st1) →
     download_stock st1 = (Done watch_remnants, st2) →
     (Seller.create_stocks watch_remnants offer_ids (local st2)).1 = Raise exn →
     (SellerRun.main seller_token client_id st).1 = Done () ∧
     printed (SellerRun.main seller_token client_id st).2
     = printed st ++ [Notice (Some (Py exn)) "ERROR_2"] ∧
     sent (SellerRun.main seller_token client_id st).2 = sent st2).
Proof.
  intros Hnodup.
  cut (sent_since (seller_main_request client_id seller_token) st
         (SellerRun.main seller_token client_id st).2 ∧
       ((SellerRun.main seller_token client_id st).1 = Done () ∨
        (SellerRun.main seller_token client_id st).1 = Waiting)).
  { intros [Hsent Hends]. split; [exact Hsent|]. split; [exact Hends|]. split.
    - unfold SellerRun.main.
      refine (proj2 (try_report_orderly _ st _)).
      apply orderly_bind; [apply orderly_seller_get_offer_ids|intros offer_ids].
      apply orderly_bind; [apply orderly_download_stock|intros watch_remnants].
      apply orderly_bind; [apply orderly_lift_M|intros stocks].
      apply orderly_bind; [apply orderly_lift_M|intros chunks].
      apply orderly_bind;
        [apply orderly_for_each; intros c; apply orderly_update|intros _].
      apply orderly_bind; [apply orderly_lift_M|intros prices].
      apply orderly_bind; [apply orderly_lift_M|intros chunks'].
      apply orderly_for_each. intros c. apply orderly_update.
    - intros offer_ids st1 watch_remnants st2 exn Hget Hfeed Hstocks.
      pose proof (orderly_seller_get_offer_ids client_id seller_token st) as [Hpr1 _].
      pose proof (orderly_download_stock st1) as [Hpr2 _].
      rewrite Hget in Hpr1. rewrite Hfeed in Hpr2. cbn [fst snd] in *.
      destruct (Seller.create_stocks watch_remnants offer_ids (local st2))
        as [[stocks|e] w] eqn:Hrun; cbn [fst] in Hstocks; [done|].
      injection Hstocks as ->.
      assert (Hexn : exn = ValueError ∨ exn = TypeError).
      { destruct (seller_get_offer_ids_done _ _ _ _ _ Hget)
          as (pages & ids & _ & _ & _ & Hlocal & _).
        rewrite (download_stock_local _ _ _ Hfeed), Hlocal in Hrun.
        rewrite (seller_create_stocks_run _ _ _ _ (with_list_lookup _ _ _)) in Hrun.
        destruct (match_rows _ _ _ _) as [[out|e] ids'] eqn:Hrows; [done|].
        injection Hrun as -> _.
        apply (match_rows_errors Seller.StockEntry watch_remnants ids []).
        by rewrite Hrows. }
      assert (Hmain : SellerRun.main seller_token client_id st
                      = report (Py exn) (with_local st2 w)).
      { unfold SellerRun.main, try_except.
        rewrite run_bind_N, Hget, run_bind_N, Hfeed, run_bind_N.
        unfold lift_M at 1. by rewrite Hrun. }
      rewrite Hmain, report_notice. unfold print.
      cbn [fst snd printed sent with_local].
      rewrite Hpr2, Hpr1. split; [done|]. split; [|done].
      by destruct Hexn as [->| ->]. }
  set (K := seller_main_request client_id seller_token).
  cut (hoare (λ s, s = st) (SellerRun.main seller_token client_id)
         (λ o st', sent_since K st st' ∧ (o = Done () ∨ o = Waiting))).
  { intros Hmain. exact (Hmain st eq_refl). }
  unfold SellerRun.main.
  apply (hoare_try _ (λ _ st', sent_since K st st')).
  2:{ intros e s Hs. destruct (report_prints e s) as [n ->]. simpl.
      split; [exact Hs|by left]. }
  (* the enumeration *)
  apply (hoare_bind _ (λ offer_ids s,
           sent_since K st s ∧
           ∃ ids, heap (local s) !! offer_ids = Some ids ∧ NoDup ids)).
  { intros s ->.
    destruct (seller_get_offer_ids_run client_id seller_token st)
      as (Hsent & _ & Hout).
    assert (Hsent' : sent_since K st
                       (SellerRun.get_offer_ids client_id seller_token st).2).
    { eapply sent_since_weaken; [|exact Hsent]. by intros req [last_id ->]. }
    destruct (SellerRun.get_offer_ids client_id seller_token st) as [[r|e|] s1];
      cbn [fst snd] in *; [|close_branch Hsent'..].
    destruct Hout as (pages & Hscript & _ & ->). split; [exact Hsent'|].
    eexists. split; [apply with_list_lookup|].
    rewrite Hscript, answers_app, answers_inr, map_app, concat_app in Hnodup.
    by apply NoDup_app in Hnodup as [? _]. }
  intros offer_ids.
  (* the download *)
  apply (hoare_bind _ (λ _ s,
           sent_since K st s ∧
           ∃ ids, heap (local s) !! offer_ids = Some ids ∧ NoDup ids)).
  { apply hoare_exchange. intros s [Hsent Hheap].
    assert (Hlog : sent_since K st (log GetArchive s)).
    { eapply sent_since_trans; [exact Hsent|].
      apply (sent_since_log K s _ GetArchive); [exact I|reflexivity]. }
    destruct (archives (log GetArchive s)) as [|[e|rows] rest];
      [close_branch Hlog..|]. split; [exact Hlog|exact Hheap]. }
  intros watch_remnants.
  (* the stocks *)
  apply (hoare_bind _ (λ _ s,
           sent_since K st s ∧
           ∃ ids, heap (local s) !! offer_ids = Some ids ∧
                  ∀ watch, watch ∈ watch_remnants → py_str (get watch "Код") ∉ ids)).
  { apply hoare_lift_M. intros s (Hsent & ids & Hids & Hnd).
    rewrite (seller_create_stocks_run _ _ _ _ Hids).
    destruct (match_rows _ _ _ _) as [[out|e] ids'] eqn:Hrun;
      [|close_branch Hsent].
    split; [exact Hsent|].
    apply match_rows_consumes in Hrun as (_ & _ & Hnone); [|done].
    exists ids'. split; [apply with_list_lookup|done]. }
  intros stocks.
  apply (hoare_bind _ (λ chunks s,
           (sent_since K st s ∧
            ∃ ids, heap (local s) !! offer_ids = Some ids ∧
                   ∀ watch, watch ∈ watch_remnants → py_str (get watch "Код") ∉ ids) ∧
           ∀ c : list Seller.stock_entry, c ∈ chunks → (0 < length c ≤ 100)%nat)).
  { apply hoare_lift_M. intros s Hs. unfold lift.
    destruct (Seller.divide stocks 100) as [chunks|e] eqn:Hdiv.
    - destruct s; simpl. split; [exact Hs|].
      intros c Hc.
      destruct (divide_chunk_facts stocks 100 chunks ltac:(lia) Hdiv) as [_ Hsize].
      destruct (Hsize c Hc) as [? _]. lia.
    - destruct s; simpl. destruct Hs as [Hsent _]. close_branch Hsent. }
  intros chunks.
  apply (hoare_bind _ (λ _ s,
           sent_since K st s ∧
           ∃ ids, heap (local s) !! offer_ids = Some ids ∧
                  ∀ watch, watch ∈ watch_remnants → py_str (get watch "Код") ∉ ids)).
  { apply hoare_pure_pre. intros Hsize.
    apply hoare_for_each; [|done].
    intros c Hc. apply hoare_exchange. intros s [Hsent Hheap].
    assert (Hlog : sent_since K st
                     (log (OzonImportStocks client_id seller_token c) s)).
    { eapply sent_since_trans; [exact Hsent|].
      apply (sent_since_log K s _ (OzonImportStocks client_id seller_token c));
        [|reflexivity].
      split; [done|]. split; [done|]. by apply Hsize. }
    destruct (updates _) as [|[e|[]] rest]; [close_branch Hlog..|].
    split; [exact Hlog|exact Hheap]. }
  intros _.
  (* the prices *)
  apply (hoare_bind _ (λ prices s, sent_since K st s ∧ prices = [])).
  { apply hoare_lift_M. intros s (Hsent & ids & Hids & Hnone).
    unfold Seller.create_prices.
    rewrite (run_seller_price_loop _ _ _ _ _ Hids), price_rows_none by done.
    destruct s; by simpl. }
  intros prices.
  apply (hoare_bind _ (λ chunks s, sent_since K st s ∧ chunks = [])).
  { apply hoare_lift_M. intros s [Hsent ->]. destruct s; by simpl. }
  intros chunks' s [Hsent ->]. simpl. split; [done|by left].
Qed.

Lemma market_stocks_warehouse `{U : UnicodeDB} rows r wh w ids stocks w' :
  heap w !! r = Some ids →
  Market.create_stocks rows r wh w = (Ok stocks, w') →
  Forall (λ entry, Market.warehouseId entry = wh) stocks ∧
  ∃ ids', heap w' !! r = Some ids'.
Proof.
  intros Hids. rewrite (market_create_stocks_run _ _ _ _ _ Hids).
  destruct (match_rows _ _ _ _) as [[out|e] ids'] eqn:Hrun; [|done].
  intros [= <- <-]. split; [|exists ids'; apply with_list_lookup].
  apply match_rows_entries in Hrun as [matched ->]. simpl.
  apply Forall_app. split; apply Forall_forall; intros entry Hentry.
  - change (map ?f matched) with (f <$> matched) in Hentry.
    by apply list_elem_of_fmap in Hentry as [[c q] [-> _]].
  - change (map ?f ids') with (f <$> ids') in Hentry.
    by apply list_elem_of_fmap in Hentry as [id [-> _]].
Qed.

(** One campaign in [main] of market.py: the enumeration, the stocks, the
    chunks and their dispatch, followed by [k]. *)
Lemma market_pass_hoare `{U : UnicodeDB} (K : request → Prop) (st : remote)
    (watch_remnants : list feed_row) (campaign_id market_token warehouse_id : string)
    (k : Run unit) :
  (∀ page_token, K (MarketOfferMappingEntries campaign_id market_token page_token)) →
  (∀ skus, (0 < length skus ≤ 2000)%nat →
           Forall (λ entry, Market.warehouseId entry = warehouse_id) skus →
           K (MarketStocks campaign_id market_token skus)) →
  hoare (sent_since K st) k (λ _ s, sent_since K st s) →
  hoare (sent_since K st)
    (offer_ids ← MarketRun.get_offer_ids campaign_id market_token;
     stocks ← lift_M (Market.create_stocks watch_remnants offer_ids warehouse_id);
     chunks ← lift_M (lift (Seller.divide stocks 2000));
     for_each chunks
       (λ some_stock, MarketRun.update_stocks some_stock campaign_id market_token);;
     k)
    (λ _ s, sent_since K st s).
Proof.
  intros Hlist Hstocks Hk.
  apply (hoare_bind _ (λ offer_ids s,
           sent_since K st s ∧ ∃ ids, heap (local s) !! offer_ids = Some ids)).
  { intros s Hs.
    destruct (market_get_offer_ids_run campaign_id market_token s)
      as (Hsent & _ & Hout).
    assert (Hsent' : sent_since K st
                       (MarketRun.get_offer_ids campaign_id market_token s).2).
    { eapply sent_since_trans; [exact Hs|].
      eapply sent_since_weaken; [|exact Hsent]. by intros req [page_token ->]. }
    destruct (MarketRun.get_offer_ids campaign_id market_token s) as [[r|e|] s1];
      cbn [fst snd] in *; [|exact Hsent'..].
    destruct Hout as (pages & Hscript & _ & ->). split; [exact Hsent'|].
    eexists. apply with_list_lookup. }
  intros offer_ids.
  apply (hoare_bind _ (λ stocks s,
           sent_since K st s ∧
           Forall (λ entry, Market.warehouseId entry = warehouse_id) stocks)).
  { apply hoare_lift_M. intros s (Hsent & ids & Hids).
    destruct (Market.create_stocks _ _ _ _) as [[stocks|e] w'] eqn:Hrun; [|done].
    apply (market_stocks_warehouse _ _ _ _ _ _ _ Hids) in Hrun as [? _]. done. }
  intros stocks.
  apply (hoare_bind _ (λ chunks s,
           sent_since K st s ∧
           ∀ c : list Market.stock_entry, c ∈ chunks →
             (0 < length c ≤ 2000)%nat ∧
             Forall (λ entry, Market.warehouseId entry = warehouse_id) c)).
  { apply hoare_lift_M. intros s [Hsent Hwh]. unfold lift.
    destruct (Seller.divide stocks 2000) as [chunks|e] eqn:Hdiv;
      destruct s; simpl; [|done].
    split; [exact Hsent|]. intros c Hc.
    destruct (divide_chunk_facts stocks 2000 chunks ltac:(lia) Hdiv) as [_ Hsize].
    destruct (Hsize c Hc) as [? Hsub]. split; [lia|].
    apply Forall_forall. intros entry ?%Hsub.
    by apply (proj1 (Forall_forall _ _) Hwh). }
  intros chunks.
  apply (hoare_bind _ (λ _ s, sent_since K st s)); [|by intros _].
  apply hoare_pure_pre. intros Hchunks.
  apply hoare_for_each; [|done].
  intros c Hc. apply hoare_exchange. intros s Hsent.
  assert (Hlog : sent_since K st
                   (log (MarketStocks campaign_id market_token c) s)).
  { eapply sent_since_trans; [exact Hsent|].
    apply (sent_since_log K s _ (MarketStocks campaign_id market_token c));
      [|reflexivity].
    destruct (Hchunks c Hc). by apply Hstocks. }
  destruct (updates _) as [|[e|[]] rest]; exact Hlog.
Qed.

(** X11. Whatever the servers answer, all that [main] of market.py sends
    is the download of the feed, listing requests for its two campaigns
    and stock updates of one to two thousand entries, each sent to one of
    the campaigns with the warehouse of that same campaign in every entry.
    It never sends a price update: the two calls of [upload_prices] build
    coroutines that nothing awaits. *)
Theorem market_main_requests `{U : UnicodeDB}
    (market_token campaign_fbs_id campaign_dbs_id warehouse_fbs_id warehouse_dbs_id
       : string) (st : remote) :
  sent_since (market_main_request market_token campaign_fbs_id campaign_dbs_id
                                  warehouse_fbs_id warehouse_dbs_id)
             st
             (MarketRun.main market_token campaign_fbs_id campaign_dbs_id
                             warehouse_fbs_id warehouse_dbs_id st).2.
Proof.
  set (K := market_main_request market_token campaign_fbs_id campaign_dbs_id
                                warehouse_fbs_id warehouse_dbs_id).
  cut (hoare (sent_since K st)
         (MarketRun.main market_token campaign_fbs_id campaign_dbs_id
                         warehouse_fbs_id warehouse_dbs_id)
         (λ _ s, sent_since K st s)).
  { intros Hmain. exact (Hmain st (sent_since_refl K st)). }
  unfold MarketRun.main.
  apply (hoare_bind _ (λ _ s, sent_since K st s)).
  { apply hoare_exchange. intros s Hsent.
    assert (Hlog : sent_since K st (log GetArchive s)).
    { eapply sent_since_trans; [exact Hsent|].
      apply (sent_since_log K s _ GetArchive); [exact I|reflexivity]. }
    destruct (archives _) as [|[e|rows] rest]; exact Hlog. }
  intros watch_remnants.
  apply (hoare_try _ (λ _ s, sent_since K st s)).
  2:{ intros e s Hs. destruct (report_prints e s) as [n ->]. exact Hs. }
  apply (hoare_conseq (sent_since K st) (sent_since K st) _
           (λ _ s, sent_since K st s));
    [|done|by intros [[]|e|] s Hs].
  apply market_pass_hoare.
  { intros page_token. split; [by left|done]. }
  { intros skus Hlen Hwh. split; [done|]. split; [done|]. by left. }
  apply (hoare_bind _ (λ _ s, sent_since K st s)); [by intros s Hs|].
  intros _.
  apply market_pass_hoare.
  { intros page_token. split; [by right|done]. }
  { intros skus Hlen Hwh. split; [done|]. split; [done|]. by right. }
  by intros s Hs.
Qed.

(** X12. [main] of market.py downloads the feed before its [try]: when the
    download fails, [main] raises that very exception, having sent nothing
    else and printed nothing.  Once the feed is there it never raises: it
    ends normally or waits for an answer that never comes, and what fails
    is reported: when a server answers a request with a failure, [main]
    prints the line of that failure, and that line alone, and ends
    normally; when no answer was a failure, it prints nothing, or the one
    line of an exception of its own computations; and when the enumeration
    of the first campaign is answered and [create_stocks] raises on the
    feed, the line printed is the "ERROR_2" line of that exception, and
    nothing is sent after the enumeration. *)
Theorem market_main_outcome `{U : UnicodeDB}
    (market_token campaign_fbs_id campaign_dbs_id warehouse_fbs_id warehouse_dbs_id
       : string) (st : remote) :
  (∀ e rest, archives st = inl e :: rest →
     (MarketRun.main market_token campaign_fbs_id campaign_dbs_id
                     warehouse_fbs_id warehouse_dbs_id st).1 = Failed e ∧
     sent (MarketRun.main market_token campaign_fbs_id campaign_dbs_id
                          warehouse_fbs_id warehouse_dbs_id st).2
     = sent st ++ [GetArchive] ∧
     printed (MarketRun.main market_token campaign_fbs_id campaign_dbs_id
                             warehouse_fbs_id warehouse_dbs_id st).2
     = printed st) ∧
  (∀ rows rest, archives st = inr rows :: rest →
     ((MarketRun.main market_token campaign_fbs_id campaign_dbs_id
                      warehouse_fbs_id warehouse_dbs_id st).1 = Done () ∨
      (MarketRun.main market_token campaign_fbs_id campaign_dbs_id
                      warehouse_fbs_id warehouse_dbs_id st).1 = Waiting) ∧
     ∃ met,
       failures_met st
         (MarketRun.main market_token campaign_fbs_id campaign_dbs_id
                         warehouse_fbs_id warehouse_dbs_id st).2 met ∧
       (∀ e, e ∈ met →
          printed (MarketRun.main market_token campaign_fbs_id campaign_dbs_id
                                  warehouse_fbs_id warehouse_dbs_id st).2
          = printed st ++ [notice_of e] ∧
          (MarketRun.main market_token campaign_fbs_id campaign_dbs_id
                          warehouse_fbs_id warehouse_dbs_id st).1 = Done ()) ∧
       (met = [] →
          printed (MarketRun.main market_token campaign_fbs_id campaign_dbs_id
                                  warehouse_fbs_id warehouse_dbs_id st).2
          = printed st ∨
          ∃ exn,
            printed (MarketRun.main market_token campaign_fbs_id campaign_dbs_id
                                    warehouse_fbs_id warehouse_dbs_id st).2
            = printed st ++ [notice_of (Py exn)] ∧
            (MarketRun.main market_token campaign_fbs_id campaign_dbs_id
                            warehouse_fbs_id warehouse_dbs_id st).1 = Done ())) ∧
  (∀ watch_remnants st1 offer_ids st2 exn,
     download_stock st = (Done watch_remnants, st1) →
     MarketRun.get_offer_ids campaign_fbs_id market_token st1 = (Done offer_ids, st2) →
     (Market.create_stocks watch_remnants offer_ids warehouse_fbs_id (local st2)).1
     = Raise exn →
     (MarketRun.main market_token campaign_fbs_id campaign_dbs_id
                     warehouse_fbs_id warehouse_dbs_id st).1 = Done () ∧
     printed (MarketRun.main market_token campaign_fbs_id campaign_dbs_id
                             warehouse_fbs_id warehouse_dbs_id st).2
     = printed st ++ [Notice (Some (Py exn)) "ERROR_2"] ∧
     sent (MarketRun.main market_token campaign_fbs_id campaign_dbs_id
                          warehouse_fbs_id warehouse_dbs_id st).2 = sent st2).
Proof.
  split_and!.
  - unfold MarketRun.main. rewrite run_bind_N. unfold download_stock, exchange.
    destruct st as [w reqs oz mk up ar pr]. cbn [log archives].
    by intros e rest ->.
  - intros rows rest Harchives.
    assert (Hfeed : download_stock st
                    = (Done rows, with_archives (log GetArchive st) rest)).
    { unfold download_stock, exchange. destruct st as [w reqs oz mk up ar pr].
      cbn [log archives] in *. by rewrite Harchives. }
    unfold MarketRun.main. rewrite run_bind_N, Hfeed.
    match goal with
    | |- context [try_except ?body report ?s] =>
        destruct (try_report_orderly body s) as (Hends & met & Hmet & Hrep & Hnone)
    end.
    { apply orderly_bind; [apply orderly_market_get_offer_ids|intros offer_ids].
      apply orderly_bind; [apply orderly_lift_M|intros stocks].
      apply orderly_bind; [apply orderly_lift_M|intros chunks].
      apply orderly_bind;
        [apply orderly_for_each; intros c; apply orderly_update|intros _].
      apply orderly_bind; [apply orderly_ret|intros _].
      apply orderly_bind; [apply orderly_market_get_offer_ids|intros offer_ids'].
      apply orderly_bind; [apply orderly_lift_M|intros stocks'].
      apply orderly_bind; [apply orderly_lift_M|intros chunks'].
      apply orderly_bind;
        [apply orderly_for_each; intros c; apply orderly_update|intros _].
      apply orderly_ret. }
    split; [exact Hends|]. exists met. split; [|by split].
    apply (failures_met_trans st (with_archives (log GetArchive st) rest) _ [] met);
      [|exact Hmet].
    exists [], [], [], [inr rows]. destruct st as [w reqs oz mk up ar pr].
    cbn in *. rewrite Harchives. split_and!; try done. one_reply.
  - intros watch_remnants st1 offer_ids st2 exn Hfeed Hget Hstocks.
    pose proof (orderly_download_stock st) as [Hpr1 _].
    pose proof (orderly_market_get_offer_ids campaign_fbs_id market_token st1)
      as [Hpr2 _].
    rewrite Hfeed in Hpr1. rewrite Hget in Hpr2. cbn [fst snd] in *.
    destruct (Market.create_stocks watch_remnants offer_ids warehouse_fbs_id
                                   (local st2)) as [[stocks|e] w] eqn:Hrun;
      cbn [fst] in Hstocks; [done|].
    injection Hstocks as ->.
    assert (Hexn : exn = ValueError ∨ exn = TypeError).
    { destruct (market_get_offer_ids_run campaign_fbs_id market_token st1)
        as (_ & _ & Hout).
      rewrite Hget in Hout. cbn [fst snd] in Hout.
      destruct Hout as (pages & _ & _ & Hlocal).
      rewrite Hlocal in Hrun.
      rewrite (market_create_stocks_run _ _ _ _ _ (with_list_lookup _ _ _)) in Hrun.
      destruct (match_rows _ _ _ _) as [[out|e] ids'] eqn:Hrows; [done|].
      injection Hrun as -> _.
      eapply (match_rows_errors _ watch_remnants _ []). by rewrite Hrows. }
    assert (Hmain : MarketRun.main market_token campaign_fbs_id campaign_dbs_id
                                   warehouse_fbs_id warehouse_dbs_id st
                    = report (Py exn) (with_local st2 w)).
    { unfold MarketRun.main. rewrite run_bind_N, Hfeed. unfold try_except.
      rewrite run_bind_N, Hget, run_bind_N. unfold lift_M at 1. by rewrite Hrun. }
    rewrite Hmain, report_notice. unfold print.
    cbn [fst snd printed sent with_local].
    rewrite Hpr2, Hpr1. split; [done|]. split; [|done].
    by destruct Hexn as [->| ->].
Qed.

(** ** Sending the chunks *)

Section dispatch.
Context {E : Type} (mk : list E → request).

Lemma run_dispatch_done (chunks : list (list E)) :
  ∀ st rest,
    updates st = replicate (length chunks) (inr ()) ++ rest →
    for_each chunks (λ c, exchange (mk c) updates with_updates) st
    = (Done (), Remote (local st) (sent st ++ map mk chunks) (ozon_pages st)
                       (market_pages st) rest (archives st) (printed st)).
Proof.
  induction chunks as [|c chunks IH]; intros st rest Hup.
  - destruct st. simpl in *. subst. by rewrite app_nil_r.
  - cbn [for_each]. rewrite run_bind_N. unfold exchange at 1.
    destruct st as [w reqs oz mkt up ar pr]. cbn [log updates] in *.
    rewrite Hup. cbn [length replicate app with_updates log].
    rewrite (IH _ rest) by done. simpl. by rewrite <- app_assoc.
Qed.

Lemma run_dispatch_fails (chunks : list (list E)) :
  ∀ k st e rest,
    updates st = replicate k (inr ()) ++ inl e :: rest →
    (k < length chunks)%nat →
    for_each chunks (λ c, exchange (mk c) updates with_updates) st
    = (Failed e, Remote (local st) (sent st ++ map mk (take (S k) chunks))
                        (ozon_pages st) (market_pages st) rest (archives st)
                        (printed st)).
Proof.
  induction chunks as [|c chunks IH]; intros k st e rest Hup Hk; [simpl in Hk; lia|].
  cbn [for_each]. rewrite run_bind_N. unfold exchange at 1.
  destruct st as [w reqs oz mkt up ar pr]. cbn [log updates] in *.
  rewrite Hup. destruct k as [|k].
  - simpl. by rewrite ?take_0.
  - cbn [replicate app with_updates log].
    rewrite (IH k _ e rest) by (simpl in *; done || lia).
    simpl. by rewrite <- app_assoc.
Qed.

(** The loop when it ends: as many updates were answered as there are
    chunks, and every chunk was sent. *)
Lemma run_dispatch_ends (chunks : list (list E)) :
  ∀ st st',
    for_each chunks (λ c, exchange (mk c) updates with_updates) st = (Done (), st') →
    updates st = replicate (length chunks) (inr ()) ++ updates st' ∧
    st' = Remote (local st) (sent st ++ map mk chunks) (ozon_pages st)
                 (market_pages st) (updates st') (archives st) (printed st).
Proof.
  induction chunks as [|c chunks IH]; intros st st'.
  - intros [= <-]. destruct st. simpl. by rewrite app_nil_r.
  - cbn [for_each]. rewrite run_bind_N. unfold exchange at 1.
    destruct st as [w reqs oz mkt up ar pr]. cbn [log updates].
    destruct up as [|[e|[]] rest]; [done..|].
    intros [Hup ->]%IH. simpl in *. split; [by rewrite Hup|].
    by rewrite <- app_assoc.
Qed.

End dispatch.

(** X13. The loops that send the chunks, one [update_stocks] or
    [update_price] call per chunk ([exchange] on the script of updates),
    go chunk by chunk and stop at the first failure: when the first [k]
    updates are answered and the next one fails with [e], the loop raises
    [e] having sent exactly the first [k + 1] chunks, in order, and none
    of the later ones; when as many updates are answered as there are
    chunks, every chunk has been sent, in order. *)
Theorem dispatch_stops_at_first_failure {E} (mk : list E → request)
    (chunks : list (list E)) (st : remote) (rest : list (failure + unit)) :
  (∀ k e,
     updates st = replicate k (inr ()) ++ inl e :: rest →
     (k < length chunks)%nat →
     for_each chunks (λ c, exchange (mk c) updates with_updates) st
     = (Failed e, Remote (local st) (sent st ++ map mk (take (S k) chunks))
                         (ozon_pages st) (market_pages st) rest (archives st)
                         (printed st))) ∧
  (updates st = replicate (length chunks) (inr ()) ++ rest →
   for_each chunks (λ c, exchange (mk c) updates with_updates) st
   = (Done (), Remote (local st) (sent st ++ map mk chunks) (ozon_pages st)
                      (market_pages st) rest (archives st) (printed st))).
Proof.
  split.
  - intros k e. apply run_dispatch_fails.
  - apply run_dispatch_done.
Qed.

(** X14. When the coroutine [upload_stocks] of seller.py runs to its end,
    it has read the pages of one enumeration of the catalog, and the
    second list it returns is the stock list that [create_stocks] builds
    from the feed and a new list object holding the offer ids of that
    enumeration; the first list is the entries of the second whose stock is
    not [0], in the same order.  What it has sent is the listing requests
    of the enumeration, one per page, followed by the chunks of a hundred
    of the stock list, in order, one import per chunk, each of which was
    answered: every entry of the stock list has gone out exactly once.  The
    store it leaves is the one [create_stocks] has left; nothing is
    printed. *)
Theorem seller_upload_stocks_returns `{U : UnicodeDB}
    (watch_remnants : list feed_row) (client_id seller_token : string)
    (st st' : remote) (not_empty stocks : list Seller.stock_entry) :
  SellerRun.upload_stocks watch_remnants client_id seller_token st
    = (Done (not_empty, stocks), st') →
  not_empty = filter (λ stock, Seller.stock stock ≠ 0) stocks ∧
  ∃ pages ids offer_ids chunks,
    ozon_pages st = map inr pages ++ ozon_pages st' ∧
    Seller.get_offer_ids (map Ok pages) = Some (Ok ids) ∧
    heap (local st) !! offer_ids = None ∧
    Seller.create_stocks watch_remnants offer_ids
                         (with_list (local st) offer_ids ids)
    = (Ok stocks, local st') ∧
    Seller.divide stocks 100 = Ok chunks ∧
    concat chunks = stocks ∧
    updates st = replicate (length chunks) (inr ()) ++ updates st' ∧
    sent st' = sent st
               ++ map (OzonProductList client_id seller_token)
                      (take (length pages) ("" :: map Seller.last_id pages))
               ++ map (OzonImportStocks client_id seller_token) chunks ∧
    market_pages st' = market_pages st ∧ archives st' = archives st ∧
    printed st' = printed st.
Proof.
  unfold SellerRun.upload_stocks. rewrite run_bind_N.
  destruct (SellerRun.get_offer_ids client_id seller_token st) as [[r|e|] s1] eqn:Hget;
    [|done..].
  apply seller_get_offer_ids_done in Hget
    as (pages & ids & Hscript & Hids & Hfresh & Hlocal & Hsent & Hmk & Hup & Har & Hpr).
  rewrite run_bind_N. unfold lift_M at 1. rewrite Hlocal.
  destruct (Seller.create_stocks watch_remnants r _) as [[stocks0|e] w1] eqn:Hstocks;
    [|done].
  rewrite run_bind_N. unfold lift_M at 1, lift.
  destruct (Seller.divide stocks0 100) as [chunks|e] eqn:Hdiv; [|done].
  cbn [local with_local]. rewrite run_bind_N.
  destruct (for_each chunks _ _) as [[[]|e|] s4] eqn:Hsend; [|done..].
  apply (run_dispatch_ends (OzonImportStocks client_id seller_token)) in Hsend
    as [Hused ->].
  intros [= <- <- <-]. split; [done|].
  exists pages, ids, r, chunks. cbn in *.
  split_and!; try done.
  - by apply (divide_chunk_facts stocks0 100 chunks ltac:(lia)).
  - by rewrite <- Hup.
  - by rewrite Hsent, <- app_assoc.
Qed.

(** ** Repeated offer ids *)

(** X15. Whatever list of offer ids [create_stocks] is given, with or
    without repetitions, the offer ids of the stock list it returns are
    the ids of that list, each as often as the list has it; an id listed
    twice gets two entries. *)
Theorem create_stocks_keeps_multiplicity `{U : UnicodeDB}
    (watch_remnants : list feed_row) (offer_ids : loc) (warehouse_id : string)
    (w : world) (ids : list string) :
  heap w !! offer_ids = Some ids →
  (∀ stocks, (Seller.create_stocks watch_remnants offer_ids w).1 = Ok stocks →
     map Seller.offer_id stocks ≡ₚ ids) ∧
  (∀ stocks,
     (Market.create_stocks watch_remnants offer_ids warehouse_id w).1 = Ok stocks →
     map Market.sku stocks ≡ₚ ids).
Proof.
  intros Hids. split; intros stocks.
  - rewrite (seller_create_stocks_run _ _ _ _ Hids).
    destruct (match_rows _ _ _ _) as [[out|e] ids'] eqn:Hrun; simpl; [|done].
    intros [= <-]. rewrite map_app, map_map.
    rewrite (map_ext _ id) by done. rewrite map_id.
    by rewrite (match_rows_perm Seller.StockEntry Seller.offer_id
                  ltac:(done) _ _ _ _ _ Hrun).
  - rewrite (market_create_stocks_run _ _ _ _ _ Hids).
    destruct (match_rows _ _ _ _) as [[out|e] ids'] eqn:Hrun; simpl; [|done].
    intros [= <-]. rewrite map_app, map_map.
    rewrite (map_ext _ id) by done. rewrite map_id.
    apply (match_rows_perm _ Market.sku) in Hrun; [|done].
    by rewrite Hrun.
Qed.

(** An offer listed twice, with one row in the feed: one entry with the
    quantity of the row and one with [0]. *)
Lemma create_stocks_keeps_multiplicity_witness :
  map Seller.offer_id [Seller.StockEntry "73397" 100; Seller.StockEntry "73397" 0]
    ≡ₚ ["73397"; "73397"].
Proof.
  refine (proj1 (create_stocks_keeps_multiplicity (U := ascii_numbers_only)
    [row (PyInt 73397) (PyStr "22'990.00 руб.") (PyStr ">10")] 0%nat "WAREHOUSE_ID"
    (sample_world ["73397"; "73397"]) ["73397"; "73397"] _) _ _).
  - reflexivity.
  - vm_compute. reflexivity.
Defined.

(** ** Instances *)

Lemma seller_get_offer_ids_stops_witness :
  Seller.get_offer_ids
    (map Ok [Seller.ProductPage ["73397"; "73398"] 3 "a";
             Seller.ProductPage ["73399"] 3 "b"] ++ [Raise HTTPError])
  = Some (Ok (ozon_ids [Seller.ProductPage ["73397"; "73398"] 3 "a";
                        Seller.ProductPage ["73399"] 3 "b"] 2)).
Proof.
  refine (proj1 (seller_get_offer_ids_stops
    [Seller.ProductPage ["73397"; "73398"] 3 "a"; Seller.ProductPage ["73399"] 3 "b"]
    [Raise HTTPError]) 1%nat _ _).
  - eexists. split; [reflexivity|]. vm_compute. reflexivity.
  - intros [|j] Hj; [|lia]. intros (page & [= <-] & Htotal).
    vm_compute in Htotal. discriminate.
Defined.

Lemma market_get_offer_ids_stops_witness :
  Market.get_offer_ids
    (map Ok [Market.ProductPage ["73397"; "73398"] (PyStr "t");
             Market.ProductPage ["73399"] (PyStr "")] ++ [Raise HTTPError])
  = Some (Ok (market_ids [Market.ProductPage ["73397"; "73398"] (PyStr "t");
                          Market.ProductPage ["73399"] (PyStr "")] 2)).
Proof.
  refine (proj1 (market_get_offer_ids_stops
    [Market.ProductPage ["73397"; "73398"] (PyStr "t");
     Market.ProductPage ["73399"] (PyStr "")]
    [Raise HTTPError]) 1%nat _ _).
  - eexists. split; reflexivity.
  - intros [|j] Hj; [|lia]. intros (page & [= <-] & Htoken).
    vm_compute in Htoken. discriminate.
Defined.

Lemma seller_run_get_offer_ids_witness :
  ∃ pages ids,
    Seller.get_offer_ids (map Ok pages) = Some (Ok ids) ∧
    sent (SellerRun.get_offer_ids "id" "token"
            (sample_remote [inr (Seller.ProductPage ["73397"] 2 "a");
                            inr (Seller.ProductPage ["73398"] 2 "b");
                            inl (Py HTTPError)] [] [] [])).2
    = [] ++ map (OzonProductList "id" "token")
                (take (length pages) ("" :: map Seller.last_id pages)).
Proof.
  destruct (seller_run_get_offer_ids "id" "token"
    (sample_remote [inr (Seller.ProductPage ["73397"] 2 "a");
                    inr (Seller.ProductPage ["73398"] 2 "b");
                    inl (Py HTTPError)] [] [] [])
    (SellerRun.get_offer_ids "id" "token"
       (sample_remote [inr (Seller.ProductPage ["73397"] 2 "a");
                       inr (Seller.ProductPage ["73398"] 2 "b");
                       inl (Py HTTPError)] [] [] [])).2
    0%nat ltac:(vm_compute; reflexivity))
    as (pages & ids & _ & Hids & _ & _ & Hsent & _).
  exists pages, ids. split; [exact Hids|exact Hsent].
Defined.

Lemma market_run_get_offer_ids_witness :
  ∃ pages ids,
    Market.get_offer_ids (map Ok pages) = Some (Ok ids) ∧
    sent (MarketRun.get_offer_ids "fbs" "token"
            (sample_remote [] [inr (Market.ProductPage ["73397"] (PyStr "t"));
                               inr (Market.ProductPage ["73398"] PyNone)] [] [])).2
    = [] ++ map (MarketOfferMappingEntries "fbs" "token")
                (take (length pages) (PyStr "" :: map Market.nextPageToken pages)).
Proof.
  destruct (market_run_get_offer_ids "fbs" "token"
    (sample_remote [] [inr (Market.ProductPage ["73397"] (PyStr "t"));
                       inr (Market.ProductPage ["73398"] PyNone)] [] [])
    (MarketRun.get_offer_ids "fbs" "token"
       (sample_remote [] [inr (Market.ProductPage ["73397"] (PyStr "t"));
                          inr (Market.ProductPage ["73398"] PyNone)] [] [])).2
    0%nat ltac:(vm_compute; reflexivity))
    as (pages & ids & _ & Hids & _ & _ & Hsent & _).
  exists pages, ids. split; [exact Hids|exact Hsent].
Defined.

Lemma seller_main_sends_no_prices_witness :
  sent_since (seller_main_request "id" "token")
    (sample_remote [inr (Seller.ProductPage ["73397"] 2 "a");
                    inr (Seller.ProductPage ["73398"] 2 "b")]
                   [] [inr ()]
                   [inr [row (PyInt 73397) (PyStr "22'990.00 руб.") (PyStr ">10")]])
    (SellerRun.main (U := ascii_numbers_only) "token" "id"
       (sample_remote [inr (Seller.ProductPage ["73397"] 2 "a");
                       inr (Seller.ProductPage ["73398"] 2 "b")]
                      [] [inr ()]
                      [inr [row (PyInt 73397) (PyStr "22'990.00 руб.") (PyStr ">10")]])).2.
Proof.
  refine (proj1 (seller_main_sends_no_prices (U := ascii_numbers_only) "token" "id"
    (sample_remote [inr (Seller.ProductPage ["73397"] 2 "a");
                    inr (Seller.ProductPage ["73398"] 2 "b")]
                   [] [inr ()]
                   [inr [row (PyInt 73397) (PyStr "22'990.00 руб.") (PyStr ">10")]])
    _)).
  apply (bool_decide_unpack _). vm_compute. exact I.
Defined.

Lemma seller_upload_stocks_returns_witness :
  [Seller.StockEntry "73397" 100]
  = filter (λ stock, Seller.stock stock ≠ 0)
      [Seller.StockEntry "73397" 100; Seller.StockEntry "73398" 0].
Proof.
  refine (proj1 (seller_upload_stocks_returns (U := ascii_numbers_only)
    [row (PyInt 73397) (PyStr "22'990.00 руб.") (PyStr ">10")] "id" "token"
    (sample_remote [inr (Seller.ProductPage ["73397"] 2 "a");
                    inr (Seller.ProductPage ["73398"] 2 "b")] [] [inr ()] [])
    (SellerRun.upload_stocks (U := ascii_numbers_only)
       [row (PyInt 73397) (PyStr "22'990.00 руб.") (PyStr ">10")] "id" "token"
       (sample_remote [inr (Seller.ProductPage ["73397"] 2 "a");
                       inr (Seller.ProductPage ["73398"] 2 "b")] [] [inr ()] [])).2
    [Seller.StockEntry "73397" 100]
    [Seller.StockEntry "73397" 100; Seller.StockEntry "73398" 0] _)).
  vm_compute. reflexivity.
Defined.
